(** * pyosuio: the beatmap loader and its timing resolver

    A shallow embedding of [src/beatmap.py] (the loader with curve
    segmentation and the two resolver passes) and of [src/beatmap/main.py]
    (the earlier loader, fields named after the on-disk keys).

    Modelling conventions.
    - Python [int] is [Z]; [<<] and [&] are [Z.shiftl] and [Z.land].
    - [Decimal] is an exact rational [Q]: the model has the finite decimals
      only and computes with them exactly.  The rounding of the default
      context to 28 digits, its Overflow, and the special values NaN and
      Infinity are outside the model (a literal spelling one of them, which
      [Decimal()] accepts, is a conversion error here).  So the numbered
      properties say of a computed product or quotient either nothing, or
      what holds of it after rounding too: that it is 0, or a value that is
      exact in 28 digits.
    - [str] is [string] restricted to ASCII, so the whitespace [strip] and
      [Decimal] remove is the ASCII whitespace of [str.isspace], and the
      whitespace [int] skips is the smaller class of the C locale.
    - An exception is a value of [Exception]; code that can raise returns a
      [Result].
    - Objects that are mutated through a second list ([sorted] returns the
      same objects in another order) live in the list they were appended to,
      and a reference is an index into that list. *)

From Stdlib Require Import ZArith QArith String Ascii Bool Lia Sorted.
From stdpp Require Import base list.

Local Open Scope string_scope.
Local Open Scope list_scope.
Local Open Scope Z_scope.

(** ** Exceptions and results *)

Inductive Exception : Type :=
| ValueError        (* int(), unpacking, Enum(value) *)
| IndexError        (* list[i] out of range *)
| AttributeError    (* attribute of a class the object is not an instance of *)
| InvalidOperation  (* decimal: conversion syntax, 0 / 0 *)
| DivisionByZero.   (* decimal: x / 0 *)

Inductive Result (A : Type) : Type :=
| Ok (a : A)
| Raise (e : Exception).
Arguments Ok {A} a.
Arguments Raise {A} e.

#[global] Instance Result_ret : MRet Result := fun _ a => Ok a.
#[global] Instance Result_bind : MBind Result := fun _ _ f m =>
  match m with Ok a => f a | Raise e => Raise e end.
#[global] Instance Result_fmap : FMap Result := fun _ _ f m =>
  match m with Ok a => Ok (f a) | Raise e => Raise e end.

(** [[f(x) for x in l]]: the first failure aborts the comprehension. *)
Fixpoint mapR {A B} (f : A -> Result B) (l : list A) : Result (list B) :=
  match l with
  | [] => Ok []
  | a :: l' => b ← f a; bs ← mapR f l'; Ok (b :: bs)
  end.

(** The loop [for x in l: state = body(state, x)] with a body that can raise. *)
Fixpoint foldR {S A} (body : S -> A -> Result S) (s : S) (l : list A) : Result S :=
  match l with
  | [] => Ok s
  | a :: l' => s' ← body s a; foldR body s' l'
  end.

(** ** The builtins the loader calls *)

Module Py.

(** [str.isspace] on ASCII: tab, LF, VT, FF, CR, FS, GS, RS, US, space. *)
Definition isspace (c : ascii) : bool :=
  let n := N_of_ascii c in
  ((9 <=? n) && (n <=? 13) || (28 <=? n) && (n <=? 32))%N.

(** The whitespace [int()] skips around a number: tab, LF, VT, FF, CR, space. *)
Definition isspace_int (c : ascii) : bool :=
  let n := N_of_ascii c in
  ((9 <=? n) && (n <=? 13) || (n =? 32))%N.

(** Stripping, for a class [space] of characters. *)
Section Strip.
Context (space : ascii -> bool).

Fixpoint lstrip_of (s : string) : string :=
  match s with
  | String c r => if space c then lstrip_of r else s
  | EmptyString => EmptyString
  end.

Fixpoint rstrip_of (s : string) : string :=
  match s with
  | String c r =>
      match rstrip_of r with
      | EmptyString => if space c then EmptyString else String c EmptyString
      | r' => String c r'
      end
  | EmptyString => EmptyString
  end.

Definition strip_of (s : string) : string := lstrip_of (rstrip_of s).
End Strip.

(** [s.lstrip()], [s.rstrip()], [s.strip()] *)
Definition lstrip : string -> string := lstrip_of isspace.
Definition rstrip : string -> string := rstrip_of isspace.
Definition strip : string -> string := strip_of isspace.

(** [s.split(sep)] for a one-character separator: never the empty list. *)
Fixpoint split (sep : ascii) (s : string) : list string :=
  match s with
  | EmptyString => [EmptyString]
  | String c r =>
      if Ascii.eqb c sep then EmptyString :: split sep r
      else match split sep r with
           | w :: ws => String c w :: ws
           | [] => [String c EmptyString]
           end
  end.

(** [s.split(sep, maxsplit=1)]: cut at the first separator, if there is one. *)
Fixpoint split1 (sep : ascii) (s : string) : list string :=
  match s with
  | EmptyString => [EmptyString]
  | String c r =>
      if Ascii.eqb c sep then [EmptyString; r]
      else match split1 sep r with
           | w :: ws => String c w :: ws
           | [] => [String c EmptyString]
           end
  end.

Definition startswith (p s : string) : bool := String.prefix p s.

(** [s[n:]] *)
Fixpoint slice_from (n : nat) (s : string) : string :=
  match n, s with
  | O, _ => s
  | S n', String _ r => slice_from n' r
  | S _, EmptyString => EmptyString
  end.

(** [s[:-1]] *)
Fixpoint drop_last (s : string) : string :=
  match s with
  | EmptyString => EmptyString
  | String c EmptyString => EmptyString
  | String c r => String c (drop_last r)
  end.

(** [s[1:-1]] *)
Definition slice_1_m1 (s : string) : string := drop_last (slice_from 1 s).

Definition isdigit (c : ascii) : bool :=
  let n := N_of_ascii c in ((48 <=? n) && (n <=? 57))%N.

Definition digit_value (c : ascii) : Z := Z.of_N (N_of_ascii c) - 48.

(** Decimal digits with single underscores between digits, as [int()]
    accepts them; [prev] tells whether the previous character was a digit. *)
Fixpoint digits (acc : Z) (prev : bool) (s : string) : option Z :=
  match s with
  | EmptyString => if prev then Some acc else None
  | String c r =>
      if isdigit c then digits (10 * acc + digit_value c) true r
      else if Ascii.eqb c "_" then (if prev then digits acc false r else None)
      else None
  end.

(** [int(s)] on a string: surrounding whitespace, an optional sign, digits. *)
Definition int (s : string) : Result Z :=
  let s := strip_of isspace_int s in
  let '(sign, body) :=
    match s with
    | String "-" r => (-1, r)
    | String "+" r => (1, r)
    | _ => (1, s)
    end in
  match digits 0 false body with
  | Some n => Ok (sign * n)
  | None => Raise ValueError
  end.

(** [bool(n)] on an int *)
Definition bool_of_int (n : Z) : bool := negb (n =? 0).

Fixpoint remove_underscores (s : string) : string :=
  match s with
  | EmptyString => EmptyString
  | String c r => if Ascii.eqb c "_" then remove_underscores r
                  else String c (remove_underscores r)
  end.

(** A run of digits: its value, its length, and what follows it. *)
Fixpoint digit_run (acc : Z) (len : nat) (s : string) : Z * nat * string :=
  match s with
  | String c r => if isdigit c then digit_run (10 * acc + digit_value c) (S len) r
                  else (acc, len, s)
  | EmptyString => (acc, len, s)
  end.

Definition take_sign (s : string) : bool * string :=
  match s with
  | String "-" r => (true, r)
  | String "+" r => (false, r)
  | _ => (false, s)
  end.

(** [10 ** e] as a rational, for any integer [e]. *)
Definition pow10 (e : Z) : Q :=
  if e <? 0 then 1 # Pos.pow 10 (Z.to_pos (- e)) else inject_Z (10 ^ e).

(** [Decimal(s)] on a string holding a finite number:
    [sign] (digits [. [digits]] | . digits) [(e|E) [sign] digits]. *)
Definition Decimal (s : string) : Result Q :=
  let s := remove_underscores (strip s) in
  let '(neg, s) := take_sign s in
  let '(ip, ilen, s) := digit_run 0 0 s in
  let '(fp, flen, s) :=
    match s with
    | String "." r => digit_run ip 0 r
    | _ => (ip, O, s)
    end in
  if (ilen + flen =? 0)%nat then Raise InvalidOperation else
  let exponent : option Z :=
    match s with
    | EmptyString => Some 0
    | String c r =>
        if Ascii.eqb c "e" || Ascii.eqb c "E" then
          let '(eneg, r) := take_sign r in
          match digit_run 0 0 r with
          | (_, O, _) => None
          | (e, _, EmptyString) => Some (if eneg then - e else e)
          | _ => None
          end
        else None
    end in
  match exponent with
  | Some e =>
      let m := inject_Z (if neg then - fp else fp) in
      Ok (m * pow10 (e - Z.of_nat flen))%Q
  | None => Raise InvalidOperation
  end.

(** [a / b] on decimals *)
Definition div (a b : Q) : Result Q :=
  if Qeq_bool b 0 then
    if Qeq_bool a 0 then Raise InvalidOperation else Raise DivisionByZero
  else Ok (a / b)%Q.

(** [l[i]] *)
Definition index {A} (l : list A) (i : nat) : Result A :=
  match l !! i with
  | Some a => Ok a
  | None => Raise IndexError
  end.

(** [l[-1]] *)
Definition index_last {A} (l : list A) : Result A :=
  match last l with
  | Some a => Ok a
  | None => Raise IndexError
  end.

(** [sorted(l, key=...)]: a stable sort.  [insert] puts an item before the
    first one whose key is not smaller, so equal keys keep their order. *)
Section Sorted.
Context {A K : Type} (leb : K -> K -> bool) (key : A -> K).

Fixpoint insert (a : A) (l : list A) : list A :=
  match l with
  | [] => [a]
  | b :: l' => if leb (key a) (key b) then a :: l else b :: insert a l'
  end.

Definition sorted (l : list A) : list A := foldr insert [] l.
End Sorted.

(** [enumerate(l)]: every object with its reference. *)
Definition enumerate {A} (l : list A) : list (nat * A) := imap (fun i a => (i, a)) l.

End Py.

(** ** The data model of [src/beatmap.py] *)

Module Countdown.
Inductive t : Type := NO_COUNTDOWN | NORMAL | HALF | DOUBLE.
End Countdown.

Module SampleSet.
Inductive t : Type := NORMAL | SOFT | DRUM.
End SampleSet.

Module GameMode.
Inductive t : Type := STANDARD | TAIKO | CATCH | MANIA.
End GameMode.

Module OverlayPosition.
Inductive t : Type := NO_CHANGE | BELOW | ABOVE.
End OverlayPosition.

(** The settings classes.  A field whose default is an enum member and whose
    loaded value is the raw [int] or [str] holds either. *)

Module General.
Record t : Type := mk {
  audio_filename : string;
  audio_lead_in : Z;
  audio_hash : string;
  preview_time : Z;
  countdown : Countdown.t + Z;
  sample_set : SampleSet.t + string;
  stack_leniency : Q;
  mode : GameMode.t + Z;
  letterbox_in_breaks : bool;
  story_fire_in_front : bool;
  use_skin_sprites : bool;
  always_show_playfield : bool;
  overlay_position : OverlayPosition.t + string;
  skin_preference : string;
  epilepsy_warning : bool;
  countdown_offset : Z;
  special_style : bool;
  widescreen_storyboard : bool;
  samples_match_playback_rate : bool
}.
(** the dataclass defaults *)
Definition default : t :=
  mk "" 0 "" (-1) (inl Countdown.NORMAL) (inl SampleSet.NORMAL) 0.7%Q (inl
     GameMode.STANDARD) false true false false (inl OverlayPosition.NO_CHANGE) "" false
     0 false false false.
Definition set_audio_filename (v : string) (r : t) : t :=
  mk v (audio_lead_in r) (audio_hash r) (preview_time r) (countdown r) (sample_set r)
     (stack_leniency r) (mode r) (letterbox_in_breaks r) (story_fire_in_front r)
     (use_skin_sprites r) (always_show_playfield r) (overlay_position r)
     (skin_preference r) (epilepsy_warning r) (countdown_offset r) (special_style r)
     (widescreen_storyboard r) (samples_match_playback_rate r).
Definition set_audio_lead_in (v : Z) (r : t) : t :=
  mk (audio_filename r) v (audio_hash r) (preview_time r) (countdown r) (sample_set r)
     (stack_leniency r) (mode r) (letterbox_in_breaks r) (story_fire_in_front r)
     (use_skin_sprites r) (always_show_playfield r) (overlay_position r)
     (skin_preference r) (epilepsy_warning r) (countdown_offset r) (special_style r)
     (widescreen_storyboard r) (samples_match_playback_rate r).
Definition set_audio_hash (v : string) (r : t) : t :=
  mk (audio_filename r) (audio_lead_in r) v (preview_time r) (countdown r) (sample_set
     r) (stack_leniency r) (mode r) (letterbox_in_breaks r) (story_fire_in_front r)
     (use_skin_sprites r) (always_show_playfield r) (overlay_position r)
     (skin_preference r) (epilepsy_warning r) (countdown_offset r) (special_style r)
     (widescreen_storyboard r) (samples_match_playback_rate r).
Definition set_preview_time (v : Z) (r : t) : t :=
  mk (audio_filename r) (audio_lead_in r) (audio_hash r) v (countdown r) (sample_set r)
     (stack_leniency r) (mode r) (letterbox_in_breaks r) (story_fire_in_front r)
     (use_skin_sprites r) (always_show_playfield r) (overlay_position r)
     (skin_preference r) (epilepsy_warning r) (countdown_offset r) (special_style r)
     (widescreen_storyboard r) (samples_match_playback_rate r).
Definition set_countdown (v : Countdown.t + Z) (r : t) : t :=
  mk (audio_filename r) (audio_lead_in r) (audio_hash r) (preview_time r) v (sample_set
     r) (stack_leniency r) (mode r) (letterbox_in_breaks r) (story_fire_in_front r)
     (use_skin_sprites r) (always_show_playfield r) (overlay_position r)
     (skin_preference r) (epilepsy_warning r) (countdown_offset r) (special_style r)
     (widescreen_storyboard r) (samples_match_playback_rate r).
Definition set_sample_set (v : SampleSet.t + string) (r : t) : t :=
  mk (audio_filename r) (audio_lead_in r) (audio_hash r) (preview_time r) (countdown r)
     v (stack_leniency r) (mode r) (letterbox_in_breaks r) (story_fire_in_front r)
     (use_skin_sprites r) (always_show_playfield r) (overlay_position r)
     (skin_preference r) (epilepsy_warning r) (countdown_offset r) (special_style r)
     (widescreen_storyboard r) (samples_match_playback_rate r).
Definition set_stack_leniency (v : Q) (r : t) : t :=
  mk (audio_filename r) (audio_lead_in r) (audio_hash r) (preview_time r) (countdown r)
     (sample_set r) v (mode r) (letterbox_in_breaks r) (story_fire_in_front r)
     (use_skin_sprites r) (always_show_playfield r) (overlay_position r)
     (skin_preference r) (epilepsy_warning r) (countdown_offset r) (special_style r)
     (widescreen_storyboard r) (samples_match_playback_rate r).
Definition set_mode (v : GameMode.t + Z) (r : t) : t :=
  mk (audio_filename r) (audio_lead_in r) (audio_hash r) (preview_time r) (countdown r)
     (sample_set r) (stack_leniency r) v (letterbox_in_breaks r) (story_fire_in_front r)
     (use_skin_sprites r) (always_show_playfield r) (overlay_position r)
     (skin_preference r) (epilepsy_warning r) (countdown_offset r) (special_style r)
     (widescreen_storyboard r) (samples_match_playback_rate r).
Definition set_letterbox_in_breaks (v : bool) (r : t) : t :=
  mk (audio_filename r) (audio_lead_in r) (audio_hash r) (preview_time r) (countdown r)
     (sample_set r) (stack_leniency r) (mode r) v (story_fire_in_front r)
     (use_skin_sprites r) (always_show_playfield r) (overlay_position r)
     (skin_preference r) (epilepsy_warning r) (countdown_offset r) (special_style r)
     (widescreen_storyboard r) (samples_match_playback_rate r).
Definition set_story_fire_in_front (v : bool) (r : t) : t :=
  mk (audio_filename r) (audio_lead_in r) (audio_hash r) (preview_time r) (countdown r)
     (sample_set r) (stack_leniency r) (mode r) (letterbox_in_breaks r) v
     (use_skin_sprites r) (always_show_playfield r) (overlay_position r)
     (skin_preference r) (epilepsy_warning r) (countdown_offset r) (special_style r)
     (widescreen_storyboard r) (samples_match_playback_rate r).
Definition set_use_skin_sprites (v : bool) (r : t) : t :=
  mk (audio_filename r) (audio_lead_in r) (audio_hash r) (preview_time r) (countdown r)
     (sample_set r) (stack_leniency r) (mode r) (letterbox_in_breaks r)
     (story_fire_in_front r) v (always_show_playfield r) (overlay_position r)
     (skin_preference r) (epilepsy_warning r) (countdown_offset r) (special_style r)
     (widescreen_storyboard r) (samples_match_playback_rate r).
Definition set_always_show_playfield (v : bool) (r : t) : t :=
  mk (audio_filename r) (audio_lead_in r) (audio_hash r) (preview_time r) (countdown r)
     (sample_set r) (stack_leniency r) (mode r) (letterbox_in_breaks r)
     (story_fire_in_front r) (use_skin_sprites r) v (overlay_position r)
     (skin_preference r) (epilepsy_warning r) (countdown_offset r) (special_style r)
     (widescreen_storyboard r) (samples_match_playback_rate r).
Definition set_overlay_position (v : OverlayPosition.t + string) (r : t) : t :=
  mk (audio_filename r) (audio_lead_in r) (audio_hash r) (preview_time r) (countdown r)
     (sample_set r) (stack_leniency r) (mode r) (letterbox_in_breaks r)
     (story_fire_in_front r) (use_skin_sprites r) (always_show_playfield r) v
     (skin_preference r) (epilepsy_warning r) (countdown_offset r) (special_style r)
     (widescreen_storyboard r) (samples_match_playback_rate r).
Definition set_skin_preference (v : string) (r : t) : t :=
  mk (audio_filename r) (audio_lead_in r) (audio_hash r) (preview_time r) (countdown r)
     (sample_set r) (stack_leniency r) (mode r) (letterbox_in_breaks r)
     (story_fire_in_front r) (use_skin_sprites r) (always_show_playfield r)
     (overlay_position r) v (epilepsy_warning r) (countdown_offset r) (special_style r)
     (widescreen_storyboard r) (samples_match_playback_rate r).
Definition set_epilepsy_warning (v : bool) (r : t) : t :=
  mk (audio_filename r) (audio_lead_in r) (audio_hash r) (preview_time r) (countdown r)
     (sample_set r) (stack_leniency r) (mode r) (letterbox_in_breaks r)
     (story_fire_in_front r) (use_skin_sprites r) (always_show_playfield r)
     (overlay_position r) (skin_preference r) v (countdown_offset r) (special_style r)
     (widescreen_storyboard r) (samples_match_playback_rate r).
Definition set_countdown_offset (v : Z) (r : t) : t :=
  mk (audio_filename r) (audio_lead_in r) (audio_hash r) (preview_time r) (countdown r)
     (sample_set r) (stack_leniency r) (mode r) (letterbox_in_breaks r)
     (story_fire_in_front r) (use_skin_sprites r) (always_show_playfield r)
     (overlay_position r) (skin_preference r) (epilepsy_warning r) v (special_style r)
     (widescreen_storyboard r) (samples_match_playback_rate r).
Definition set_special_style (v : bool) (r : t) : t :=
  mk (audio_filename r) (audio_lead_in r) (audio_hash r) (preview_time r) (countdown r)
     (sample_set r) (stack_leniency r) (mode r) (letterbox_in_breaks r)
     (story_fire_in_front r) (use_skin_sprites r) (always_show_playfield r)
     (overlay_position r) (skin_preference r) (epilepsy_warning r) (countdown_offset r)
     v (widescreen_storyboard r) (samples_match_playback_rate r).
Definition set_widescreen_storyboard (v : bool) (r : t) : t :=
  mk (audio_filename r) (audio_lead_in r) (audio_hash r) (preview_time r) (countdown r)
     (sample_set r) (stack_leniency r) (mode r) (letterbox_in_breaks r)
     (story_fire_in_front r) (use_skin_sprites r) (always_show_playfield r)
     (overlay_position r) (skin_preference r) (epilepsy_warning r) (countdown_offset r)
     (special_style r) v (samples_match_playback_rate r).
Definition set_samples_match_playback_rate (v : bool) (r : t) : t :=
  mk (audio_filename r) (audio_lead_in r) (audio_hash r) (preview_time r) (countdown r)
     (sample_set r) (stack_leniency r) (mode r) (letterbox_in_breaks r)
     (story_fire_in_front r) (use_skin_sprites r) (always_show_playfield r)
     (overlay_position r) (skin_preference r) (epilepsy_warning r) (countdown_offset r)
     (special_style r) (widescreen_storyboard r) v.
End General.

Module Editor.
Record t : Type := mk {
  distance_spacing : Q;
  beat_divisor : Z;
  grid_size : Z;
  timeline_zoom : Q;
  bookmarks : list Z
}.
(** the dataclass defaults *)
Definition default : t :=
  mk 1%Q 4 64 0%Q [].
Definition set_distance_spacing (v : Q) (r : t) : t :=
  mk v (beat_divisor r) (grid_size r) (timeline_zoom r) (bookmarks r).
Definition set_beat_divisor (v : Z) (r : t) : t :=
  mk (distance_spacing r) v (grid_size r) (timeline_zoom r) (bookmarks r).
Definition set_grid_size (v : Z) (r : t) : t :=
  mk (distance_spacing r) (beat_divisor r) v (timeline_zoom r) (bookmarks r).
Definition set_timeline_zoom (v : Q) (r : t) : t :=
  mk (distance_spacing r) (beat_divisor r) (grid_size r) v (bookmarks r).
Definition set_bookmarks (v : list Z) (r : t) : t :=
  mk (distance_spacing r) (beat_divisor r) (grid_size r) (timeline_zoom r) v.
End Editor.

Module Metadata.
Record t : Type := mk {
  title : string;
  title_unicode : string;
  artist : string;
  artist_unicode : string;
  creator : string;
  version : string;
  source : string;
  tags : list string;
  beatmap_id : Z;
  beatmap_set_id : Z
}.
(** the dataclass defaults *)
Definition default : t :=
  mk "" "" "" "" "" "" "" [] (-1) (-1).
Definition set_title (v : string) (r : t) : t :=
  mk v (title_unicode r) (artist r) (artist_unicode r) (creator r) (version r) (source
     r) (tags r) (beatmap_id r) (beatmap_set_id r).
Definition set_title_unicode (v : string) (r : t) : t :=
  mk (title r) v (artist r) (artist_unicode r) (creator r) (version r) (source r) (tags
     r) (beatmap_id r) (beatmap_set_id r).
Definition set_artist (v : string) (r : t) : t :=
  mk (title r) (title_unicode r) v (artist_unicode r) (creator r) (version r) (source r)
     (tags r) (beatmap_id r) (beatmap_set_id r).
Definition set_artist_unicode (v : string) (r : t) : t :=
  mk (title r) (title_unicode r) (artist r) v (creator r) (version r) (source r) (tags
     r) (beatmap_id r) (beatmap_set_id r).
Definition set_creator (v : string) (r : t) : t :=
  mk (title r) (title_unicode r) (artist r) (artist_unicode r) v (version r) (source r)
     (tags r) (beatmap_id r) (beatmap_set_id r).
Definition set_version (v : string) (r : t) : t :=
  mk (title r) (title_unicode r) (artist r) (artist_unicode r) (creator r) v (source r)
     (tags r) (beatmap_id r) (beatmap_set_id r).
Definition set_source (v : string) (r : t) : t :=
  mk (title r) (title_unicode r) (artist r) (artist_unicode r) (creator r) (version r) v
     (tags r) (beatmap_id r) (beatmap_set_id r).
Definition set_tags (v : list string) (r : t) : t :=
  mk (title r) (title_unicode r) (artist r) (artist_unicode r) (creator r) (version r)
     (source r) v (beatmap_id r) (beatmap_set_id r).
Definition set_beatmap_id (v : Z) (r : t) : t :=
  mk (title r) (title_unicode r) (artist r) (artist_unicode r) (creator r) (version r)
     (source r) (tags r) v (beatmap_set_id r).
Definition set_beatmap_set_id (v : Z) (r : t) : t :=
  mk (title r) (title_unicode r) (artist r) (artist_unicode r) (creator r) (version r)
     (source r) (tags r) (beatmap_id r) v.
End Metadata.

Module Difficulty.
Record t : Type := mk {
  hp_drain_rate : Q;
  circle_size : Q;
  overall_difficulty : Q;
  approach_rate : Q;
  slider_multiplier : Q;
  slider_tick_rate : Q
}.
(** the dataclass defaults *)
Definition default : t :=
  mk 5%Q 5%Q 5%Q 5%Q 5%Q 5%Q.
Definition set_hp_drain_rate (v : Q) (r : t) : t :=
  mk v (circle_size r) (overall_difficulty r) (approach_rate r) (slider_multiplier r)
     (slider_tick_rate r).
Definition set_circle_size (v : Q) (r : t) : t :=
  mk (hp_drain_rate r) v (overall_difficulty r) (approach_rate r) (slider_multiplier r)
     (slider_tick_rate r).
Definition set_overall_difficulty (v : Q) (r : t) : t :=
  mk (hp_drain_rate r) (circle_size r) v (approach_rate r) (slider_multiplier r)
     (slider_tick_rate r).
Definition set_approach_rate (v : Q) (r : t) : t :=
  mk (hp_drain_rate r) (circle_size r) (overall_difficulty r) v (slider_multiplier r)
     (slider_tick_rate r).
Definition set_slider_multiplier (v : Q) (r : t) : t :=
  mk (hp_drain_rate r) (circle_size r) (overall_difficulty r) (approach_rate r) v
     (slider_tick_rate r).
Definition set_slider_tick_rate (v : Q) (r : t) : t :=
  mk (hp_drain_rate r) (circle_size r) (overall_difficulty r) (approach_rate r)
     (slider_multiplier r) v.
End Difficulty.

(** [Event] and its subclasses; the loader never builds one. *)
Inductive Event : Type :=
| Background (start_time : Z) (filename : string) (x_offset y_offset : Z)
| Video (start_time : Z) (filename : string) (x_offset y_offset : Z)
| Break (start_time : Z).

Module Events.
Record t : Type := mk { events : list Event }.
Definition default : t := mk [].
End Events.

Module TimingPointSampleSet.
Inductive t : Type := DEFAULT | NORMAL | SOFT | DRUM.
(** [TimingPointSampleSet(n)] *)
Definition of_value (n : Z) : Result t :=
  if n =? 0 then Ok DEFAULT
  else if n =? 1 then Ok NORMAL
  else if n =? 2 then Ok SOFT
  else if n =? 3 then Ok DRUM
  else Raise ValueError.
End TimingPointSampleSet.

Module Effects.
Record t : Type := mk { kiai_time : bool; bar_line : bool }.
End Effects.

Definition create_effects (x : Z) : Effects.t :=
  let kiai_time := Py.bool_of_int (Z.land (Z.shiftl x 0) 1) in
  let bar_line := Py.bool_of_int (Z.land (Z.shiftl x 3) 1) in
  Effects.mk kiai_time bar_line.

Module TimingPoint.
Record t : Type := mk {
  time : Q;
  meter : Z;
  sample_set : Z;
  sample_index : Z;
  volume : Z;
  uninherited : bool;
  effects : Effects.t;
  beat_duration : Q;
  sv_multiplier : Q
}.
Definition set_beat_duration (v : Q) (r : t) : t :=
  mk (time r) (meter r) (sample_set r) (sample_index r) (volume r) (uninherited r)
     (effects r) v (sv_multiplier r).
End TimingPoint.

Module Colors.
Record t : Type := mk {
  colors : list (list Z);
  slider_track_override : option (list Z);
  slider_border : option (list Z)
}.
(** the dataclass defaults *)
Definition default : t :=
  mk [] None None.
Definition set_colors (v : list (list Z)) (r : t) : t :=
  mk v (slider_track_override r) (slider_border r).
Definition set_slider_track_override (v : option (list Z)) (r : t) : t :=
  mk (colors r) v (slider_border r).
Definition set_slider_border (v : option (list Z)) (r : t) : t :=
  mk (colors r) (slider_track_override r) v.
End Colors.

Module HitObjectType.
Inductive t : Type := HIT_CIRCLE | SLIDER | SPINNER | HOLD_NOTE.
Definition value (ty : t) : Z :=
  match ty with
  | HIT_CIRCLE => 2 ^ 0
  | SLIDER => 2 ^ 1
  | SPINNER => 2 ^ 3
  | HOLD_NOTE => 2 ^ 7
  end.
(** [HitObjectType(n)] *)
Definition of_value (n : Z) : Result t :=
  if n =? value HIT_CIRCLE then Ok HIT_CIRCLE
  else if n =? value SLIDER then Ok SLIDER
  else if n =? value SPINNER then Ok SPINNER
  else if n =? value HOLD_NOTE then Ok HOLD_NOTE
  else Raise ValueError.
Definition eqb (a b : t) : bool :=
  match a, b with
  | HIT_CIRCLE, HIT_CIRCLE | SLIDER, SLIDER | SPINNER, SPINNER | HOLD_NOTE, HOLD_NOTE => true
  | _, _ => false
  end.
End HitObjectType.

Module HitSound.
Record t : Type := mk { normal : bool; whistle : bool; finish : bool; clap : bool }.
End HitSound.

Definition create_hit_sound (x : Z) : HitSound.t :=
  let normal := Py.bool_of_int (Z.land (Z.shiftl x 0) 1) in
  let whistle := Py.bool_of_int (Z.land (Z.shiftl x 1) 1) in
  let finish := Py.bool_of_int (Z.land (Z.shiftl x 2) 1) in
  let clap := Py.bool_of_int (Z.land (Z.shiftl x 3) 1) in
  HitSound.mk normal whistle finish clap.

Module HitSample.
Record t : Type := mk {
  normal_set : TimingPointSampleSet.t;
  addition_set : TimingPointSampleSet.t;
  index : Z;
  volume : Z;
  filename : string
}.
Definition default : t :=
  mk TimingPointSampleSet.DEFAULT TimingPointSampleSet.DEFAULT 0 0 "".
End HitSample.

Definition create_hit_sample (x : string) : Result HitSample.t :=
  match Py.split ":" x with
  | [normal_set; addition_set; index; volume; filename] =>
      normal_set ← Py.int normal_set;
      addition_set ← Py.int addition_set;
      index ← Py.int index;
      volume ← Py.int volume;
      normal_set ← TimingPointSampleSet.of_value normal_set;
      addition_set ← TimingPointSampleSet.of_value addition_set;
      Ok (HitSample.mk normal_set addition_set index volume filename)
  | _ => Raise ValueError
  end.

Module HitObject.
Record t : Type := mk {
  x : Z;
  y : Z;
  time : Z;
  type : HitObjectType.t;
  hit_sound : HitSound.t;
  new_combo : bool;
  combo_to_skip : Z;
  hit_sample : HitSample.t
}.
End HitObject.

Module CurveType.
Inductive t : Type := BEZIER | CATMULL | LINEAR | PERFECT.
Definition value (c : t) : string :=
  match c with BEZIER => "B" | CATMULL => "C" | LINEAR => "L" | PERFECT => "P" end.
(** [CurveType(s)] *)
Definition of_value (s : string) : Result t :=
  if (s =? "B")%string then Ok BEZIER
  else if (s =? "C")%string then Ok CATMULL
  else if (s =? "L")%string then Ok LINEAR
  else if (s =? "P")%string then Ok PERFECT
  else Raise ValueError.
Definition eqb (a b : t) : bool :=
  match a, b with
  | BEZIER, BEZIER | CATMULL, CATMULL | LINEAR, LINEAR | PERFECT, PERFECT => true
  | _, _ => false
  end.
End CurveType.

Module Curve.
Record t : Type := mk { curve_type : CurveType.t; curve_points : list (Z * Z) }.
End Curve.

(** The fields [Slider] adds to [HitObject].  [timing_point] is a reference
    into the beatmap's timing-point list, [None] before resolution. *)
Module Slider.
Record t : Type := mk {
  curves : list Curve.t;
  slides : Z;
  length : Q;
  edge_sounds : list Z;
  edge_sets : list (TimingPointSampleSet.t * TimingPointSampleSet.t);
  end_time : Q;
  duration : Q;
  timing_point : option nat
}.
(** what the constructor call of the loader leaves at the defaults *)
Definition make curves slides length edge_sounds edge_sets : t :=
  mk curves slides length edge_sounds edge_sets 0%Q 0%Q None.
Definition resolve (end_time duration : Q) (timing_point : nat) (r : t) : t :=
  mk (curves r) (slides r) (length r) (edge_sounds r) (edge_sets r)
     end_time duration (Some timing_point).
End Slider.

(** An object of one of the three subclasses of [HitObject]. *)
Inductive hit_object : Type :=
| HitCircle (base : HitObject.t)
| Slider (base : HitObject.t) (ext : Slider.t)
| Spinner (base : HitObject.t) (end_time : Z).

Definition base (o : hit_object) : HitObject.t :=
  match o with HitCircle b | Slider b _ | Spinner b _ => b end.

Module Beatmap.
Record t : Type := mk {
  general : General.t;
  editor : Editor.t;
  metadata : Metadata.t;
  difficulty : Difficulty.t;
  events : Events.t;
  timing_points : list TimingPoint.t;
  colors : Colors.t;
  hit_objects : list hit_object
}.
(** [Beatmap()], in an interpreter where no beatmap has been loaded yet (the
    default [Colors] and [Events] objects are copied shallowly, so their
    lists are shared between beatmaps). *)
Definition default : t :=
  mk General.default Editor.default Metadata.default Difficulty.default
     Events.default [] Colors.default [].
Definition set_general (v : General.t) (r : t) : t :=
  mk v (editor r) (metadata r) (difficulty r) (events r) (timing_points r) (colors r)
     (hit_objects r).
Definition set_editor (v : Editor.t) (r : t) : t :=
  mk (general r) v (metadata r) (difficulty r) (events r) (timing_points r) (colors r)
     (hit_objects r).
Definition set_metadata (v : Metadata.t) (r : t) : t :=
  mk (general r) (editor r) v (difficulty r) (events r) (timing_points r) (colors r)
     (hit_objects r).
Definition set_difficulty (v : Difficulty.t) (r : t) : t :=
  mk (general r) (editor r) (metadata r) v (events r) (timing_points r) (colors r)
     (hit_objects r).
Definition set_timing_points (v : list TimingPoint.t) (r : t) : t :=
  mk (general r) (editor r) (metadata r) (difficulty r) (events r) v (colors r)
     (hit_objects r).
Definition set_colors (v : Colors.t) (r : t) : t :=
  mk (general r) (editor r) (metadata r) (difficulty r) (events r) (timing_points r) v
     (hit_objects r).
Definition set_hit_objects (v : list hit_object) (r : t) : t :=
  mk (general r) (editor r) (metadata r) (difficulty r) (events r) (timing_points r)
     (colors r) v.
End Beatmap.

Module Section.
Inductive t : Type :=
| GENERAL | EDITOR | METADATA | DIFFICULTY | EVENTS | TIMING_POINTS | COLORS | HIT_OBJECTS.
End Section.

(** ** The resolver of [src/beatmap.py] *)

(** [populate_timing_point_properties]: [sorted] lists the very objects of
    [beatmap.timing_points], so the assignment to [timing_point.beat_duration]
    is a write at the object's reference. *)
Definition timing_point_step (st : list TimingPoint.t * Q)
    (item : nat * TimingPoint.t) : list TimingPoint.t * Q :=
  let '(store, last_beat_duration) := st in
  let '(ref, timing_point) := item in
  if TimingPoint.uninherited timing_point
  then (store, TimingPoint.beat_duration timing_point)
  else (<[ref := TimingPoint.set_beat_duration last_beat_duration timing_point]> store,
        last_beat_duration).

Definition populate_timing_point_properties (beatmap : Beatmap.t) : Beatmap.t :=
  let timing_points :=
    Py.sorted Qle_bool (fun item => TimingPoint.time (snd item))
      (Py.enumerate (Beatmap.timing_points beatmap)) in
  let last_beat_duration := 0%Q in
  let '(store, _) :=
    foldl timing_point_step (Beatmap.timing_points beatmap, last_beat_duration)
      timing_points in
  Beatmap.set_timing_points store beatmap.

(** [next_time] is a timing point's time or [math.inf]. *)
Inductive time_bound : Type :=
| Finite (t : Q)
| math_inf.

(** [time >= next_time] for an [int] time *)
Definition time_ge (time : Z) (next_time : time_bound) : bool :=
  match next_time with
  | Finite t => Qle_bool t (inject_Z time)
  | math_inf => false
  end.

(** The cursor of [populate_slider_properties]: [i], [timing_point] (with
    its reference) and [next_time]. *)
Module Cursor.
Record t : Type := mk {
  i : nat;
  timing_point : nat * TimingPoint.t;
  next_time : time_bound
}.
End Cursor.

(** The loop [while hit_object.time >= next_time].  Every round increments
    [i] and reads [timing_points[i]], so it runs at most
    [len(timing_points) - i] rounds; [rounds] is that number, and when it is
    used up the read of [timing_points[i]] is out of range. *)
Fixpoint advance (rounds : nat) (timing_points : list (nat * TimingPoint.t))
    (time : Z) (c : Cursor.t) : Result Cursor.t :=
  if time_ge time (Cursor.next_time c) then
    match rounds with
    | O => Raise IndexError
    | S rounds' =>
        let i := (Cursor.i c + 1)%nat in
        timing_point ← Py.index timing_points i;
        next_time ←
          (if (i + 1 <? length timing_points)%nat
           then tp ← Py.index timing_points (i + 1)%nat;
                Ok (Finite (TimingPoint.time (snd tp)))
           else Ok math_inf);
        advance rounds' timing_points time (Cursor.mk i timing_point next_time)
    end
  else Ok c.

Definition slider_step (beatmap : Beatmap.t)
    (timing_points : list (nat * TimingPoint.t))
    (st : list hit_object * Cursor.t) (item : nat * hit_object)
    : Result (list hit_object * Cursor.t) :=
  let '(store, c) := st in
  let '(ref, hit_object) := item in
  if HitObjectType.eqb (HitObject.type (base hit_object)) HitObjectType.SLIDER then
    c ← advance (length timing_points - Cursor.i c) timing_points
          (HitObject.time (base hit_object)) c;
    match hit_object with
    | Slider b s =>
        let timing_point := snd (Cursor.timing_point c) in
        duration ←
          Py.div (TimingPoint.beat_duration timing_point * inject_Z (Slider.slides s)
                  * Slider.length s)%Q
                 (TimingPoint.sv_multiplier timing_point * 100
                  * Difficulty.slider_multiplier (Beatmap.difficulty beatmap))%Q;
        let end_time := (inject_Z (HitObject.time b) + duration)%Q in
        let s := Slider.resolve end_time duration (fst (Cursor.timing_point c)) s in
        Ok (<[ref := Slider b s]> store, c)
    | _ => Raise AttributeError
    end
  else Ok st.

Definition populate_slider_properties (beatmap : Beatmap.t) : Result Beatmap.t :=
  let timing_points :=
    Py.sorted Qle_bool (fun item => TimingPoint.time (snd item))
      (Py.enumerate (Beatmap.timing_points beatmap)) in
  let i := 0%nat in
  timing_point ← Py.index timing_points i;
  next ← Py.index timing_points (i + 1)%nat;
  let next_time := Finite (TimingPoint.time (snd next)) in
  let hit_objects :=
    Py.sorted Z.leb (fun item => HitObject.time (base (snd item)))
      (Py.enumerate (Beatmap.hit_objects beatmap)) in
  '(store, _) ←
    foldR (slider_step beatmap timing_points)
      (Beatmap.hit_objects beatmap, Cursor.mk i timing_point next_time) hit_objects;
  Ok (Beatmap.set_hit_objects store beatmap).

(** ** The loader of [src/beatmap.py] *)

(** [a, b = l] *)
Definition unpack2 {A} (l : list A) : Result (A * A) :=
  match l with
  | [a; b] => Ok (a, b)
  | _ => Raise ValueError
  end.

(** [if key == k: field = conv(value)], one statement of a chain *)
Definition assign_if {R V} (key k : string) (conv : Result V) (set : V -> R -> R)
    (r : R) : Result R :=
  if (key =? k)%string then v ← conv; Ok (set v r) else Ok r.

Definition general_assign (key value : string) (g : General.t) : Result General.t :=
  if (key =? "AudioFilename")%string then Ok (General.set_audio_filename value g)
  else if (key =? "AudioLeadIn")%string then
    v ← Py.int value; Ok (General.set_audio_lead_in v g)
  else if (key =? "AudioHash")%string then Ok (General.set_audio_hash value g)
  else if (key =? "PreviewTime")%string then
    v ← Py.int value; Ok (General.set_preview_time v g)
  else if (key =? "Countdown")%string then
    v ← Py.int value; Ok (General.set_countdown (inr v) g)
  else if (key =? "SampleSet")%string then Ok (General.set_sample_set (inr value) g)
  else if (key =? "StackLeniency")%string then
    v ← Py.Decimal value; Ok (General.set_stack_leniency v g)
  else if (key =? "Mode")%string then
    v ← Py.int value; Ok (General.set_mode (inr v) g)
  else if (key =? "LetterboxInBreaks")%string then
    v ← Py.int value; Ok (General.set_letterbox_in_breaks (Py.bool_of_int v) g)
  else if (key =? "StoryFireInFront")%string then
    v ← Py.int value; Ok (General.set_story_fire_in_front (Py.bool_of_int v) g)
  else if (key =? "UseSkinSprites")%string then
    v ← Py.int value; Ok (General.set_use_skin_sprites (Py.bool_of_int v) g)
  else if (key =? "AlwaysShowPlayfield")%string then
    v ← Py.int value; Ok (General.set_always_show_playfield (Py.bool_of_int v) g)
  else if (key =? "OverlayPosition")%string then
    Ok (General.set_overlay_position (inr value) g)
  else if (key =? "SkinPreference")%string then Ok (General.set_skin_preference value g)
  else if (key =? "EpilepsyWarning")%string then
    v ← Py.int value; Ok (General.set_epilepsy_warning (Py.bool_of_int v) g)
  else if (key =? "CountdownOffset")%string then
    v ← Py.int value; Ok (General.set_countdown_offset v g)
  else if (key =? "SpecialStyle")%string then
    v ← Py.int value; Ok (General.set_special_style (Py.bool_of_int v) g)
  else if (key =? "WidescreenStoryboard")%string then
    v ← Py.int value; Ok (General.set_widescreen_storyboard (Py.bool_of_int v) g)
  else if (key =? "SamplesMatchPlaybackRate")%string then
    v ← Py.int value; Ok (General.set_samples_match_playback_rate (Py.bool_of_int v) g)
  else Ok g.

Definition general_line (line : string) (beatmap : Beatmap.t) : Result Beatmap.t :=
  '(key, value) ← unpack2 (Py.split ":" line);
  let key := Py.strip key in
  let value := Py.strip value in
  g ← general_assign key value (Beatmap.general beatmap);
  Ok (Beatmap.set_general g beatmap).

Definition editor_assign (key value : string) (e : Editor.t) : Result Editor.t :=
  e ← assign_if key "DistanceSpacing" (Py.Decimal value) Editor.set_distance_spacing e;
  e ← assign_if key "BeatDivisor" (Py.int value) Editor.set_beat_divisor e;
  e ← assign_if key "GridSize" (Py.int value) Editor.set_grid_size e;
  e ← assign_if key "TimelineZoom" (Py.Decimal value) Editor.set_timeline_zoom e;
  assign_if key "Bookmarks" (mapR Py.int (Py.split "," value)) Editor.set_bookmarks e.

Definition editor_line (line : string) (beatmap : Beatmap.t) : Result Beatmap.t :=
  '(key, value) ← unpack2 (Py.split ":" line);
  e ← editor_assign key value (Beatmap.editor beatmap);
  Ok (Beatmap.set_editor e beatmap).

Definition metadata_assign (key value : string) (m : Metadata.t) : Result Metadata.t :=
  m ← assign_if key "Title" (Ok value) Metadata.set_title m;
  m ← assign_if key "TitleUnicode" (Ok value) Metadata.set_title_unicode m;
  m ← assign_if key "Artist" (Ok value) Metadata.set_artist m;
  m ← assign_if key "ArtistUnicode" (Ok value) Metadata.set_artist_unicode m;
  m ← assign_if key "Creator" (Ok value) Metadata.set_creator m;
  m ← assign_if key "Version" (Ok value) Metadata.set_version m;
  m ← assign_if key "Source" (Ok value) Metadata.set_source m;
  m ← assign_if key "Tags" (Ok (Py.split " " value)) Metadata.set_tags m;
  m ← assign_if key "BeatmapID" (Py.int value) Metadata.set_beatmap_id m;
  assign_if key "BeatmapSetID" (Py.int value) Metadata.set_beatmap_set_id m.

Definition metadata_line (line : string) (beatmap : Beatmap.t) : Result Beatmap.t :=
  (* metadata might have more than one colon *)
  '(key, value) ← unpack2 (Py.split1 ":" line);
  let key := Py.strip key in
  let value := Py.strip value in
  m ← metadata_assign key value (Beatmap.metadata beatmap);
  Ok (Beatmap.set_metadata m beatmap).

Definition difficulty_assign (key value : string) (d : Difficulty.t)
    : Result Difficulty.t :=
  d ← assign_if key "HPDrainRate" (Py.Decimal value) Difficulty.set_hp_drain_rate d;
  d ← assign_if key "CircleSize" (Py.Decimal value) Difficulty.set_circle_size d;
  d ← assign_if key "OverallDifficulty" (Py.Decimal value)
        Difficulty.set_overall_difficulty d;
  d ← assign_if key "ApproachRate" (Py.Decimal value) Difficulty.set_approach_rate d;
  d ← assign_if key "SliderMultiplier" (Py.Decimal value)
        Difficulty.set_slider_multiplier d;
  assign_if key "SliderTickRate" (Py.Decimal value) Difficulty.set_slider_tick_rate d.

Definition difficulty_line (line : string) (beatmap : Beatmap.t) : Result Beatmap.t :=
  '(key, value) ← unpack2 (Py.split ":" line);
  d ← difficulty_assign key value (Beatmap.difficulty beatmap);
  Ok (Beatmap.set_difficulty d beatmap).

Definition timing_points_line (line : string) (beatmap : Beatmap.t)
    : Result Beatmap.t :=
  match Py.split "," line with
  | [time; beat_length; meter; sample_set; sample_index; volume; uninherited; effects] =>
      time ← Py.Decimal time;
      beat_length ← Py.Decimal beat_length;
      meter ← Py.int meter;
      sample_set ← Py.int sample_set;
      sample_index ← Py.int sample_index;
      volume ← Py.int volume;
      uninherited ← Py.bool_of_int <$> Py.int uninherited;
      effects ← create_effects <$> Py.int effects;
      timing_point ←
        (if uninherited : bool then
           Ok (TimingPoint.mk time meter sample_set sample_index volume uninherited
                 effects beat_length 1%Q)
         else
           sv ← Py.div (-100)%Q beat_length;
           Ok (TimingPoint.mk time meter sample_set sample_index volume uninherited
                 effects 0%Q sv));
      Ok (Beatmap.set_timing_points (Beatmap.timing_points beatmap ++ [timing_point])
            beatmap)
  | _ => Raise ValueError
  end.

Definition colors_line (line : string) (beatmap : Beatmap.t) : Result Beatmap.t :=
  '(key, value) ← unpack2 (Py.split ":" line);
  let key := Py.strip key in
  let value := Py.strip value in
  color ← mapR Py.int (Py.split "," value);
  let colors := Beatmap.colors beatmap in
  colors ←
    (if Py.startswith "Combo" key then
       (* TODO actually take this into account *)
       _color_index ← Py.int (Py.slice_from 5 key);
       Ok (Colors.set_colors (Colors.colors colors ++ [color]) colors)
     else if (key =? "SliderTrackOverride")%string then
       Ok (Colors.set_slider_track_override (Some color) colors)
     else if (key =? "SliderBorder")%string then
       Ok (Colors.set_slider_border (Some color) colors)
     else Ok colors);
  Ok (Beatmap.set_colors colors beatmap).

(** [create_hit_sample(params[-1])] if there are parameters, else the default *)
Definition optional_hit_sample (params : list string) : Result HitSample.t :=
  if (0 <? length params)%nat
  then last ← Py.index_last params; create_hit_sample last
  else Ok HitSample.default.

(** One round of the loop over the points of a bezier slider: the curves
    closed so far, the current curve and the previous point. *)
Definition bezier_step (st : list Curve.t * list (Z * Z) * (Z * Z)) (point : Z * Z)
    : list Curve.t * list (Z * Z) * (Z * Z) :=
  let '(curves, curr_curve, prev_point) := st in
  if (fst point =? fst prev_point) && (snd point =? snd prev_point)
  then (curves ++ [Curve.mk CurveType.BEZIER curr_curve], [point], point)
  else (curves, curr_curve ++ [point], point).

Definition make_curves (curve_type : CurveType.t) (x y : Z)
    (curve_points : list (Z * Z)) : list Curve.t :=
  if CurveType.eqb curve_type CurveType.BEZIER then
    let prev_point := (-1, -1) (* sentinel *) in
    let '(curves, curr_curve, _) :=
      foldl bezier_step ([], [(x, y)], prev_point) curve_points in
    curves ++ [Curve.mk CurveType.BEZIER curr_curve]
  else [Curve.mk curve_type ((x, y) :: curve_points)].

Definition parse_curve_point (curve_point : string) : Result (Z * Z) :=
  '(point_x, point_y) ← unpack2 (Py.split ":" curve_point);
  point_x ← Py.int point_x;
  point_y ← Py.int point_y;
  Ok (point_x, point_y).

Definition parse_edge_set (edge_set : string)
    : Result (TimingPointSampleSet.t * TimingPointSampleSet.t) :=
  '(normal_set, addition_set) ← unpack2 (Py.split ":" edge_set);
  normal_set ← Py.int normal_set;
  addition_set ← Py.int addition_set;
  normal_set ← TimingPointSampleSet.of_value normal_set;
  addition_set ← TimingPointSampleSet.of_value addition_set;
  Ok (normal_set, addition_set).

(** The three values decoded from the type flag of a hit object. *)
Definition decode_type_flag (object_type_flag : Z)
    : Result (HitObjectType.t * bool * Z) :=
  (* bits 0 (hit circle), 1 (slider), 3 (spinner), 7 (mania hold note) *)
  object_type ← HitObjectType.of_value (Z.land object_type_flag 139);
  let new_combo := Py.bool_of_int (Z.land object_type_flag (Z.shiftl 1 2)) in
  let combo_to_skip := Z.land (Z.shiftl object_type_flag 4) 7 in
  Ok (object_type, new_combo, combo_to_skip).

Definition slider_params (x y start_time : Z) (object_type : HitObjectType.t)
    (new_combo : bool) (combo_to_skip hit_sound : Z) (object_params : list string)
    : Result hit_object :=
  match object_params with
  | curves :: slides :: length :: edge_sounds :: edge_sets_str :: hit_sample =>
      match Py.split "|" curves with
      | curve_type :: curve_points_str =>
          curve_type ← CurveType.of_value curve_type;
          curve_points ← mapR parse_curve_point curve_points_str;
          slides ← Py.int slides;
          length ← Py.Decimal length;
          edge_sounds ← mapR Py.int (Py.split "|" edge_sounds);
          edge_sets ← mapR parse_edge_set (Py.split "|" edge_sets_str);
          hit_sample ← optional_hit_sample hit_sample;
          let curves := make_curves curve_type x y curve_points in
          Ok (Slider
                (HitObject.mk x y start_time object_type (create_hit_sound hit_sound)
                   new_combo combo_to_skip hit_sample)
                (Slider.make curves slides length edge_sounds edge_sets))
      | [] => Raise ValueError
      end
  | _ => Raise ValueError
  end.

Definition hit_objects_line (line : string) (beatmap : Beatmap.t) : Result Beatmap.t :=
  (* object_params may include hit_sample *)
  match Py.split "," line with
  | x :: y :: start_time :: object_type_flag :: hit_sound :: object_params =>
      x ← Py.int x;
      y ← Py.int y;
      start_time ← Py.int start_time;
      object_type_flag ← Py.int object_type_flag;
      '(object_type, new_combo, combo_to_skip) ← decode_type_flag object_type_flag;
      hit_sound ← Py.int hit_sound;
      let append o :=
        Beatmap.set_hit_objects (Beatmap.hit_objects beatmap ++ [o]) beatmap in
      match object_type with
      | HitObjectType.HIT_CIRCLE =>
          hit_sample ← optional_hit_sample object_params;
          Ok (append (HitCircle
                (HitObject.mk x y start_time object_type (create_hit_sound hit_sound)
                   new_combo combo_to_skip hit_sample)))
      | HitObjectType.SLIDER =>
          o ← slider_params x y start_time object_type new_combo combo_to_skip
                hit_sound object_params;
          Ok (append o)
      | HitObjectType.SPINNER =>
          match object_params with
          | end_time :: hit_sample =>
              end_time ← Py.int end_time;
              hit_sample ← optional_hit_sample hit_sample;
              Ok (append (Spinner
                    (HitObject.mk x y start_time object_type
                       (create_hit_sound hit_sound) new_combo combo_to_skip hit_sample)
                    end_time))
          | [] => Raise ValueError
          end
      | HitObjectType.HOLD_NOTE =>
          if object_type_flag =? HitObjectType.value HitObjectType.HOLD_NOTE
          then Ok beatmap (* pass *)
          else Ok beatmap
      end
  | _ => Raise ValueError
  end.

(** The section a header line selects; an unknown name keeps the current one. *)
Definition header_section (section_text : string) (section : option Section.t)
    : option Section.t :=
  if (section_text =? "General")%string then Some Section.GENERAL
  else if (section_text =? "Editor")%string then Some Section.EDITOR
  else if (section_text =? "Metadata")%string then Some Section.METADATA
  else if (section_text =? "Difficulty")%string then Some Section.DIFFICULTY
  else if (section_text =? "Events")%string then Some Section.EVENTS
  else if (section_text =? "TimingPoints")%string then Some Section.TIMING_POINTS
  else if (section_text =? "Colours")%string then Some Section.COLORS
  else if (section_text =? "HitObjects")%string then Some Section.HIT_OBJECTS
  else section.

(** The body of [for line in lines], on the pair of the current section and
    the beatmap under construction. *)
Definition process_line (st : option Section.t * Beatmap.t) (line : string)
    : Result (option Section.t * Beatmap.t) :=
  let '(section, beatmap) := st in
  let line := Py.rstrip line in
  if (String.length line =? 0)%nat then Ok st
  else if Py.startswith "[" line then (* new section *)
    let section_text := Py.slice_1_m1 line in
    Ok (header_section section_text section, beatmap)
  else
    beatmap ←
      match section with
      | Some Section.GENERAL => general_line line beatmap
      | Some Section.EDITOR => editor_line line beatmap
      | Some Section.METADATA => metadata_line line beatmap
      | Some Section.DIFFICULTY => difficulty_line line beatmap
      | Some Section.EVENTS => Ok beatmap
      | Some Section.TIMING_POINTS => timing_points_line line beatmap
      | Some Section.COLORS => colors_line line beatmap
      | Some Section.HIT_OBJECTS => hit_objects_line line beatmap
      | None => Ok beatmap
      end;
    Ok (section, beatmap).

(** The loop over the lines [file.readlines()] returned. *)
Definition read_lines (lines : list string) : Result (option Section.t * Beatmap.t) :=
  foldR process_line (None, Beatmap.default) lines.

Definition load (lines : list string) : Result Beatmap.t :=
  '(_, beatmap) ← read_lines lines;
  let beatmap := populate_timing_point_properties beatmap in
  populate_slider_properties beatmap.

(** ** [src/beatmap/main.py]

    The earlier loader: the same line loop over classes whose fields are named
    after the on-disk keys, timing points of two subclasses, one unsegmented
    curve per slider and no resolver.  Its enums, [HitSound],
    [create_hit_sound], the header matching and the decoding of the type
    flag, of curve points and of edge sets repeat those of [src/beatmap.py]
    word for word and are shared with it here. *)

Module Main.

Module General.
Record t : Type := mk {
  AudioFilename : string;
  AudioLeadIn : Z;
  AudioHash : string;
  PreviewTime : Z;
  Countdown : Countdown.t + Z;
  SampleSet : SampleSet.t + string;
  StackLeniency : Q;
  Mode : GameMode.t + Z;
  LetterboxInBreaks : bool;
  StoryFireInFront : bool;
  UseSkinSprites : bool;
  AlwaysShowPlayfield : bool;
  OverlayPosition : OverlayPosition.t + string;
  SkinPreference : string;
  EpilepsyWarning : bool;
  CountdownOffset : Z;
  SpecialStyle : bool;
  WidescreenStoryboard : bool;
  SamplesMatchPlaybackRate : bool
}.
(** the dataclass defaults *)
Definition default : t :=
  mk "" 0 "" (-1) (inl Countdown.NORMAL) (inl SampleSet.NORMAL) 0.7%Q (inl
     GameMode.STANDARD) false true false false (inl OverlayPosition.NO_CHANGE) "" false
     0 false false false.
Definition set_AudioFilename (v : string) (r : t) : t :=
  mk v (AudioLeadIn r) (AudioHash r) (PreviewTime r) (Countdown r) (SampleSet r)
     (StackLeniency r) (Mode r) (LetterboxInBreaks r) (StoryFireInFront r)
     (UseSkinSprites r) (AlwaysShowPlayfield r) (OverlayPosition r) (SkinPreference r)
     (EpilepsyWarning r) (CountdownOffset r) (SpecialStyle r) (WidescreenStoryboard r)
     (SamplesMatchPlaybackRate r).
Definition set_AudioLeadIn (v : Z) (r : t) : t :=
  mk (AudioFilename r) v (AudioHash r) (PreviewTime r) (Countdown r) (SampleSet r)
     (StackLeniency r) (Mode r) (LetterboxInBreaks r) (StoryFireInFront r)
     (UseSkinSprites r) (AlwaysShowPlayfield r) (OverlayPosition r) (SkinPreference r)
     (EpilepsyWarning r) (CountdownOffset r) (SpecialStyle r) (WidescreenStoryboard r)
     (SamplesMatchPlaybackRate r).
Definition set_AudioHash (v : string) (r : t) : t :=
  mk (AudioFilename r) (AudioLeadIn r) v (PreviewTime r) (Countdown r) (SampleSet r)
     (StackLeniency r) (Mode r) (LetterboxInBreaks r) (StoryFireInFront r)
     (UseSkinSprites r) (AlwaysShowPlayfield r) (OverlayPosition r) (SkinPreference r)
     (EpilepsyWarning r) (CountdownOffset r) (SpecialStyle r) (WidescreenStoryboard r)
     (SamplesMatchPlaybackRate r).
Definition set_PreviewTime (v : Z) (r : t) : t :=
  mk (AudioFilename r) (AudioLeadIn r) (AudioHash r) v (Countdown r) (SampleSet r)
     (StackLeniency r) (Mode r) (LetterboxInBreaks r) (StoryFireInFront r)
     (UseSkinSprites r) (AlwaysShowPlayfield r) (OverlayPosition r) (SkinPreference r)
     (EpilepsyWarning r) (CountdownOffset r) (SpecialStyle r) (WidescreenStoryboard r)
     (SamplesMatchPlaybackRate r).
Definition set_Countdown (v : Countdown.t + Z) (r : t) : t :=
  mk (AudioFilename r) (AudioLeadIn r) (AudioHash r) (PreviewTime r) v (SampleSet r)
     (StackLeniency r) (Mode r) (LetterboxInBreaks r) (StoryFireInFront r)
     (UseSkinSprites r) (AlwaysShowPlayfield r) (OverlayPosition r) (SkinPreference r)
     (EpilepsyWarning r) (CountdownOffset r) (SpecialStyle r) (WidescreenStoryboard r)
     (SamplesMatchPlaybackRate r).
Definition set_SampleSet (v : SampleSet.t + string) (r : t) : t :=
  mk (AudioFilename r) (AudioLeadIn r) (AudioHash r) (PreviewTime r) (Countdown r) v
     (StackLeniency r) (Mode r) (LetterboxInBreaks r) (StoryFireInFront r)
     (UseSkinSprites r) (AlwaysShowPlayfield r) (OverlayPosition r) (SkinPreference r)
     (EpilepsyWarning r) (CountdownOffset r) (SpecialStyle r) (WidescreenStoryboard r)
     (SamplesMatchPlaybackRate r).
Definition set_StackLeniency (v : Q) (r : t) : t :=
  mk (AudioFilename r) (AudioLeadIn r) (AudioHash r) (PreviewTime r) (Countdown r)
     (SampleSet r) v (Mode r) (LetterboxInBreaks r) (StoryFireInFront r) (UseSkinSprites
     r) (AlwaysShowPlayfield r) (OverlayPosition r) (SkinPreference r) (EpilepsyWarning
     r) (CountdownOffset r) (SpecialStyle r) (WidescreenStoryboard r)
     (SamplesMatchPlaybackRate r).
Definition set_Mode (v : GameMode.t + Z) (r : t) : t :=
  mk (AudioFilename r) (AudioLeadIn r) (AudioHash r) (PreviewTime r) (Countdown r)
     (SampleSet r) (StackLeniency r) v (LetterboxInBreaks r) (StoryFireInFront r)
     (UseSkinSprites r) (AlwaysShowPlayfield r) (OverlayPosition r) (SkinPreference r)
     (EpilepsyWarning r) (CountdownOffset r) (SpecialStyle r) (WidescreenStoryboard r)
     (SamplesMatchPlaybackRate r).
Definition set_LetterboxInBreaks (v : bool) (r : t) : t :=
  mk (AudioFilename r) (AudioLeadIn r) (AudioHash r) (PreviewTime r) (Countdown r)
     (SampleSet r) (StackLeniency r) (Mode r) v (StoryFireInFront r) (UseSkinSprites r)
     (AlwaysShowPlayfield r) (OverlayPosition r) (SkinPreference r) (EpilepsyWarning r)
     (CountdownOffset r) (SpecialStyle r) (WidescreenStoryboard r)
     (SamplesMatchPlaybackRate r).
Definition set_StoryFireInFront (v : bool) (r : t) : t :=
  mk (AudioFilename r) (AudioLeadIn r) (AudioHash r) (PreviewTime r) (Countdown r)
     (SampleSet r) (StackLeniency r) (Mode r) (LetterboxInBreaks r) v (UseSkinSprites r)
     (AlwaysShowPlayfield r) (OverlayPosition r) (SkinPreference r) (EpilepsyWarning r)
     (CountdownOffset r) (SpecialStyle r) (WidescreenStoryboard r)
     (SamplesMatchPlaybackRate r).
Definition set_UseSkinSprites (v : bool) (r : t) : t :=
  mk (AudioFilename r) (AudioLeadIn r) (AudioHash r) (PreviewTime r) (Countdown r)
     (SampleSet r) (StackLeniency r) (Mode r) (LetterboxInBreaks r) (StoryFireInFront r)
     v (AlwaysShowPlayfield r) (OverlayPosition r) (SkinPreference r) (EpilepsyWarning
     r) (CountdownOffset r) (SpecialStyle r) (WidescreenStoryboard r)
     (SamplesMatchPlaybackRate r).
Definition set_AlwaysShowPlayfield (v : bool) (r : t) : t :=
  mk (AudioFilename r) (AudioLeadIn r) (AudioHash r) (PreviewTime r) (Countdown r)
     (SampleSet r) (StackLeniency r) (Mode r) (LetterboxInBreaks r) (StoryFireInFront r)
     (UseSkinSprites r) v (OverlayPosition r) (SkinPreference r) (EpilepsyWarning r)
     (CountdownOffset r) (SpecialStyle r) (WidescreenStoryboard r)
     (SamplesMatchPlaybackRate r).
Definition set_OverlayPosition (v : OverlayPosition.t + string) (r : t) : t :=
  mk (AudioFilename r) (AudioLeadIn r) (AudioHash r) (PreviewTime r) (Countdown r)
     (SampleSet r) (StackLeniency r) (Mode r) (LetterboxInBreaks r) (StoryFireInFront r)
     (UseSkinSprites r) (AlwaysShowPlayfield r) v (SkinPreference r) (EpilepsyWarning r)
     (CountdownOffset r) (SpecialStyle r) (WidescreenStoryboard r)
     (SamplesMatchPlaybackRate r).
Definition set_SkinPreference (v : string) (r : t) : t :=
  mk (AudioFilename r) (AudioLeadIn r) (AudioHash r) (PreviewTime r) (Countdown r)
     (SampleSet r) (StackLeniency r) (Mode r) (LetterboxInBreaks r) (StoryFireInFront r)
     (UseSkinSprites r) (AlwaysShowPlayfield r) (OverlayPosition r) v (EpilepsyWarning
     r) (CountdownOffset r) (SpecialStyle r) (WidescreenStoryboard r)
     (SamplesMatchPlaybackRate r).
Definition set_EpilepsyWarning (v : bool) (r : t) : t :=
  mk (AudioFilename r) (AudioLeadIn r) (AudioHash r) (PreviewTime r) (Countdown r)
     (SampleSet r) (StackLeniency r) (Mode r) (LetterboxInBreaks r) (StoryFireInFront r)
     (UseSkinSprites r) (AlwaysShowPlayfield r) (OverlayPosition r) (SkinPreference r) v
     (CountdownOffset r) (SpecialStyle r) (WidescreenStoryboard r)
     (SamplesMatchPlaybackRate r).
Definition set_CountdownOffset (v : Z) (r : t) : t :=
  mk (AudioFilename r) (AudioLeadIn r) (AudioHash r) (PreviewTime r) (Countdown r)
     (SampleSet r) (StackLeniency r) (Mode r) (LetterboxInBreaks r) (StoryFireInFront r)
     (UseSkinSprites r) (AlwaysShowPlayfield r) (OverlayPosition r) (SkinPreference r)
     (EpilepsyWarning r) v (SpecialStyle r) (WidescreenStoryboard r)
     (SamplesMatchPlaybackRate r).
Definition set_SpecialStyle (v : bool) (r : t) : t :=
  mk (AudioFilename r) (AudioLeadIn r) (AudioHash r) (PreviewTime r) (Countdown r)
     (SampleSet r) (StackLeniency r) (Mode r) (LetterboxInBreaks r) (StoryFireInFront r)
     (UseSkinSprites r) (AlwaysShowPlayfield r) (OverlayPosition r) (SkinPreference r)
     (EpilepsyWarning r) (CountdownOffset r) v (WidescreenStoryboard r)
     (SamplesMatchPlaybackRate r).
Definition set_WidescreenStoryboard (v : bool) (r : t) : t :=
  mk (AudioFilename r) (AudioLeadIn r) (AudioHash r) (PreviewTime r) (Countdown r)
     (SampleSet r) (StackLeniency r) (Mode r) (LetterboxInBreaks r) (StoryFireInFront r)
     (UseSkinSprites r) (AlwaysShowPlayfield r) (OverlayPosition r) (SkinPreference r)
     (EpilepsyWarning r) (CountdownOffset r) (SpecialStyle r) v
     (SamplesMatchPlaybackRate r).
Definition set_SamplesMatchPlaybackRate (v : bool) (r : t) : t :=
  mk (AudioFilename r) (AudioLeadIn r) (AudioHash r) (PreviewTime r) (Countdown r)
     (SampleSet r) (StackLeniency r) (Mode r) (LetterboxInBreaks r) (StoryFireInFront r)
     (UseSkinSprites r) (AlwaysShowPlayfield r) (OverlayPosition r) (SkinPreference r)
     (EpilepsyWarning r) (CountdownOffset r) (SpecialStyle r) (WidescreenStoryboard r)
     v.
End General.

Module Editor.
Record t : Type := mk {
  DistanceSpacing : Q;
  BeatDivisor : Z;
  GridSize : Z;
  TimelineZoom : Q;
  Bookmarks : list Z
}.
(** the dataclass defaults *)
Definition default : t :=
  mk 1%Q 4 64 0%Q [].
Definition set_DistanceSpacing (v : Q) (r : t) : t :=
  mk v (BeatDivisor r) (GridSize r) (TimelineZoom r) (Bookmarks r).
Definition set_BeatDivisor (v : Z) (r : t) : t :=
  mk (DistanceSpacing r) v (GridSize r) (TimelineZoom r) (Bookmarks r).
Definition set_GridSize (v : Z) (r : t) : t :=
  mk (DistanceSpacing r) (BeatDivisor r) v (TimelineZoom r) (Bookmarks r).
Definition set_TimelineZoom (v : Q) (r : t) : t :=
  mk (DistanceSpacing r) (BeatDivisor r) (GridSize r) v (Bookmarks r).
Definition set_Bookmarks (v : list Z) (r : t) : t :=
  mk (DistanceSpacing r) (BeatDivisor r) (GridSize r) (TimelineZoom r) v.
End Editor.

Module Metadata.
Record t : Type := mk {
  Title : string;
  TitleUnicode : string;
  Artist : string;
  ArtistUnicode : string;
  Creator : string;
  Version : string;
  Source : string;
  Tags : list string;
  BeatmapID : Z;
  BeatmapSetID : Z
}.
(** the dataclass defaults *)
Definition default : t :=
  mk "" "" "" "" "" "" "" [] (-1) (-1).
Definition set_Title (v : string) (r : t) : t :=
  mk v (TitleUnicode r) (Artist r) (ArtistUnicode r) (Creator r) (Version r) (Source r)
     (Tags r) (BeatmapID r) (BeatmapSetID r).
Definition set_TitleUnicode (v : string) (r : t) : t :=
  mk (Title r) v (Artist r) (ArtistUnicode r) (Creator r) (Version r) (Source r) (Tags
     r) (BeatmapID r) (BeatmapSetID r).
Definition set_Artist (v : string) (r : t) : t :=
  mk (Title r) (TitleUnicode r) v (ArtistUnicode r) (Creator r) (Version r) (Source r)
     (Tags r) (BeatmapID r) (BeatmapSetID r).
Definition set_ArtistUnicode (v : string) (r : t) : t :=
  mk (Title r) (TitleUnicode r) (Artist r) v (Creator r) (Version r) (Source r) (Tags r)
     (BeatmapID r) (BeatmapSetID r).
Definition set_Creator (v : string) (r : t) : t :=
  mk (Title r) (TitleUnicode r) (Artist r) (ArtistUnicode r) v (Version r) (Source r)
     (Tags r) (BeatmapID r) (BeatmapSetID r).
Definition set_Version (v : string) (r : t) : t :=
  mk (Title r) (TitleUnicode r) (Artist r) (ArtistUnicode r) (Creator r) v (Source r)
     (Tags r) (BeatmapID r) (BeatmapSetID r).
Definition set_Source (v : string) (r : t) : t :=
  mk (Title r) (TitleUnicode r) (Artist r) (ArtistUnicode r) (Creator r) (Version r) v
     (Tags r) (BeatmapID r) (BeatmapSetID r).
Definition set_Tags (v : list string) (r : t) : t :=
  mk (Title r) (TitleUnicode r) (Artist r) (ArtistUnicode r) (Creator r) (Version r)
     (Source r) v (BeatmapID r) (BeatmapSetID r).
Definition set_BeatmapID (v : Z) (r : t) : t :=
  mk (Title r) (TitleUnicode r) (Artist r) (ArtistUnicode r) (Creator r) (Version r)
     (Source r) (Tags r) v (BeatmapSetID r).
Definition set_BeatmapSetID (v : Z) (r : t) : t :=
  mk (Title r) (TitleUnicode r) (Artist r) (ArtistUnicode r) (Creator r) (Version r)
     (Source r) (Tags r) (BeatmapID r) v.
End Metadata.

Module Difficulty.
Record t : Type := mk {
  HPDrainRate : Q;
  CircleSize : Q;
  OverallDifficulty : Q;
  ApproachRate : Q;
  SliderMultiplier : Q;
  SliderTickRate : Q
}.
(** the dataclass defaults *)
Definition default : t :=
  mk 5%Q 5%Q 5%Q 5%Q 5%Q 5%Q.
Definition set_HPDrainRate (v : Q) (r : t) : t :=
  mk v (CircleSize r) (OverallDifficulty r) (ApproachRate r) (SliderMultiplier r)
     (SliderTickRate r).
Definition set_CircleSize (v : Q) (r : t) : t :=
  mk (HPDrainRate r) v (OverallDifficulty r) (ApproachRate r) (SliderMultiplier r)
     (SliderTickRate r).
Definition set_OverallDifficulty (v : Q) (r : t) : t :=
  mk (HPDrainRate r) (CircleSize r) v (ApproachRate r) (SliderMultiplier r)
     (SliderTickRate r).
Definition set_ApproachRate (v : Q) (r : t) : t :=
  mk (HPDrainRate r) (CircleSize r) (OverallDifficulty r) v (SliderMultiplier r)
     (SliderTickRate r).
Definition set_SliderMultiplier (v : Q) (r : t) : t :=
  mk (HPDrainRate r) (CircleSize r) (OverallDifficulty r) (ApproachRate r) v
     (SliderTickRate r).
Definition set_SliderTickRate (v : Q) (r : t) : t :=
  mk (HPDrainRate r) (CircleSize r) (OverallDifficulty r) (ApproachRate r)
     (SliderMultiplier r) v.
End Difficulty.

Module Colors.
Record t : Type := mk {
  colors : list (list Z);
  SliderTrackOverride : option (list Z);
  SliderBorder : option (list Z)
}.
(** the dataclass defaults *)
Definition default : t :=
  mk [] None None.
Definition set_colors (v : list (list Z)) (r : t) : t :=
  mk v (SliderTrackOverride r) (SliderBorder r).
Definition set_SliderTrackOverride (v : option (list Z)) (r : t) : t :=
  mk (colors r) v (SliderBorder r).
Definition set_SliderBorder (v : option (list Z)) (r : t) : t :=
  mk (colors r) (SliderTrackOverride r) v.
End Colors.

Inductive Event : Type :=
| Background (startTime : Z) (filename : string) (xOffset yOffset : Z)
| Video (startTime : Z) (filename : string) (xOffset yOffset : Z)
| Break (startTime : Z).

Module Events.
Record t : Type := mk { events : list Event }.
Definition default : t := mk [].
End Events.

Module Effects.
Record t : Type := mk { KiaiTime : bool; BarLine : bool }.
End Effects.

Definition create_effects (x : Z) : Effects.t :=
  let kiai_time := Py.bool_of_int (Z.land (Z.shiftl x 0) 1) in
  let bar_line := Py.bool_of_int (Z.land (Z.shiftl x 3) 1) in
  Effects.mk kiai_time bar_line.

Module TimingPoint.
Record t : Type := mk {
  time : Q;
  meter : Z;
  sampleSet : Z;
  sampleIndex : Z;
  volume : Z;
  uninherited : bool;
  effects : Effects.t
}.
End TimingPoint.

(** An object of one of the two subclasses of [TimingPoint]. *)
Inductive timing_point : Type :=
| InheritedTimingPoint (base : TimingPoint.t) (svMultiplier : Q)
| UninheritedTimingPoint (base : TimingPoint.t) (beatDuration : Q).

Module HitSample.
Record t : Type := mk {
  normalSet : TimingPointSampleSet.t;
  additionSet : TimingPointSampleSet.t;
  index : Z;
  volume : Z;
  filename : string
}.
Definition default : t :=
  mk TimingPointSampleSet.DEFAULT TimingPointSampleSet.DEFAULT 0 0 "".
End HitSample.

Definition create_hit_sample (x : string) : Result HitSample.t :=
  match Py.split ":" x with
  | [normal_set; addition_set; index; volume; filename] =>
      normal_set ← Py.int normal_set;
      addition_set ← Py.int addition_set;
      index ← Py.int index;
      volume ← Py.int volume;
      normal_set ← TimingPointSampleSet.of_value normal_set;
      addition_set ← TimingPointSampleSet.of_value addition_set;
      Ok (HitSample.mk normal_set addition_set index volume filename)
  | _ => Raise ValueError
  end.

Module HitObject.
Record t : Type := mk {
  x : Z;
  y : Z;
  time : Z;
  type : HitObjectType.t;
  hitSound : HitSound.t;
  newCombo : bool;
  comboToSkip : Z;
  hitSample : HitSample.t
}.
End HitObject.

(** [curveType] holds the letter as it was read. *)
Module Curve.
Record t : Type := mk { curveType : string; curvePoints : list (Z * Z) }.
End Curve.

Module Slider.
Record t : Type := mk {
  curves : list Curve.t;
  slides : Z;
  length : Q;
  edgeSounds : list Z;
  edgeSets : list (TimingPointSampleSet.t * TimingPointSampleSet.t);
  endTime : Z
}.
End Slider.

Inductive hit_object : Type :=
| HitCircle (base : HitObject.t)
| Slider (base : HitObject.t) (ext : Slider.t)
| Spinner (base : HitObject.t) (endTime : Z).

Module Beatmap.
Record t : Type := mk {
  general : General.t;
  editor : Editor.t;
  metadata : Metadata.t;
  difficulty : Difficulty.t;
  events : Events.t;
  timingPoints : list timing_point;
  colors : Colors.t;
  hit_objects : list hit_object
}.
Definition default : t :=
  mk General.default Editor.default Metadata.default Difficulty.default
     Events.default [] Colors.default [].
Definition set_general (v : General.t) (r : t) : t :=
  mk v (editor r) (metadata r) (difficulty r) (events r) (timingPoints r) (colors r)
     (hit_objects r).
Definition set_editor (v : Editor.t) (r : t) : t :=
  mk (general r) v (metadata r) (difficulty r) (events r) (timingPoints r) (colors r)
     (hit_objects r).
Definition set_metadata (v : Metadata.t) (r : t) : t :=
  mk (general r) (editor r) v (difficulty r) (events r) (timingPoints r) (colors r)
     (hit_objects r).
Definition set_difficulty (v : Difficulty.t) (r : t) : t :=
  mk (general r) (editor r) (metadata r) v (events r) (timingPoints r) (colors r)
     (hit_objects r).
Definition set_timingPoints (v : list timing_point) (r : t) : t :=
  mk (general r) (editor r) (metadata r) (difficulty r) (events r) v (colors r)
     (hit_objects r).
Definition set_colors (v : Colors.t) (r : t) : t :=
  mk (general r) (editor r) (metadata r) (difficulty r) (events r) (timingPoints r) v
     (hit_objects r).
Definition set_hit_objects (v : list hit_object) (r : t) : t :=
  mk (general r) (editor r) (metadata r) (difficulty r) (events r) (timingPoints r)
     (colors r) v.
End Beatmap.

Definition general_assign (key value : string) (g : General.t) : Result General.t :=
  if (key =? "AudioFilename")%string then Ok (General.set_AudioFilename value g)
  else if (key =? "AudioLeadIn")%string then
    v ← Py.int value; Ok (General.set_AudioLeadIn v g)
  else if (key =? "AudioHash")%string then Ok (General.set_AudioHash value g)
  else if (key =? "PreviewTime")%string then
    v ← Py.int value; Ok (General.set_PreviewTime v g)
  else if (key =? "Countdown")%string then
    v ← Py.int value; Ok (General.set_Countdown (inr v) g)
  else if (key =? "SampleSet")%string then Ok (General.set_SampleSet (inr value) g)
  else if (key =? "StackLeniency")%string then
    v ← Py.Decimal value; Ok (General.set_StackLeniency v g)
  else if (key =? "Mode")%string then
    v ← Py.int value; Ok (General.set_Mode (inr v) g)
  else if (key =? "LetterboxInBreaks")%string then
    v ← Py.int value; Ok (General.set_LetterboxInBreaks (Py.bool_of_int v) g)
  else if (key =? "StoryFireInFront")%string then
    v ← Py.int value; Ok (General.set_StoryFireInFront (Py.bool_of_int v) g)
  else if (key =? "UseSkinSprites")%string then
    v ← Py.int value; Ok (General.set_UseSkinSprites (Py.bool_of_int v) g)
  else if (key =? "AlwaysShowPlayfield")%string then
    v ← Py.int value; Ok (General.set_AlwaysShowPlayfield (Py.bool_of_int v) g)
  else if (key =? "OverlayPosition")%string then
    Ok (General.set_OverlayPosition (inr value) g)
  else if (key =? "SkinPreference")%string then Ok (General.set_SkinPreference value g)
  else if (key =? "EpilepsyWarning")%string then
    v ← Py.int value; Ok (General.set_EpilepsyWarning (Py.bool_of_int v) g)
  else if (key =? "CountdownOffset")%string then
    v ← Py.int value; Ok (General.set_CountdownOffset v g)
  else if (key =? "SpecialStyle")%string then
    v ← Py.int value; Ok (General.set_SpecialStyle (Py.bool_of_int v) g)
  else if (key =? "WidescreenStoryboard")%string then
    v ← Py.int value; Ok (General.set_WidescreenStoryboard (Py.bool_of_int v) g)
  else if (key =? "SamplesMatchPlaybackRate")%string then
    v ← Py.int value; Ok (General.set_SamplesMatchPlaybackRate (Py.bool_of_int v) g)
  else Ok g.

Definition general_line (line : string) (beatmap : Beatmap.t) : Result Beatmap.t :=
  '(key, value) ← unpack2 (Py.split ":" line);
  let key := Py.strip key in
  let value := Py.strip value in
  g ← general_assign key value (Beatmap.general beatmap);
  Ok (Beatmap.set_general g beatmap).

Definition editor_assign (key value : string) (e : Editor.t) : Result Editor.t :=
  e ← assign_if key "DistanceSpacing" (Py.Decimal value) Editor.set_DistanceSpacing e;
  e ← assign_if key "BeatDivisor" (Py.int value) Editor.set_BeatDivisor e;
  e ← assign_if key "GridSize" (Py.int value) Editor.set_GridSize e;
  e ← assign_if key "TimelineZoom" (Py.Decimal value) Editor.set_TimelineZoom e;
  assign_if key "Bookmarks" (mapR Py.int (Py.split "," value)) Editor.set_Bookmarks e.

Definition editor_line (line : string) (beatmap : Beatmap.t) : Result Beatmap.t :=
  '(key, value) ← unpack2 (Py.split ":" line);
  e ← editor_assign key value (Beatmap.editor beatmap);
  Ok (Beatmap.set_editor e beatmap).

Definition metadata_assign (key value : string) (m : Metadata.t) : Result Metadata.t :=
  m ← assign_if key "Title" (Ok value) Metadata.set_Title m;
  m ← assign_if key "TitleUnicode" (Ok value) Metadata.set_TitleUnicode m;
  m ← assign_if key "Artist" (Ok value) Metadata.set_Artist m;
  m ← assign_if key "ArtistUnicode" (Ok value) Metadata.set_ArtistUnicode m;
  m ← assign_if key "Creator" (Ok value) Metadata.set_Creator m;
  m ← assign_if key "Version" (Ok value) Metadata.set_Version m;
  m ← assign_if key "Source" (Ok value) Metadata.set_Source m;
  m ← assign_if key "Tags" (Ok (Py.split " " value)) Metadata.set_Tags m;
  m ← assign_if key "BeatmapID" (Py.int value) Metadata.set_BeatmapID m;
  assign_if key "BeatmapSetID" (Py.int value) Metadata.set_BeatmapSetID m.

Definition metadata_line (line : string) (beatmap : Beatmap.t) : Result Beatmap.t :=
  (* metadata might have more than one colon *)
  '(key, value) ← unpack2 (Py.split1 ":" line);
  let key := Py.strip key in
  let value := Py.strip value in
  m ← metadata_assign key value (Beatmap.metadata beatmap);
  Ok (Beatmap.set_metadata m beatmap).

Definition difficulty_assign (key value : string) (d : Difficulty.t)
    : Result Difficulty.t :=
  d ← assign_if key "HPDrainRate" (Py.Decimal value) Difficulty.set_HPDrainRate d;
  d ← assign_if key "CircleSize" (Py.Decimal value) Difficulty.set_CircleSize d;
  d ← assign_if key "OverallDifficulty" (Py.Decimal value)
        Difficulty.set_OverallDifficulty d;
  d ← assign_if key "ApproachRate" (Py.Decimal value) Difficulty.set_ApproachRate d;
  d ← assign_if key "SliderMultiplier" (Py.Decimal value)
        Difficulty.set_SliderMultiplier d;
  assign_if key "SliderTickRate" (Py.Decimal value) Difficulty.set_SliderTickRate d.

Definition difficulty_line (line : string) (beatmap : Beatmap.t) : Result Beatmap.t :=
  '(key, value) ← unpack2 (Py.split ":" line);
  d ← difficulty_assign key value (Beatmap.difficulty beatmap);
  Ok (Beatmap.set_difficulty d beatmap).

Definition timing_points_line (line : string) (beatmap : Beatmap.t)
    : Result Beatmap.t :=
  match Py.split "," line with
  | [time; beat_length; meter; sample_set; sample_index; volume; uninherited; effects] =>
      time ← Py.Decimal time;
      beat_length ← Py.Decimal beat_length;
      meter ← Py.int meter;
      sample_set ← Py.int sample_set;
      sample_index ← Py.int sample_index;
      volume ← Py.int volume;
      uninherited ← Py.bool_of_int <$> Py.int uninherited;
      effects ← create_effects <$> Py.int effects;
      timing_point ←
        (if uninherited : bool then
           Ok (UninheritedTimingPoint
                 (TimingPoint.mk time meter sample_set sample_index volume uninherited
                    effects) beat_length)
         else
           sv ← Py.div (-100)%Q beat_length;
           Ok (InheritedTimingPoint
                 (TimingPoint.mk time meter sample_set sample_index volume uninherited
                    effects) sv));
      Ok (Beatmap.set_timingPoints (Beatmap.timingPoints beatmap ++ [timing_point])
            beatmap)
  | _ => Raise ValueError
  end.

Definition colors_line (line : string) (beatmap : Beatmap.t) : Result Beatmap.t :=
  '(key, value) ← unpack2 (Py.split ":" line);
  let key := Py.strip key in
  let value := Py.strip value in
  color ← mapR Py.int (Py.split "," value);
  let colors := Beatmap.colors beatmap in
  colors ←
    (if Py.startswith "Combo" key then
       (* TODO actually take this into account *)
       _color_index ← Py.int (Py.slice_from 5 key);
       Ok (Colors.set_colors (Colors.colors colors ++ [color]) colors)
     else if (key =? "SliderTrackOverride")%string then
       Ok (Colors.set_SliderTrackOverride (Some color) colors)
     else if (key =? "SliderBorder")%string then
       Ok (Colors.set_SliderBorder (Some color) colors)
     else Ok colors);
  Ok (Beatmap.set_colors colors beatmap).

Definition optional_hit_sample (params : list string) : Result HitSample.t :=
  if (0 <? length params)%nat
  then last ← Py.index_last params; create_hit_sample last
  else Ok HitSample.default.

Definition slider_params (x y start_time : Z) (object_type : HitObjectType.t)
    (new_combo : bool) (combo_to_skip hit_sound : Z) (object_params : list string)
    : Result hit_object :=
  match object_params with
  | curves :: slides :: length :: edge_sounds :: edge_sets_str :: hit_sample =>
      match Py.split "|" curves with
      | curve_type :: curve_points_str =>
          curve_points ← mapR parse_curve_point curve_points_str;
          slides ← Py.int slides;
          length ← Py.Decimal length;
          edge_sounds ← mapR Py.int (Py.split "|" edge_sounds);
          edge_sets ← mapR parse_edge_set (Py.split "|" edge_sets_str);
          hit_sample ← optional_hit_sample hit_sample;
          Ok (Slider
                (HitObject.mk x y start_time object_type (create_hit_sound hit_sound)
                   new_combo combo_to_skip hit_sample)
                (Slider.mk [Curve.mk curve_type curve_points] slides length
                   edge_sounds edge_sets 0))
      | [] => Raise ValueError
      end
  | _ => Raise ValueError
  end.

Definition hit_objects_line (line : string) (beatmap : Beatmap.t) : Result Beatmap.t :=
  (* object_params may include hit_sample *)
  match Py.split "," line with
  | x :: y :: start_time :: object_type_flag :: hit_sound :: object_params =>
      x ← Py.int x;
      y ← Py.int y;
      start_time ← Py.int start_time;
      object_type_flag ← Py.int object_type_flag;
      '(object_type, new_combo, combo_to_skip) ← decode_type_flag object_type_flag;
      hit_sound ← Py.int hit_sound;
      let append o :=
        Beatmap.set_hit_objects (Beatmap.hit_objects beatmap ++ [o]) beatmap in
      match object_type with
      | HitObjectType.HIT_CIRCLE =>
          hit_sample ← optional_hit_sample object_params;
          Ok (append (HitCircle
                (HitObject.mk x y start_time object_type (create_hit_sound hit_sound)
                   new_combo combo_to_skip hit_sample)))
      | HitObjectType.SLIDER =>
          o ← slider_params x y start_time object_type new_combo combo_to_skip
                hit_sound object_params;
          Ok (append o)
      | HitObjectType.SPINNER =>
          match object_params with
          | end_time :: hit_sample =>
              end_time ← Py.int end_time;
              hit_sample ← optional_hit_sample hit_sample;
              Ok (append (Spinner
                    (HitObject.mk x y start_time object_type
                       (create_hit_sound hit_sound) new_combo combo_to_skip hit_sample)
                    end_time))
          | [] => Raise ValueError
          end
      | HitObjectType.HOLD_NOTE =>
          if object_type_flag =? HitObjectType.value HitObjectType.HOLD_NOTE
          then Ok beatmap (* pass *)
          else Ok beatmap
      end
  | _ => Raise ValueError
  end.

Definition process_line (st : option Section.t * Beatmap.t) (line : string)
    : Result (option Section.t * Beatmap.t) :=
  let '(section, beatmap) := st in
  let line := Py.rstrip line in
  if (String.length line =? 0)%nat then Ok st
  else if Py.startswith "[" line then (* new section *)
    let section_text := Py.slice_1_m1 line in
    Ok (header_section section_text section, beatmap)
  else
    beatmap ←
      match section with
      | Some Section.GENERAL => general_line line beatmap
      | Some Section.EDITOR => editor_line line beatmap
      | Some Section.METADATA => metadata_line line beatmap
      | Some Section.DIFFICULTY => difficulty_line line beatmap
      | Some Section.EVENTS => Ok beatmap
      | Some Section.TIMING_POINTS => timing_points_line line beatmap
      | Some Section.COLORS => colors_line line beatmap
      | Some Section.HIT_OBJECTS => hit_objects_line line beatmap
      | None => Ok beatmap
      end;
    Ok (section, beatmap).

Definition load (lines : list string) : Result Beatmap.t :=
  '(_, beatmap) ← foldR process_line (None, Beatmap.default) lines;
  Ok beatmap.

End Main.

(** ** The two models compared

    [to_main] sends a model of [src/beatmap.py] to the model of
    [src/beatmap/main.py] that holds the same data: settings fields are
    renamed, a timing point keeps the one velocity field its subclass has,
    and a slider loses what the resolver added and gets its curve segments
    joined back into the one curve that was read. *)

Definition rename_General (r : General.t) : Main.General.t :=
  Main.General.mk (General.audio_filename r) (General.audio_lead_in r)
    (General.audio_hash r) (General.preview_time r) (General.countdown r)
    (General.sample_set r) (General.stack_leniency r) (General.mode r)
    (General.letterbox_in_breaks r) (General.story_fire_in_front r)
    (General.use_skin_sprites r) (General.always_show_playfield r)
    (General.overlay_position r) (General.skin_preference r) (General.epilepsy_warning
    r) (General.countdown_offset r) (General.special_style r)
    (General.widescreen_storyboard r) (General.samples_match_playback_rate r).

Definition rename_Editor (r : Editor.t) : Main.Editor.t :=
  Main.Editor.mk (Editor.distance_spacing r) (Editor.beat_divisor r) (Editor.grid_size
    r) (Editor.timeline_zoom r) (Editor.bookmarks r).

Definition rename_Metadata (r : Metadata.t) : Main.Metadata.t :=
  Main.Metadata.mk (Metadata.title r) (Metadata.title_unicode r) (Metadata.artist r)
    (Metadata.artist_unicode r) (Metadata.creator r) (Metadata.version r)
    (Metadata.source r) (Metadata.tags r) (Metadata.beatmap_id r)
    (Metadata.beatmap_set_id r).

Definition rename_Difficulty (r : Difficulty.t) : Main.Difficulty.t :=
  Main.Difficulty.mk (Difficulty.hp_drain_rate r) (Difficulty.circle_size r)
    (Difficulty.overall_difficulty r) (Difficulty.approach_rate r)
    (Difficulty.slider_multiplier r) (Difficulty.slider_tick_rate r).

Definition rename_Colors (r : Colors.t) : Main.Colors.t :=
  Main.Colors.mk (Colors.colors r) (Colors.slider_track_override r)
    (Colors.slider_border r).

Definition rename_Event (e : Event) : Main.Event :=
  match e with
  | Background t f x y => Main.Background t f x y
  | Video t f x y => Main.Video t f x y
  | Break t => Main.Break t
  end.

Definition rename_Events (r : Events.t) : Main.Events.t :=
  Main.Events.mk (map rename_Event (Events.events r)).

Definition rename_Effects (r : Effects.t) : Main.Effects.t :=
  Main.Effects.mk (Effects.kiai_time r) (Effects.bar_line r).

Definition to_main_timing_point (r : TimingPoint.t) : Main.timing_point :=
  let b :=
    Main.TimingPoint.mk (TimingPoint.time r) (TimingPoint.meter r)
      (TimingPoint.sample_set r) (TimingPoint.sample_index r) (TimingPoint.volume r)
      (TimingPoint.uninherited r) (rename_Effects (TimingPoint.effects r)) in
  if TimingPoint.uninherited r
  then Main.UninheritedTimingPoint b (TimingPoint.beat_duration r)
  else Main.InheritedTimingPoint b (TimingPoint.sv_multiplier r).

Definition rename_HitSample (r : HitSample.t) : Main.HitSample.t :=
  Main.HitSample.mk (HitSample.normal_set r) (HitSample.addition_set r)
    (HitSample.index r) (HitSample.volume r) (HitSample.filename r).

Definition rename_HitObject (r : HitObject.t) : Main.HitObject.t :=
  Main.HitObject.mk (HitObject.x r) (HitObject.y r) (HitObject.time r)
    (HitObject.type r) (HitObject.hit_sound r) (HitObject.new_combo r)
    (HitObject.combo_to_skip r) (rename_HitSample (HitObject.hit_sample r)).

(** The segments put end to end, without the position that was prepended,
    under the letter of the first segment's type. *)
Definition unsegment (curves : list Curve.t) : list Main.Curve.t :=
  [Main.Curve.mk
     (match curves with
      | c :: _ => CurveType.value (Curve.curve_type c)
      | [] => ""
      end)
     (tail (concat (map Curve.curve_points curves)))].

Definition to_main_hit_object (o : hit_object) : Main.hit_object :=
  match o with
  | HitCircle b => Main.HitCircle (rename_HitObject b)
  | Slider b s =>
      Main.Slider (rename_HitObject b)
        (Main.Slider.mk (unsegment (Slider.curves s)) (Slider.slides s)
           (Slider.length s) (Slider.edge_sounds s) (Slider.edge_sets s) 0)
  | Spinner b e => Main.Spinner (rename_HitObject b) e
  end.

Definition to_main (r : Beatmap.t) : Main.Beatmap.t :=
  Main.Beatmap.mk (rename_General (Beatmap.general r))
    (rename_Editor (Beatmap.editor r)) (rename_Metadata (Beatmap.metadata r))
    (rename_Difficulty (Beatmap.difficulty r)) (rename_Events (Beatmap.events r))
    (map to_main_timing_point (Beatmap.timing_points r))
    (rename_Colors (Beatmap.colors r))
    (map to_main_hit_object (Beatmap.hit_objects r)).

(** ** What the specification words say, for comparison with the code *)

(** Bit [n] of a flag value: [(value >> n) & 1]. *)
Definition flag_bit (value n : Z) : bool :=
  Py.bool_of_int (Z.land (Z.shiftr value n) 1).

(** The bit of each object type in the type flag. *)
Definition type_bit (ty : HitObjectType.t) : Z :=
  match ty with
  | HitObjectType.HIT_CIRCLE => 0
  | HitObjectType.SLIDER => 1
  | HitObjectType.SPINNER => 3
  | HitObjectType.HOLD_NOTE => 7
  end.

(** The subset of the four object types whose bit is set in [M]. *)
Definition types_set_in (M : Z) : list HitObjectType.t :=
  List.filter (fun ty => flag_bit M (type_bit ty))
    [HitObjectType.HIT_CIRCLE; HitObjectType.SLIDER; HitObjectType.SPINNER;
     HitObjectType.HOLD_NOTE].

Definition point_eqb (p q : Z * Z) : bool :=
  (fst p =? fst q) && (snd p =? snd q).

(** The segments of the sequence [p :: rest], cut before every point that
    equals the point immediately before it. *)
Fixpoint segments_from (p : Z * Z) (rest : list (Z * Z)) : list (list (Z * Z)) :=
  match rest with
  | [] => [[p]]
  | q :: rest' =>
      match segments_from q rest' with
      | seg :: segs => if point_eqb q p then [p] :: seg :: segs else (p :: seg) :: segs
      | [] => [[p]]
      end
  end.

(** The segments of a whole sequence of anchors. *)
Definition segments (points : list (Z * Z)) : list (list (Z * Z)) :=
  match points with
  | [] => []
  | p :: rest => segments_from p rest
  end.

(** A point put in front of the first segment. *)
Definition prepend (p : Z * Z) (segs : list (list (Z * Z))) : list (list (Z * Z)) :=
  match segs with
  | [] => [[p]]
  | seg :: segs' => (p :: seg) :: segs'
  end.

(** No point of the sequence equals the point immediately before it. *)
Fixpoint no_repeat (points : list (Z * Z)) : bool :=
  match points with
  | p :: (q :: _) as rest => negb (point_eqb q p) && no_repeat rest
  | _ => true
  end.

(** Every cut of the segments is at a repeat: a segment starts with the point
    the segment before it ends with. *)
Fixpoint cut_at_repeats (segs : list (list (Z * Z))) : Prop :=
  match segs with
  | seg :: (seg' :: _) as segs' =>
      (exists p, last seg = Some p /\ head seg' = Some p) /\ cut_at_repeats segs'
  | _ => True
  end.

(** Every whitespace character of the string is one [int()] skips. *)
Fixpoint plain_whitespace (s : string) : bool :=
  match s with
  | EmptyString => true
  | String c r => implb (Py.isspace c) (Py.isspace_int c) && plain_whitespace r
  end.

(** The string has no colon. *)
Fixpoint no_colon (s : string) : bool :=
  match s with
  | EmptyString => true
  | String c r => negb (Ascii.eqb c ":") && no_colon r
  end.


(** ** Example data *)

Definition example_timing_point (time : Q) (uninherited : bool)
    (beat_duration sv_multiplier : Q) : TimingPoint.t :=
  TimingPoint.mk time 4 1 0 100 uninherited (Effects.mk false false) beat_duration
    sv_multiplier.

Definition example_base (time : Z) : HitObject.t :=
  HitObject.mk 100 100 time HitObjectType.SLIDER
    (HitSound.mk false false false false) false 0 HitSample.default.

Definition example_slider (slides : Z) (length : Q) : Slider.t :=
  Slider.make [Curve.mk CurveType.BEZIER [(100, 100); (200, 200)]] slides length
    [0; 0]
    [(TimingPointSampleSet.DEFAULT, TimingPointSampleSet.DEFAULT);
     (TimingPointSampleSet.DEFAULT, TimingPointSampleSet.DEFAULT)].

Definition example_beatmap (timing_points : list TimingPoint.t)
    (slider_multiplier : Q) (hit_objects : list hit_object) : Beatmap.t :=
  Beatmap.set_hit_objects hit_objects
    (Beatmap.set_timing_points timing_points
       (Beatmap.set_difficulty
          (Difficulty.set_slider_multiplier slider_multiplier Difficulty.default)
          Beatmap.default)).

(** The example of the specification, as the lines of a file. *)
Definition example_file : list string :=
  ["osu file format v14"; "";
   "[Difficulty]"; "SliderMultiplier:1.4";
   "[TimingPoints]"; "0,500,4,1,0,100,1,0"; "1000,-50,4,1,0,100,0,0";
   "[HitObjects]"; "100,100,1000,2,0,B|200:200,2,350,0|0,0:0|0:0"].

(** A file whose first timing point is inherited, with a slider on it. *)
Definition inherited_first_file : list string :=
  ["[Difficulty]"; "SliderMultiplier:1.4";
   "[TimingPoints]"; "0,-50,4,1,0,100,0,0"; "1000,500,4,1,0,100,1,0";
   "[HitObjects]"; "100,100,0,2,0,B|200:200,2,350,0|0,0:0|0:0"].

(** A file with one timing point and no slider. *)
Definition one_timing_point_file : list string :=
  ["[TimingPoints]"; "0,500,4,1,0,100,1,0";
   "[HitObjects]"; "256,192,500,1,0,0:0:0:0:"].

(** A hold note of osu!mania, as a line of the HitObjects section. *)
Definition hold_note_line : string := "64,192,3000,128,0,3500:0:0:0:0:".

(** ** Notions the further properties are stated with *)

(** The number of points that equal the point before them, [prev] being
    the point before the first. *)
Fixpoint repeats (prev : Z * Z) (points : list (Z * Z)) : nat :=
  match points with
  | [] => 0
  | p :: rest => ((if point_eqb p prev then 1 else 0) + repeats p rest)%nat
  end.

(** A timing point as the loader builds it from a line: an uninherited one
    keeps the default multiplier 1, an inherited one the default beat
    duration 0.  (Nothing is said of the multiplier of an inherited point,
    which is the decimal quotient of -100 by the beat length of the line.) *)
Definition timing_point_built (tp : TimingPoint.t) : Prop :=
  if TimingPoint.uninherited tp then TimingPoint.sv_multiplier tp = 1%Q
  else TimingPoint.beat_duration tp = 0%Q.

(** A hit object as the loader builds it from a line: its type tag is the
    one of its class, its skip count is 0, of its hit sound only [normal] can
    be set, and a slider is unresolved, its curves made from its position. *)
Definition hit_object_built (o : hit_object) : Prop :=
  HitObject.combo_to_skip (base o) = 0
  /\ (exists normal, HitObject.hit_sound (base o) = HitSound.mk normal false false false)
  /\ match o with
     | HitCircle b => HitObject.type b = HitObjectType.HIT_CIRCLE
     | Slider b s =>
         HitObject.type b = HitObjectType.SLIDER
         /\ exists curve_type curve_points slides length edge_sounds edge_sets,
              s = Slider.make
                    (make_curves curve_type (HitObject.x b) (HitObject.y b) curve_points)
                    slides length edge_sounds edge_sets
     | Spinner b _ => HitObject.type b = HitObjectType.SPINNER
     end.

(** What a line read in a section can change: the settings of the section,
    or one element more at the end of its list. *)
Definition line_effect (section : option Section.t) (b b' : Beatmap.t) : Prop :=
  match section with
  | Some Section.GENERAL => b' = Beatmap.set_general (Beatmap.general b') b
  | Some Section.EDITOR => b' = Beatmap.set_editor (Beatmap.editor b') b
  | Some Section.METADATA => b' = Beatmap.set_metadata (Beatmap.metadata b') b
  | Some Section.DIFFICULTY => b' = Beatmap.set_difficulty (Beatmap.difficulty b') b
  | Some Section.COLORS =>
      b' = Beatmap.set_colors (Beatmap.colors b') b
      /\ (Colors.colors (Beatmap.colors b') = Colors.colors (Beatmap.colors b)
          \/ exists color,
               Colors.colors (Beatmap.colors b') =
               Colors.colors (Beatmap.colors b) ++ [color])
  | Some Section.TIMING_POINTS =>
      exists tp,
        b' = Beatmap.set_timing_points (Beatmap.timing_points b ++ [tp]) b
        /\ timing_point_built tp
  | Some Section.HIT_OBJECTS =>
      b' = b
      \/ exists o,
           b' = Beatmap.set_hit_objects (Beatmap.hit_objects b ++ [o]) b
           /\ hit_object_built o
  | Some Section.EVENTS | None => b' = b
  end.

(** What holds of a beatmap while its lines are read. *)
Definition beatmap_built (b : Beatmap.t) : Prop :=
  Forall hit_object_built (Beatmap.hit_objects b)
  /\ Forall timing_point_built (Beatmap.timing_points b)
  /\ Beatmap.events b = Events.default.

(** The cursor of the second pass stands on the timing points in time order:
    its timing point is the one at [i], and [next_time] is the time of the
    one after it, or [math.inf] when there is none. *)
Definition cursor_ok (timing_points : list (nat * TimingPoint.t)) (c : Cursor.t)
    : Prop :=
  timing_points !! Cursor.i c = Some (Cursor.timing_point c)
  /\ Cursor.next_time c =
     match timing_points !! S (Cursor.i c) with
     | Some item => Finite (TimingPoint.time (snd item))
     | None => math_inf
     end.

(** The timing point at position [k] in time order governs the time [time]:
    it is the first one or starts at [time] at the latest, and every one
    after it starts later than [time]. *)
Definition governs (timing_points : list (nat * TimingPoint.t)) (k : nat) (time : Z)
    : Prop :=
  (k = 0%nat
   \/ exists item,
        timing_points !! k = Some item
        /\ (TimingPoint.time (snd item) <= inject_Z time)%Q)
  /\ forall j item,
       (k < j)%nat -> timing_points !! j = Some item ->
       (inject_Z time < TimingPoint.time (snd item))%Q.

(** What the second pass makes of a hit object: a slider keeps its base
    fields and its curves, slides, length and edges, and gets an end time, a
    duration and the reference of the timing point that governs its time;
    any other object is left as it is.  (Nothing is said of the two numbers,
    which the code computes in decimal arithmetic.) *)
Definition resolved (timing_points : list (nat * TimingPoint.t))
    (o o' : hit_object) : Prop :=
  if HitObjectType.eqb (HitObject.type (base o)) HitObjectType.SLIDER then
    exists b s k r tp end_time duration,
      o = Slider b s
      /\ timing_points !! k = Some (r, tp)
      /\ governs timing_points k (HitObject.time b)
      /\ o' = Slider b (Slider.resolve end_time duration r s)
  else o' = o.

(** No character of the text is a space. *)
Fixpoint no_space (s : string) : bool :=
  match s with
  | EmptyString => true
  | String c r => negb (Ascii.eqb c " ") && no_space r
  end.

(** ** Calls of [load] one after another

    [Beatmap.colors] is [default_field(Colors())]: every [Beatmap()] gets a
    shallow copy of one [Colors] object, and a shallow copy shares the list
    [colors] of that object.  [load] appends the combo colours to that list,
    so the list a new beatmap starts with holds what earlier calls in the
    same interpreter have appended.  (The other lists of a beatmap are either
    copies of an empty list, or, in [Events], never written.) *)

(** [Beatmap()] when the shared list of combo colours holds [shared] *)
Definition Beatmap_after (shared : list (list Z)) : Beatmap.t :=
  Beatmap.set_colors (Colors.set_colors shared Colors.default) Beatmap.default.

(** [load], called when the shared list of combo colours holds [shared] *)
Definition load_after (shared : list (list Z)) (lines : list string)
    : Result Beatmap.t :=
  '(_, beatmap) ← foldR process_line (None, Beatmap_after shared) lines;
  let beatmap := populate_timing_point_properties beatmap in
  populate_slider_properties beatmap.

(** A beatmap with [shared] in front of its combo colours. *)
Definition colors_after (shared : list (list Z)) (beatmap : Beatmap.t) : Beatmap.t :=
  Beatmap.set_colors
    (Colors.set_colors (shared ++ Colors.colors (Beatmap.colors beatmap))
       (Beatmap.colors beatmap))
    beatmap.

(** A file with two timing points, a slider and the slider multiplier 0. *)
Definition zero_slider_multiplier_file : list string :=
  ["[Difficulty]"; "SliderMultiplier:0";
   "[TimingPoints]"; "0,500,4,1,0,100,1,0"; "1000,-50,4,1,0,100,0,0";
   "[HitObjects]"; "100,100,1000,2,0,B|200:200,2,350,0|0,0:0|0:0"].
(** * Properties *)

(** ** Bit flags *)

Lemma land_1_odd (a : Z) : Z.land a 1 = Z.b2z (Z.odd a).
Proof.
  change 1 with (Z.ones 1). rewrite Z.land_ones by lia.
  change (2 ^ 1) with 2. rewrite Zmod_odd. by destruct (Z.odd a).
Qed.

Lemma bool_of_land_1 (a : Z) : Py.bool_of_int (Z.land a 1) = Z.odd a.
Proof. rewrite land_1_odd. by destruct (Z.odd a). Qed.

Lemma flag_bit_testbit (value n : Z) : flag_bit value n = Z.testbit value n.
Proof.
  unfold flag_bit. rewrite bool_of_land_1, <- Z.bit0_odd.
  destruct (Z.le_gt_cases 0 n).
  - rewrite Z.shiftr_spec by lia. f_equal.
  - rewrite (Z.testbit_neg_r value n) by lia.
    rewrite Z.shiftr_spec by lia. by rewrite Z.add_0_l, Z.testbit_neg_r.
Qed.

(** A value shifted left by a positive amount is even. *)
Lemma shiftl_even (x n : Z) : 0 < n -> Py.bool_of_int (Z.land (Z.shiftl x n) 1) = false.
Proof.
  intros Hn. rewrite bool_of_land_1, <- Z.bit0_odd.
  rewrite Z.shiftl_spec by lia. apply Z.testbit_neg_r. lia.
Qed.

(** What the two decoders compute on every integer: bit 0, and [False] for
    the flags tested after a shift to the left. *)
Lemma create_hit_sound_eq (x : Z) :
  create_hit_sound x = HitSound.mk (flag_bit x 0) false false false.
Proof.
  unfold create_hit_sound.
  rewrite (shiftl_even x 1), (shiftl_even x 2), (shiftl_even x 3) by lia.
  rewrite Z.shiftl_0_r. unfold flag_bit. by rewrite Z.shiftr_0_r.
Qed.

Lemma create_effects_eq (x : Z) :
  create_effects x = Effects.mk (flag_bit x 0) false.
Proof.
  unfold create_effects. rewrite (shiftl_even x 3) by lia.
  rewrite Z.shiftl_0_r. unfold flag_bit. by rewrite Z.shiftr_0_r.
Qed.

(** C1, at the value 14 (whistle, finish and clap set; bit 3 set): the bits
    1, 2 and 3 of the value are 1, and both decoders report every one of these
    flags absent, because they test [(x << n) & 1] and not [(x >> n) & 1]. *)
Theorem hit_sound_and_effects_at_14 :
  (flag_bit 14 1 = true /\ flag_bit 14 2 = true /\ flag_bit 14 3 = true)
  /\ create_hit_sound 14 = HitSound.mk false false false false
  /\ create_effects 14 = Effects.mk false false.
Proof. repeat split. Qed.

(** ** The type flag *)

Lemma land_low8 (M k : Z) : Z.land 255 k = k -> Z.land M k = Z.land (M mod 256) k.
Proof.
  intros Hk. rewrite <- Hk at 1. rewrite Z.land_assoc.
  change 255 with (Z.ones 8). rewrite Z.land_ones by lia. done.
Qed.

Lemma flag_bit_low8 (M n : Z) : 0 <= n < 8 -> flag_bit M n = flag_bit (M mod 256) n.
Proof.
  intros Hn. rewrite !flag_bit_testbit.
  change 256 with (2 ^ 8). by rewrite Z.mod_pow2_bits_low by lia.
Qed.

Lemma types_set_in_low8 (M : Z) : types_set_in M = types_set_in (M mod 256).
Proof.
  unfold types_set_in; simpl.
  rewrite (flag_bit_low8 M 0), (flag_bit_low8 M 1), (flag_bit_low8 M 3),
    (flag_bit_low8 M 7) by lia.
  done.
Qed.

(** The statement of the next theorem, on the 256 values of the low byte. *)
Lemma decode_type_flag_byte (k : nat) :
  (k < 256)%nat ->
  match decode_type_flag (Z.of_nat k) with
  | Ok (object_type, new_combo, _) =>
      types_set_in (Z.of_nat k) = [object_type] /\ new_combo = flag_bit (Z.of_nat k) 2
  | Raise e => e = ValueError /\ length (types_set_in (Z.of_nat k)) <> 1%nat
  end.
Proof.
  intros Hk.
  do 256 (destruct k as [|k];
          [vm_compute; split; (reflexivity || discriminate)|]).
  lia.
Qed.

(** C2, as the code has it: the type flag decodes to an object type exactly
    when one and only one of the bits 0, 1, 3, 7 is set in it, the type is
    then the one whose bit is set, and the new-combo flag is bit 2; with none
    or several of the four bits set the decoding raises ValueError. *)
Theorem decode_type_flag_one_type (M : Z) :
  match decode_type_flag M with
  | Ok (object_type, new_combo, _) =>
      types_set_in M = [object_type] /\ new_combo = flag_bit M 2
  | Raise e => e = ValueError /\ length (types_set_in M) <> 1%nat
  end.
Proof.
  pose proof (Z.mod_pos_bound M 256 ltac:(lia)) as Hr.
  pose proof (decode_type_flag_byte (Z.to_nat (M mod 256)) ltac:(lia)) as H.
  rewrite Z2Nat.id in H by lia.
  unfold decode_type_flag in *.
  rewrite (land_low8 M 139), (land_low8 M (Z.shiftl 1 2)) by done.
  rewrite types_set_in_low8, (flag_bit_low8 M 2) by lia.
  destruct (HitObjectType.of_value (Z.land (M mod 256) 139)); exact H.
Qed.

(** C2 as stated fails at M = 3: bits 0 and 1 are set, so the subset is
    circle and slider, and the decoding raises instead of reporting it. *)
Lemma decode_type_flag_3 :
  types_set_in 3 = [HitObjectType.HIT_CIRCLE; HitObjectType.SLIDER]
  /\ decode_type_flag 3 = Raise ValueError.
Proof. split; reflexivity. Qed.

(** The skip count is computed from [(flag << 4) & 7], which is 0 for every
    flag; the field [(flag >> 4) & 7] of the flag 16 is 1. *)
Lemma combo_to_skip_zero (M : Z) : Z.land (Z.shiftl M 4) 7 = 0.
Proof.
  apply Z.bits_inj'. intros n Hn. rewrite Z.land_spec, Z.bits_0.
  destruct (Z.lt_ge_cases n 3).
  - rewrite Z.shiftl_spec by lia. rewrite Z.testbit_neg_r by lia. done.
  - change 7 with (Z.ones 3). rewrite Z.ones_spec_high by lia. apply andb_false_r.
Qed.

Lemma combo_to_skip_at_16 :
  Z.land (Z.shiftr 16 4) 7 = 1
  /\ (combo ← decode_type_flag 17; Ok (snd combo)) = Ok 0.
Proof. split; reflexivity. Qed.

(** ** Curve segments *)

Lemma point_eqb_eq (p q : Z * Z) : point_eqb p q = true <-> p = q.
Proof.
  destruct p, q; unfold point_eqb; simpl.
  rewrite andb_true_iff, !Z.eqb_eq. split; [intros []|intros [=]]; by subst.
Qed.

Lemma point_eqb_refl (p : Z * Z) : point_eqb p p = true.
Proof. by apply point_eqb_eq. Qed.

Lemma segments_from_cons (p : Z * Z) (rest : list (Z * Z)) :
  exists seg segs, segments_from p rest = (p :: seg) :: segs.
Proof.
  destruct rest as [|q rest]; simpl; [by exists [], []|].
  destruct (segments_from q rest) as [|seg segs]; [by exists [], []|].
  destruct (point_eqb q p); eauto.
Qed.

(** The segments are the sequence, cut: end to end they give it back. *)
Lemma segments_from_concat (p : Z * Z) (rest : list (Z * Z)) :
  concat (segments_from p rest) = p :: rest.
Proof.
  revert p. induction rest as [|q rest IH]; intros p; simpl; [done|].
  specialize (IH q). destruct (segments_from_cons q rest) as (seg & segs & E).
  rewrite E in *. destruct (point_eqb q p); simpl in *; by rewrite IH.
Qed.

(** No segment holds a point next to an equal point: every repeat is a cut. *)
Lemma segments_from_no_repeat (p : Z * Z) (rest : list (Z * Z)) :
  Forall (fun seg => no_repeat seg = true) (segments_from p rest).
Proof.
  revert p. induction rest as [|q rest IH]; intros p; simpl.
  { by repeat constructor. }
  specialize (IH q). destruct (segments_from_cons q rest) as (seg & segs & E).
  rewrite E in *. inversion_clear IH as [|? ? Hseg Hsegs].
  destruct (point_eqb q p) eqn:Eq.
  - by repeat constructor.
  - constructor; [|done]. change (negb (point_eqb q p) && no_repeat (q :: seg) = true).
    by rewrite Eq, Hseg.
Qed.

Lemma segments_from_cut_at_repeats (p : Z * Z) (rest : list (Z * Z)) :
  cut_at_repeats (segments_from p rest).
Proof.
  revert p. induction rest as [|q rest IH]; intros p; simpl; [done|].
  specialize (IH q). destruct (segments_from_cons q rest) as (seg & segs & E).
  rewrite E in *. destruct (point_eqb q p) eqn:Eq.
  - apply point_eqb_eq in Eq as ->. split; [by exists p|done].
  - destruct segs as [|seg' segs]; [done|]. destruct IH as [(r & Hl & Hh) IH].
    split; [|done]. exists r. split; [|done]. by rewrite last_cons, Hl.
Qed.

(** A sequence without repeat is one segment, and a repeat closes the
    segment before it. *)
Lemma segments_from_one (p : Z * Z) (rest : list (Z * Z)) :
  no_repeat (p :: rest) = true -> segments_from p rest = [p :: rest].
Proof.
  revert p. induction rest as [|q rest IH]; intros p H; [done|].
  simpl in H. apply andb_true_iff in H as [Hq H]. simpl.
  rewrite (IH q H). by destruct (point_eqb q p).
Qed.

Lemma segments_from_repeat (h p : Z * Z) (t b : list (Z * Z)) :
  no_repeat (h :: t) = true -> last (h :: t) = Some p ->
  segments_from h (t ++ p :: b) = (h :: t) :: segments_from p b.
Proof.
  revert h. induction t as [|q t IH]; intros h Hn Hl.
  - injection Hl as ->. simpl. rewrite point_eqb_refl.
    by destruct (segments_from_cons p b) as (seg & segs & ->).
  - simpl in Hn. apply andb_true_iff in Hn as [Hq Hn].
    rewrite last_cons_cons in Hl. simpl. rewrite (IH q Hn Hl).
    by destruct (point_eqb q h).
Qed.

(** The loop of the loader, from a state whose previous point is the last
    point of the current curve. *)
Lemma bezier_loop (curves : list Curve.t) (pre : list (Z * Z)) (p : Z * Z)
    (rest : list (Z * Z)) :
  (let '(curves', curr, _) := foldl bezier_step (curves, pre ++ [p], p) rest in
   curves' ++ [Curve.mk CurveType.BEZIER curr]) =
  curves ++ map (Curve.mk CurveType.BEZIER)
              (match segments_from p rest with
               | seg :: segs => (pre ++ seg) :: segs
               | [] => []
               end).
Proof.
  revert curves pre p. induction rest as [|q rest IH]; intros curves pre p; [done|].
  destruct (segments_from_cons q rest) as (seg & segs & E).
  simpl foldl. fold (point_eqb q p). simpl segments_from.
  rewrite E. destruct (point_eqb q p).
  - rewrite (IH _ [] q), E. simpl. by rewrite <- app_assoc.
  - rewrite (IH curves (pre ++ [p]) q), E. simpl. by rewrite <- app_assoc.
Qed.

(** C5, as the code has it, for a first anchor other than (-1, -1): the
    anchors of the descriptor are cut before every anchor that equals the
    anchor immediately before it, the repeated anchor opens the new segment,
    the position of the hit object is put in front of the first segment
    without being compared with the first anchor, and there is one bezier
    curve per segment, in order; a descriptor with one pair of equal
    consecutive anchors gives exactly two curves. *)
Theorem make_curves_bezier (x y : Z) (curve_points : list (Z * Z)) :
  head curve_points <> Some (-1, -1) ->
  make_curves CurveType.BEZIER x y curve_points =
    map (Curve.mk CurveType.BEZIER) (prepend (x, y) (segments curve_points))
  /\ forall a p b,
       curve_points = a ++ [p; p] ++ b ->
       no_repeat (a ++ [p]) = true -> no_repeat (p :: b) = true ->
       make_curves CurveType.BEZIER x y curve_points =
         [Curve.mk CurveType.BEZIER ((x, y) :: a ++ [p]);
          Curve.mk CurveType.BEZIER (p :: b)].
Proof.
  intros Hs.
  assert (make_curves CurveType.BEZIER x y curve_points =
          map (Curve.mk CurveType.BEZIER) (prepend (x, y) (segments curve_points)))
    as Heq.
  { destruct curve_points as [|q rest]; [done|].
    unfold make_curves; simpl foldl.
    assert (point_eqb q (-1, -1) = false) as Hq.
    { destruct (point_eqb q (-1, -1)) eqn:Eq; [|done].
      apply point_eqb_eq in Eq as ->. by destruct Hs. }
    change ((q.1 =? -1) && (q.2 =? -1)) with (point_eqb q (-1, -1)). rewrite Hq.
    change (CurveType.eqb CurveType.BEZIER CurveType.BEZIER) with true.
    cbv iota. refine (eq_trans (bezier_loop [] [(x, y)] q rest) _). simpl.
    by destruct (segments_from_cons q rest) as (seg & segs & ->). }
  split; [done|].
  intros a p b -> Ha Hb. rewrite Heq. f_equal.
  destruct a as [|h t]; simpl in *.
  - rewrite point_eqb_refl.
    by rewrite (segments_from_one p b Hb).
  - assert (last (h :: t ++ [p]) = Some p) as Hl.
    { by rewrite app_comm_cons, last_snoc. }
    pose proof (segments_from_repeat h p (t ++ [p]) b Ha Hl) as H.
    rewrite <- app_assoc in H. simpl in H. rewrite H.
    by rewrite (segments_from_one p b Hb).
Qed.

Lemma make_curves_bezier_witness :
  head [(200, 200); (250, 200); (250, 200); (300, 150)] <> Some (-1, -1)
  /\ make_curves CurveType.BEZIER 100 100
       [(200, 200); (250, 200); (250, 200); (300, 150)] =
     [Curve.mk CurveType.BEZIER [(100, 100); (200, 200); (250, 200)];
      Curve.mk CurveType.BEZIER [(250, 200); (300, 150)]].
Proof.
  split; [discriminate|].
  refine (proj2 (make_curves_bezier 100 100 _ _) [(200, 200)] (250, 200) [(300, 150)]
            _ _ _); [discriminate|reflexivity..].
Defined.

(** C5 as stated fails when the first anchor equals the position: the
    sequence with the position in front has a repeat at its second point,
    which the claim cuts and the loader does not. *)
Lemma make_curves_first_anchor_at_position :
  segments_from (5, 5) [(5, 5); (6, 6)] = [[(5, 5)]; [(5, 5); (6, 6)]]
  /\ make_curves CurveType.BEZIER 5 5 [(5, 5); (6, 6)] =
       [Curve.mk CurveType.BEZIER [(5, 5); (5, 5); (6, 6)]].
Proof. split; reflexivity. Qed.

(** The sentinel is a point a descriptor can hold: a first anchor (-1, -1)
    is taken for a repeat. *)
Lemma make_curves_first_anchor_sentinel :
  make_curves CurveType.BEZIER 0 0 [(-1, -1); (3, 3)] =
    [Curve.mk CurveType.BEZIER [(0, 0)]; Curve.mk CurveType.BEZIER [(-1, -1); (3, 3)]].
Proof. reflexivity. Qed.

(** ** The resolver *)

Section sorted.
Context {A K : Type} (leb : K -> K -> bool) (key : A -> K).

Lemma insert_Permutation (a : A) (l : list A) : Py.insert leb key a l ≡ₚ a :: l.
Proof.
  induction l as [|b l IH]; simpl; [done|].
  destruct (leb (key a) (key b)); [done|].
  rewrite IH. apply Permutation_swap.
Qed.

Lemma sorted_Permutation (l : list A) : Py.sorted leb key l ≡ₚ l.
Proof.
  induction l as [|a l IH]; [done|].
  unfold Py.sorted in *; simpl. by rewrite insert_Permutation, IH.
Qed.

Lemma sorted_length (l : list A) : length (Py.sorted leb key l) = length l.
Proof. by rewrite sorted_Permutation. Qed.
End sorted.

Lemma enumerate_length {A} (l : list A) : length (Py.enumerate l) = length l.
Proof. apply length_imap. Qed.

Lemma enumerate_lookup {A} (l : list A) (r : nat) (a : A) :
  (r, a) ∈ Py.enumerate l <-> l !! r = Some a.
Proof.
  unfold Py.enumerate. rewrite list_elem_of_lookup. split.
  - intros (i & Hi). rewrite list_lookup_imap in Hi.
    destruct (l !! i) eqn:E; simplify_eq/=. done.
  - intros Hr. exists r. by rewrite list_lookup_imap, Hr.
Qed.

Lemma enumerate_fst {A} (l : list A) : (Py.enumerate l).*1 = seq 0 (length l).
Proof.
  unfold Py.enumerate. apply list_eq. intros i.
  rewrite list_lookup_fmap, list_lookup_imap.
  destruct (l !! i) eqn:E; simpl.
  - symmetry. apply lookup_seq. split; [done|]. by eapply lookup_lt_Some.
  - symmetry. apply lookup_seq_ge. by apply lookup_ge_None.
Qed.

(** The references [sorted] lists are those of the list, each one once. *)
Lemma sorted_enumerate_NoDup {A K} (leb : K -> K -> bool) (key : nat * A -> K)
    (l : list A) :
  NoDup (Py.sorted leb key (Py.enumerate l)).*1.
Proof.
  rewrite sorted_Permutation, enumerate_fst. apply NoDup_seq.
Qed.

Lemma sorted_enumerate_lookup {A K} (leb : K -> K -> bool) (key : nat * A -> K)
    (l : list A) (r : nat) (a : A) :
  (r, a) ∈ Py.sorted leb key (Py.enumerate l) <-> l !! r = Some a.
Proof. by rewrite sorted_Permutation, enumerate_lookup. Qed.

(** The loop of [populate_timing_point_properties] keeps the length of the
    list and writes only at the references it visits. *)
Lemma timing_point_loop_length (items : list (nat * TimingPoint.t))
    (store : list TimingPoint.t) (last : Q) :
  length (foldl timing_point_step (store, last) items).1 = length store.
Proof.
  revert store last. induction items as [|[r tp] items IH]; intros store last; [done|].
  simpl. destruct (TimingPoint.uninherited tp); rewrite IH; [done|].
  apply length_insert.
Qed.

Lemma timing_point_loop_other (items : list (nat * TimingPoint.t))
    (store : list TimingPoint.t) (last : Q) (r : nat) :
  r ∉ items.*1 ->
  (foldl timing_point_step (store, last) items).1 !! r = store !! r.
Proof.
  revert store last. induction items as [|[r' tp] items IH]; intros store last Hr; [done|].
  simpl in *. apply not_elem_of_cons in Hr as [Hne Hr].
  destruct (TimingPoint.uninherited tp); rewrite IH by done; [done|].
  by apply list_lookup_insert_ne.
Qed.

(** Over inherited points the loop keeps [last_beat_duration]. *)
Lemma timing_point_loop_inherited (items : list (nat * TimingPoint.t))
    (store : list TimingPoint.t) (last : Q) :
  Forall (fun item => TimingPoint.uninherited item.2 = false) items ->
  (foldl timing_point_step (store, last) items).2 = last.
Proof.
  revert store. induction items as [|[r tp] items IH]; intros store H; [done|].
  inversion_clear H as [|? ? Htp Hitems]. simpl in *. rewrite Htp. by apply IH.
Qed.

Lemma populate_timing_point_properties_length (beatmap : Beatmap.t) :
  length (Beatmap.timing_points (populate_timing_point_properties beatmap)) =
  length (Beatmap.timing_points beatmap).
Proof.
  unfold populate_timing_point_properties.
  pose proof (timing_point_loop_length
    (Py.sorted Qle_bool (fun item => TimingPoint.time item.2)
       (Py.enumerate (Beatmap.timing_points beatmap)))
    (Beatmap.timing_points beatmap) 0%Q) as H.
  destruct (foldl _ _ _) as [store last]. exact H.
Qed.

(** With fewer than two timing points the reads before the loop over the hit
    objects are out of range. *)
Lemma populate_slider_properties_short (beatmap : Beatmap.t) :
  (length (Beatmap.timing_points beatmap) < 2)%nat ->
  populate_slider_properties beatmap = Raise IndexError.
Proof.
  intros Hlen. unfold populate_slider_properties.
  set (tps := Py.sorted _ _ _).
  assert (length tps = length (Beatmap.timing_points beatmap)) as Htps.
  { unfold tps. by rewrite sorted_length, enumerate_length. }
  unfold Py.index. destruct tps as [|tp0 [|tp1 tps']]; simpl in *; try done. lia.
Qed.

(** The loop [while hit_object.time >= next_time] as it is written: the
    number of rounds given to [advance] is never what stops it. *)
Lemma advance_unfold (timing_points : list (nat * TimingPoint.t)) (time : Z)
    (c : Cursor.t) :
  advance (length timing_points - Cursor.i c) timing_points time c =
  if time_ge time (Cursor.next_time c) then
    let i := (Cursor.i c + 1)%nat in
    timing_point ← Py.index timing_points i;
    next_time ←
      (if (i + 1 <? length timing_points)%nat
       then tp ← Py.index timing_points (i + 1)%nat;
            Ok (Finite (TimingPoint.time (snd tp)))
       else Ok math_inf);
    advance (length timing_points - i) timing_points time
      (Cursor.mk i timing_point next_time)
  else Ok c.
Proof.
  destruct (length timing_points - Cursor.i c)%nat as [|n] eqn:E; simpl.
  - destruct (time_ge time (Cursor.next_time c)); [|done].
    unfold Py.index.
    by rewrite (proj2 (lookup_ge_None timing_points (Cursor.i c + 1)%nat)) by lia.
  - replace (length timing_points - (Cursor.i c + 1))%nat with n by lia. done.
Qed.

Lemma div_nonzero (a b : Q) : ~ (b == 0)%Q -> Py.div a b = Ok (a / b)%Q.
Proof.
  intros Hb. unfold Py.div. destruct (Qeq_bool b 0) eqn:E; [|done].
  by apply Qeq_bool_iff in E.
Qed.

Lemma div_Ok (a b d : Q) : Py.div a b = Ok d -> d = (a / b)%Q.
Proof.
  unfold Py.div. destruct (Qeq_bool b 0); [by destruct (Qeq_bool a 0)|].
  by intros [= <-].
Qed.

(** C4, as the code has it.  No case of the resolver raises a
    MissingContextError: with an empty timing-point list the resolver fails
    with IndexError; an inherited timing point that comes, in time order,
    before every uninherited one gets the beat duration 0 and nothing is
    raised; and whenever the step of the resolver on a slider bound to a
    timing point of beat duration 0 raises nothing, the slider is bound to
    that point and gets the duration 0, the beat duration 0 being used like
    any other.  The numbers are the finite decimals. *)
Theorem resolver_degenerate_cases :
  (forall beatmap,
     Beatmap.timing_points beatmap = [] ->
     populate_slider_properties (populate_timing_point_properties beatmap) =
       Raise IndexError)
  /\ (forall beatmap before r tp after,
        Py.sorted Qle_bool (fun item => TimingPoint.time (snd item))
          (Py.enumerate (Beatmap.timing_points beatmap)) = before ++ (r, tp) :: after ->
        Forall (fun item => TimingPoint.uninherited (snd item) = false) before ->
        TimingPoint.uninherited tp = false ->
        Beatmap.timing_points (populate_timing_point_properties beatmap) !! r =
          Some (TimingPoint.set_beat_duration 0 tp))
  /\ (forall beatmap timing_points store c c' ref b s st',
        HitObject.type b = HitObjectType.SLIDER ->
        advance (length timing_points - Cursor.i c) timing_points (HitObject.time b) c =
          Ok c' ->
        (TimingPoint.beat_duration (snd (Cursor.timing_point c')) == 0)%Q ->
        slider_step beatmap timing_points (store, c) (ref, Slider b s) = Ok st' ->
        exists s',
          st' = (<[ref := Slider b s']> store, c')
          /\ (Slider.duration s' == 0)%Q
          /\ Slider.timing_point s' = Some (fst (Cursor.timing_point c'))).
Proof.
  split; [|split].
  - intros beatmap Hnil. apply populate_slider_properties_short.
    rewrite populate_timing_point_properties_length, Hnil. simpl. lia.
  - intros beatmap before r tp after Hsorted Hbefore Htp.
    pose proof (sorted_enumerate_NoDup Qle_bool
      (fun item => TimingPoint.time (snd item)) (Beatmap.timing_points beatmap)) as Hnd.
    pose proof (proj1 (sorted_enumerate_lookup Qle_bool
      (fun item => TimingPoint.time (snd item)) (Beatmap.timing_points beatmap) r tp))
      as Hr.
    unfold populate_timing_point_properties.
    rewrite Hsorted in *. clear Hsorted.
    rewrite foldl_app.
    pose proof (timing_point_loop_inherited before (Beatmap.timing_points beatmap) 0%Q
      Hbefore) as Hlast.
    pose proof (timing_point_loop_length before (Beatmap.timing_points beatmap) 0%Q)
      as Hlen.
    destruct (foldl timing_point_step (Beatmap.timing_points beatmap, 0%Q) before)
      as [store1 last1]. simpl in Hlast, Hlen. subst last1.
    simpl foldl. rewrite Htp.
    pose proof (timing_point_loop_other after
      (<[r := TimingPoint.set_beat_duration 0 tp]> store1) 0%Q r) as Hother.
    destruct (foldl timing_point_step _ after) as [store2 last2]. simpl in *.
    rewrite fmap_app, fmap_cons in Hnd. apply NoDup_app in Hnd as (_ & _ & Hnd).
    apply NoDup_cons in Hnd as [Hnotin _]. rewrite Hother by done.
    apply list_lookup_insert_eq. rewrite Hlen. eapply lookup_lt_Some, Hr.
    apply elem_of_app. right. by left.
  - intros beatmap timing_points store c c' ref b s st' Hty Hadv Hbd.
    unfold slider_step. simpl base. rewrite Hty. simpl HitObjectType.eqb. cbv iota.
    rewrite Hadv. simpl mbind. unfold Result_bind at 1.
    match goal with
    | |- mbind _ (Py.div ?n ?d) = _ -> _ =>
        destruct (Py.div n d) as [duration|] eqn:Hdiv; [|done]
    end.
    cbn [mbind Result_bind]. intros [= <-]. eexists. split; [reflexivity|]. split; [|done].
    apply div_Ok in Hdiv. simpl. rewrite Hdiv, Hbd.
    unfold Qdiv. by rewrite !Qmult_0_l.
Qed.

(** A slider whose timing point is found gets
    [duration = beat_duration * slides * length
                / (sv_multiplier * 100 * slider_multiplier)]
    and [end_time = time + duration], and the reference of the point. *)
Lemma slider_step_resolves (beatmap : Beatmap.t)
    (timing_points : list (nat * TimingPoint.t)) (store : list hit_object)
    (c c' : Cursor.t) (ref : nat) (b : HitObject.t) (s : Slider.t) :
  HitObject.type b = HitObjectType.SLIDER ->
  advance (length timing_points - Cursor.i c) timing_points (HitObject.time b) c =
    Ok c' ->
  ~ (TimingPoint.sv_multiplier (snd (Cursor.timing_point c')) * 100
     * Difficulty.slider_multiplier (Beatmap.difficulty beatmap) == 0)%Q ->
  let duration :=
    (TimingPoint.beat_duration (snd (Cursor.timing_point c'))
     * inject_Z (Slider.slides s) * Slider.length s
     / (TimingPoint.sv_multiplier (snd (Cursor.timing_point c')) * 100
        * Difficulty.slider_multiplier (Beatmap.difficulty beatmap)))%Q in
  slider_step beatmap timing_points (store, c) (ref, Slider b s) =
    Ok (<[ref := Slider b
                   (Slider.resolve (inject_Z (HitObject.time b) + duration)%Q duration
                      (fst (Cursor.timing_point c')) s)]> store, c').
Proof.
  intros Hty Hadv Hden duration.
  unfold slider_step. simpl base. rewrite Hty. simpl HitObjectType.eqb. cbv iota.
  rewrite Hadv. simpl mbind. unfold Result_bind at 1.
  by rewrite (div_nonzero _ _ Hden).
Qed.

Lemma populate_timing_point_properties_eq (beatmap : Beatmap.t) :
  populate_timing_point_properties beatmap =
  Beatmap.set_timing_points
    (foldl timing_point_step (Beatmap.timing_points beatmap, 0%Q)
       (Py.sorted Qle_bool (fun item => TimingPoint.time (snd item))
          (Py.enumerate (Beatmap.timing_points beatmap)))).1 beatmap.
Proof. unfold populate_timing_point_properties. by destruct (foldl _ _ _). Qed.

Lemma populate_slider_properties_eq (beatmap : Beatmap.t)
    (tp0 tp1 : nat * TimingPoint.t) (rest : list (nat * TimingPoint.t)) :
  Py.sorted Qle_bool (fun item => TimingPoint.time (snd item))
    (Py.enumerate (Beatmap.timing_points beatmap)) = tp0 :: tp1 :: rest ->
  populate_slider_properties beatmap =
  '(store, _) ←
    foldR (slider_step beatmap (tp0 :: tp1 :: rest))
      (Beatmap.hit_objects beatmap,
       Cursor.mk 0 tp0 (Finite (TimingPoint.time (snd tp1))))
      (Py.sorted Z.leb (fun item => HitObject.time (base (snd item)))
         (Py.enumerate (Beatmap.hit_objects beatmap)));
  Ok (Beatmap.set_hit_objects store beatmap).
Proof.
  intros H. unfold populate_slider_properties. by rewrite H.
Qed.

(** C3: with the two timing points of the example (in either order in the
    file), a slider multiplier of 1.4 and the one slider starting at 1000
    with 2 slides and length 350, the resolver succeeds, binds the slider to
    the timing point at 1000, which has received the beat duration of the
    point at 0, and sets the duration to 1250 and the end time to 2250. *)
Theorem slider_bound_to_second_timing_point (beatmap : Beatmap.t)
    (tp0 tp1 : TimingPoint.t) (b : HitObject.t) (s : Slider.t) :
  Beatmap.timing_points beatmap ≡ₚ [tp0; tp1] ->
  (TimingPoint.time tp0 == 0)%Q -> TimingPoint.uninherited tp0 = true ->
  (TimingPoint.beat_duration tp0 == 500)%Q ->
  (TimingPoint.time tp1 == 1000)%Q -> TimingPoint.uninherited tp1 = false ->
  (TimingPoint.sv_multiplier tp1 == 2)%Q ->
  (Difficulty.slider_multiplier (Beatmap.difficulty beatmap) == 1.4)%Q ->
  Beatmap.hit_objects beatmap = [Slider b s] ->
  HitObject.type b = HitObjectType.SLIDER -> HitObject.time b = 1000 ->
  Slider.slides s = 2 -> (Slider.length s == 350)%Q ->
  exists beatmap' s' r,
    populate_slider_properties (populate_timing_point_properties beatmap) = Ok beatmap'
    /\ Beatmap.hit_objects beatmap' = [Slider b s']
    /\ Slider.timing_point s' = Some r
    /\ Beatmap.timing_points beatmap' !! r =
         Some (TimingPoint.set_beat_duration (TimingPoint.beat_duration tp0) tp1)
    /\ (Slider.duration s' ==
          TimingPoint.beat_duration tp0 * inject_Z (Slider.slides s) * Slider.length s
          / (TimingPoint.sv_multiplier tp1 * 100
             * Difficulty.slider_multiplier (Beatmap.difficulty beatmap)))%Q
    /\ (Slider.duration s' == 1250)%Q
    /\ (Slider.end_time s' == inject_Z (HitObject.time b) + Slider.duration s')%Q
    /\ (Slider.end_time s' == 2250)%Q.
Proof.
  intros Hperm Ht0 Hu0 Hbd0 Ht1 Hu1 Hsv Hsm Hobjs Hty Htime Hslides Hlen.
  assert (Qle_bool (TimingPoint.time tp0) (TimingPoint.time tp1) = true) as H01.
  { apply Qle_bool_iff. by rewrite Ht0, Ht1. }
  assert (Qle_bool (TimingPoint.time tp1) (TimingPoint.time tp0) = false) as H10.
  { apply not_true_is_false. rewrite Qle_bool_iff, Ht0, Ht1. by intros []. }
  assert (Qle_bool (TimingPoint.time tp1) (inject_Z 1000) = true) as Hge.
  { apply Qle_bool_iff. by rewrite Ht1. }
  assert (~ (TimingPoint.sv_multiplier tp1 * 100
             * Difficulty.slider_multiplier (Beatmap.difficulty beatmap) == 0)%Q) as Hden.
  { by rewrite Hsv, Hsm. }
  assert (TimingPoint.beat_duration tp0 * inject_Z 2 * Slider.length s
          / (TimingPoint.sv_multiplier tp1 * 100
             * Difficulty.slider_multiplier (Beatmap.difficulty beatmap)) == 1250)%Q
    as Hdur.
  { by rewrite Hbd0, Hlen, Hsv, Hsm. }
  destruct beatmap as [g e m d ev tps col hos]. simpl in *. subst hos.
  set (tp1' := TimingPoint.set_beat_duration (TimingPoint.beat_duration tp0) tp1).
  apply Permutation_sym, Permutation_length_2_inv in Hperm as [-> | ->].
  - rewrite populate_timing_point_properties_eq.
    unfold Py.sorted, Py.enumerate. simpl. rewrite H01.
    unfold timing_point_step; simpl. rewrite Hu0, Hu1. simpl. fold tp1'.
    unfold Beatmap.set_timing_points; simpl.
    erewrite (populate_slider_properties_eq _ (0%nat, tp0) (1%nat, tp1') []);
      [|by unfold Py.sorted, Py.enumerate; simpl; rewrite H01].
    cbn [Beatmap.hit_objects Beatmap.timing_points].
    change (Py.sorted Z.leb _ (Py.enumerate [Slider b s])) with [(0%nat, Slider b s)].
    cbn [foldR].
    erewrite (slider_step_resolves _ _ _ _ (Cursor.mk 1 (1%nat, tp1') math_inf));
      [|done| |done].
    2:{ rewrite Htime. simpl. by rewrite Hge. }
    simpl. eexists _, _, _. do 4 (split; [reflexivity|]).
    cbn [Slider.duration Slider.end_time Slider.resolve].
    rewrite Hslides, Htime, Hdur. by repeat split.
  - rewrite populate_timing_point_properties_eq.
    unfold Py.sorted, Py.enumerate. simpl. rewrite H10.
    unfold timing_point_step; simpl. rewrite Hu0, Hu1. simpl. fold tp1'.
    unfold Beatmap.set_timing_points; simpl.
    erewrite (populate_slider_properties_eq _ (1%nat, tp0) (0%nat, tp1') []);
      [|by unfold Py.sorted, Py.enumerate; simpl; rewrite H10].
    cbn [Beatmap.hit_objects Beatmap.timing_points].
    change (Py.sorted Z.leb _ (Py.enumerate [Slider b s])) with [(0%nat, Slider b s)].
    cbn [foldR].
    erewrite (slider_step_resolves _ _ _ _ (Cursor.mk 1 (0%nat, tp1') math_inf));
      [|done| |done].
    2:{ rewrite Htime. simpl. by rewrite Hge. }
    simpl. eexists _, _, _. do 4 (split; [reflexivity|]).
    cbn [Slider.duration Slider.end_time Slider.resolve].
    rewrite Hslides, Htime, Hdur. by repeat split.
Qed.

Lemma slider_bound_to_second_timing_point_witness :
  exists beatmap' s' r,
    populate_slider_properties
      (populate_timing_point_properties
         (example_beatmap
            [example_timing_point 0 true 500 1; example_timing_point 1000 false 0 2]
            1.4 [Slider (example_base 1000) (example_slider 2 350)])) = Ok beatmap'
    /\ Beatmap.hit_objects beatmap' = [Slider (example_base 1000) s']
    /\ Slider.timing_point s' = Some r
    /\ Beatmap.timing_points beatmap' !! r = Some (example_timing_point 1000 false 500 2)
    /\ (Slider.duration s' == 1250)%Q
    /\ (Slider.end_time s' == 2250)%Q.
Proof.
  destruct (slider_bound_to_second_timing_point
    (example_beatmap
       [example_timing_point 0 true 500 1; example_timing_point 1000 false 0 2]
       1.4 [Slider (example_base 1000) (example_slider 2 350)])
    (example_timing_point 0 true 500 1) (example_timing_point 1000 false 0 2)
    (example_base 1000) (example_slider 2 350))
    as (beatmap' & s' & r & H1 & H2 & H3 & H4 & _ & H5 & _ & H6);
    [reflexivity..|].
  by exists beatmap', s', r.
Defined.

(** The example, from the text of a file to the resolved slider. *)
Lemma load_example_file :
  exists beatmap b s tp,
    load example_file = Ok beatmap
    /\ Beatmap.hit_objects beatmap = [Slider b s]
    /\ (tp ← Slider.timing_point s; Beatmap.timing_points beatmap !! tp) = Some tp
    /\ (TimingPoint.time tp == 1000)%Q /\ (TimingPoint.beat_duration tp == 500)%Q
    /\ (Slider.duration s == 1250)%Q /\ (Slider.end_time s == 2250)%Q.
Proof.
  let v := eval vm_compute in (load example_file) in
  match v with
  | Ok ?bm =>
      match eval vm_compute in (Beatmap.hit_objects bm, Beatmap.timing_points bm !! 1%nat) with
      | ([Slider ?b ?s], Some ?tp) => exists bm, b, s, tp
      end
  end.
  split; [by vm_compute|]. by repeat split.
Qed.

(** C10: when the lines are read to the end and give fewer than two timing
    points, the load fails with IndexError, whatever the hit objects are. *)
Theorem load_fewer_than_two_timing_points (lines : list string)
    (section : option Section.t) (beatmap : Beatmap.t) :
  read_lines lines = Ok (section, beatmap) ->
  (length (Beatmap.timing_points beatmap) < 2)%nat ->
  load lines = Raise IndexError.
Proof.
  intros Hread Hlen. unfold load. rewrite Hread. simpl.
  apply populate_slider_properties_short.
  by rewrite populate_timing_point_properties_length.
Qed.

Lemma load_fewer_than_two_timing_points_witness :
  (exists section beatmap,
     read_lines one_timing_point_file = Ok (section, beatmap)
     /\ length (Beatmap.timing_points beatmap) = 1%nat
     /\ exists o, Beatmap.hit_objects beatmap = [HitCircle o])
  /\ load one_timing_point_file = Raise IndexError
  /\ load [] = Raise IndexError.
Proof.
  assert (exists section beatmap,
     read_lines one_timing_point_file = Ok (section, beatmap)
     /\ length (Beatmap.timing_points beatmap) = 1%nat
     /\ exists o, Beatmap.hit_objects beatmap = [HitCircle o]) as H.
  { let v := eval vm_compute in (read_lines one_timing_point_file) in
    match v with Ok (?sec, ?bm) => exists sec, bm end.
    split; [by vm_compute|]. split; [done|]. by eexists. }
  split; [exact H|]. destruct H as (section & beatmap & Hread & Hlen & _). split.
  - apply (load_fewer_than_two_timing_points _ section beatmap Hread). lia.
  - apply (load_fewer_than_two_timing_points [] None Beatmap.default); [done|].
    simpl. lia.
Defined.

(** C4 as stated fails in both cases: on the empty timing-point list the
    resolver raises IndexError, and the file whose first timing point is
    inherited loads without any error, its slider resolved from the beat
    duration 0 to the duration 0. *)
Lemma resolver_no_missing_context :
  populate_slider_properties (populate_timing_point_properties Beatmap.default) =
    Raise IndexError
  /\ exists beatmap b s tp,
       load inherited_first_file = Ok beatmap
       /\ Beatmap.hit_objects beatmap = [Slider b s]
       /\ (tp ← Slider.timing_point s; Beatmap.timing_points beatmap !! tp) = Some tp
       /\ TimingPoint.uninherited tp = false
       /\ (TimingPoint.beat_duration tp == 0)%Q
       /\ (Slider.duration s == 0)%Q.
Proof.
  split; [reflexivity|].
  let v := eval vm_compute in (load inherited_first_file) in
  match v with
  | Ok ?bm =>
      match eval vm_compute in (Beatmap.hit_objects bm, Beatmap.timing_points bm !! 0%nat) with
      | ([Slider ?b ?s], Some ?tp) => exists bm, b, s, tp
      end
  end.
  split; [by vm_compute|]. by repeat split.
Qed.

Lemma resolver_degenerate_cases_witness :
  populate_slider_properties (populate_timing_point_properties Beatmap.default) =
    Raise IndexError
  /\ Beatmap.timing_points
       (populate_timing_point_properties
          (example_beatmap
             [example_timing_point 0 false 7 2; example_timing_point 1000 true 500 1]
             1.4 [])) !! 0%nat = Some (example_timing_point 0 false 0 2)
  /\ exists s',
       slider_step
         (example_beatmap [] 1.4 [])
         [(0%nat, example_timing_point 0 false 0 2);
          (1%nat, example_timing_point 1000 true 500 1)]
         ([Slider (example_base 0) (example_slider 2 350)],
          Cursor.mk 0 (0%nat, example_timing_point 0 false 0 2) (Finite 1000))
         (0%nat, Slider (example_base 0) (example_slider 2 350)) =
         Ok ([Slider (example_base 0) s'],
             Cursor.mk 0 (0%nat, example_timing_point 0 false 0 2) (Finite 1000))
       /\ (Slider.duration s' == 0)%Q /\ Slider.timing_point s' = Some 0%nat.
Proof.
  destruct resolver_degenerate_cases as (Hempty & Hfirst & Hslider).
  split; [by apply Hempty|]. split.
  - apply (Hfirst _ [] 0%nat (example_timing_point 0 false 7 2)
             [(1%nat, example_timing_point 1000 true 500 1)]); by vm_compute.
  - assert (exists st',
              slider_step
                (example_beatmap [] 1.4 [])
                [(0%nat, example_timing_point 0 false 0 2);
                 (1%nat, example_timing_point 1000 true 500 1)]
                ([Slider (example_base 0) (example_slider 2 350)],
                 Cursor.mk 0 (0%nat, example_timing_point 0 false 0 2) (Finite 1000))
                (0%nat, Slider (example_base 0) (example_slider 2 350)) = Ok st')
      as [st' Hstep] by (eexists; vm_compute; reflexivity).
    destruct (Hslider (example_beatmap [] 1.4 [])
                [(0%nat, example_timing_point 0 false 0 2);
                 (1%nat, example_timing_point 1000 true 500 1)]
                [Slider (example_base 0) (example_slider 2 350)]
                (Cursor.mk 0 (0%nat, example_timing_point 0 false 0 2) (Finite 1000))
                (Cursor.mk 0 (0%nat, example_timing_point 0 false 0 2) (Finite 1000))
                0%nat (example_base 0) (example_slider 2 350) st')
      as (s' & Hst & H2 & H3); [done..|].
    exists s'. rewrite Hstep, Hst. by repeat split.
Defined.

(** ** The section router *)

(** C7, as the code has it: a line that is neither blank nor a header, met
    while no section is active, is skipped: the section and the beatmap stay
    as they were, nothing is raised, and the load goes on as if the line
    were not there. *)
Theorem data_line_without_section (beatmap : Beatmap.t) (line : string)
    (rest : list string) :
  String.length (Py.rstrip line) <> 0%nat ->
  Py.startswith "[" (Py.rstrip line) = false ->
  process_line (None, beatmap) line = Ok (None, beatmap)
  /\ load (line :: rest) = load rest.
Proof.
  intros Hblank Hheader.
  assert (forall beatmap, process_line (None, beatmap) line = Ok (None, beatmap)) as H.
  { intros bm. unfold process_line. rewrite Hheader.
    by destruct (Nat.eqb_spec (String.length (Py.rstrip line)) 0). }
  split; [apply H|].
  unfold load, read_lines. cbn [foldR]. by rewrite H.
Qed.

Lemma data_line_without_section_witness :
  process_line (None, Beatmap.default) "osu file format v14" =
    Ok (None, Beatmap.default)
  /\ load ("osu file format v14" :: one_timing_point_file) = load one_timing_point_file.
Proof.
  by apply (data_line_without_section Beatmap.default "osu file format v14"
              one_timing_point_file).
Defined.

(** C7 as stated fails on the example file: its first line is a data line
    before any section header, and the load succeeds. *)
Lemma load_with_leading_data_line :
  head example_file = Some "osu file format v14"
  /\ exists beatmap, load example_file = Ok beatmap.
Proof.
  split; [reflexivity|].
  let v := eval vm_compute in (load example_file) in
  match v with Ok ?bm => exists bm end.
  by vm_compute.
Qed.

(** ** Hold notes *)

Lemma startswith_bracket (s : string) :
  Py.startswith "[" s = true -> exists r, s = String "[" r.
Proof.
  destruct s as [|c r]; [done|]. unfold Py.startswith.
  change (String.prefix "[" (String c r))
    with (if ascii_dec "[" c then String.prefix "" r else false).
  destruct (ascii_dec "[" c) as [<-|]; [by exists r|done].
Qed.

(** A token that opens with a bracket is not an integer. *)
Lemma int_bracket (r : string) : Py.int (String "[" r) = Raise ValueError.
Proof.
  unfold Py.int, Py.strip_of. simpl. by destruct (Py.rstrip_of Py.isspace_int r).
Qed.

Lemma split_first_bracket (r : string) :
  exists w ws, Py.split "," (String "[" r) = String "[" w :: ws.
Proof. simpl. destruct (Py.split "," r) as [|w ws]; eauto. Qed.

(** C8: a line of the HitObjects section with five leading integer fields,
    the type flag being 128, raises nothing and leaves the section and the
    whole beatmap, hit-object list included, as they were. *)
Theorem hold_note_line_skipped (beatmap : Beatmap.t) (line : string)
    (x y start_time object_type_flag hit_sound : string)
    (object_params : list string) (vx vy vt vh : Z) :
  Py.split "," (Py.rstrip line) =
    x :: y :: start_time :: object_type_flag :: hit_sound :: object_params ->
  Py.int x = Ok vx -> Py.int y = Ok vy -> Py.int start_time = Ok vt ->
  Py.int object_type_flag = Ok 128 -> Py.int hit_sound = Ok vh ->
  process_line (Some Section.HIT_OBJECTS, beatmap) line =
    Ok (Some Section.HIT_OBJECTS, beatmap).
Proof.
  intros Hsplit Hx Hy Ht Hf Hh.
  unfold process_line.
  destruct (Nat.eqb_spec (String.length (Py.rstrip line)) 0) as [Hblank|Hblank].
  { by destruct (Py.rstrip line). }
  destruct (Py.startswith "[" (Py.rstrip line)) eqn:Hheader.
  { apply startswith_bracket in Hheader as [r Hr]. rewrite Hr in Hsplit.
    destruct (split_first_bracket r) as (w & ws & Hw).
    rewrite Hw in Hsplit. injection Hsplit as <- _. by rewrite int_bracket in Hx. }
  unfold hit_objects_line. rewrite Hsplit, Hx, Hy, Ht, Hf. simpl. by rewrite Hh.
Qed.

Lemma hold_note_line_skipped_witness :
  process_line (Some Section.HIT_OBJECTS, Beatmap.default) hold_note_line =
    Ok (Some Section.HIT_OBJECTS, Beatmap.default).
Proof.
  by apply (hold_note_line_skipped Beatmap.default hold_note_line
              "64" "192" "3000" "128" "0" ["3500:0:0:0:0:"] 64 192 3000 0).
Defined.

(** ** Key and value lines *)

Lemma split_cons (sep : ascii) (s : string) : exists w ws, Py.split sep s = w :: ws.
Proof.
  destruct s as [|c r]; simpl; [by eauto|].
  destruct (Ascii.eqb c sep); [by eauto|]. destruct (Py.split sep r); eauto.
Qed.

(** Splitting on every separator: the pieces before a separator, then the
    pieces after it. *)
Lemma split_app (sep : ascii) (k v : string) :
  Py.split sep (k ++ String sep v)%string = Py.split sep k ++ Py.split sep v.
Proof.
  induction k as [|c r IH]; simpl.
  - by rewrite Ascii.eqb_refl.
  - destruct (Ascii.eqb c sep); [by rewrite IH|].
    rewrite IH. by destruct (split_cons sep r) as (w & ws & ->).
Qed.

Lemma split_no_colon (k : string) : no_colon k = true -> Py.split ":" k = [k].
Proof.
  induction k as [|c r IH]; simpl; [done|].
  intros [Hc Hr]%andb_true_iff. apply negb_true_iff in Hc. by rewrite Hc, (IH Hr).
Qed.

(** Splitting once: the text before the first separator, and all the rest. *)
Lemma split1_first_colon (k v : string) :
  no_colon k = true -> Py.split1 ":" (k ++ String ":" v)%string = [k; v].
Proof.
  induction k as [|c r IH]; simpl; [done|].
  intros [Hc Hr]%andb_true_iff. apply negb_true_iff in Hc. by rewrite Hc, (IH Hr).
Qed.

Lemma unpack2_one_colon (k v : string) :
  no_colon k = true -> no_colon v = true ->
  unpack2 (Py.split ":" (k ++ String ":" v)%string) = Ok (k, v).
Proof. intros Hk Hv. by rewrite split_app, !split_no_colon. Qed.

Lemma unpack2_more_colons (k v w : string) :
  unpack2 (Py.split ":" (k ++ String ":" (v ++ String ":" w))%string) = Raise ValueError.
Proof.
  rewrite !split_app.
  destruct (split_cons ":" k) as (a & l1 & ->), (split_cons ":" v) as (b & l2 & ->),
    (split_cons ":" w) as (c & l3 & ->).
  destruct l1 as [|? [|? ?]]; simpl; try done. by destruct l2.
Qed.

(** Stripping, and the conversions that strip their argument. *)
Section strip.
Context (space : ascii -> bool).

Lemma rstrip_of_cons (c : ascii) (r : string) :
  Py.rstrip_of space (String c r) =
  match Py.rstrip_of space r with
  | EmptyString => if space c then EmptyString else String c EmptyString
  | r' => String c r'
  end.
Proof. done. Qed.

Lemma rstrip_of_idem (s : string) :
  Py.rstrip_of space (Py.rstrip_of space s) = Py.rstrip_of space s.
Proof.
  induction s as [|c r IH]; [done|]. rewrite rstrip_of_cons.
  destruct (Py.rstrip_of space r) as [|d r'] eqn:E.
  - destruct (space c) eqn:Ec; [done|]. by rewrite rstrip_of_cons, Ec.
  - by rewrite rstrip_of_cons, IH.
Qed.

Lemma lstrip_rstrip_of (s : string) :
  Py.rstrip_of space (Py.lstrip_of space s) = Py.lstrip_of space (Py.rstrip_of space s).
Proof.
  induction s as [|c r IH]; [done|].
  rewrite rstrip_of_cons. simpl Py.lstrip_of at 1. destruct (space c) eqn:Ec.
  - rewrite IH. destruct (Py.rstrip_of space r); [done|]. simpl. by rewrite Ec.
  - rewrite rstrip_of_cons. destruct (Py.rstrip_of space r); simpl; by rewrite Ec.
Qed.

Lemma lstrip_of_idem (s : string) :
  Py.lstrip_of space (Py.lstrip_of space s) = Py.lstrip_of space s.
Proof.
  induction s as [|c r IH]; [done|]. simpl.
  destruct (space c) eqn:Ec; [done|]. simpl. by rewrite Ec.
Qed.

Lemma strip_of_idem (s : string) :
  Py.strip_of space (Py.strip_of space s) = Py.strip_of space s.
Proof.
  unfold Py.strip_of. by rewrite lstrip_rstrip_of, lstrip_of_idem, rstrip_of_idem.
Qed.

(** Stripping a text changes its pieces by stripping only. *)
Lemma split_lstrip (sep : ascii) (s : string) :
  space sep = false ->
  Forall2 (fun a b => Py.lstrip_of space a = Py.lstrip_of space b)
    (Py.split sep (Py.lstrip_of space s)) (Py.split sep s).
Proof.
  intros Hsep. induction s as [|c r IH]; simpl.
  { by repeat constructor. }
  destruct (space c) eqn:Ec.
  - destruct (Ascii.eqb_spec c sep) as [->|_]; [congruence|].
    destruct (split_cons sep r) as (w & ws & E). rewrite E in *.
    inversion_clear IH as [|w' ? ws' ? Hw Hws]. constructor; [|done].
    simpl. by rewrite Ec.
  - simpl. apply Forall_Forall2_diag, Forall_true. done.
Qed.

Lemma split_rstrip (sep : ascii) (s : string) :
  space sep = false ->
  Forall2 (fun a b => Py.rstrip_of space a = Py.rstrip_of space b)
    (Py.split sep (Py.rstrip_of space s)) (Py.split sep s).
Proof.
  intros Hsep. induction s as [|c r IH].
  { by repeat constructor. }
  rewrite rstrip_of_cons. destruct (Py.rstrip_of space r) as [|d r'] eqn:E.
  - simpl in IH. inversion IH as [|? w ? ? Hw Hws Hl Hr]. inversion Hws; subst.
    simpl in Hw. symmetry in Hr. simpl. rewrite Hr.
    destruct (space c) eqn:Ec.
    + destruct (Ascii.eqb_spec c sep) as [->|_]; [congruence|].
      repeat constructor. by rewrite rstrip_of_cons, <- Hw, Ec.
    + simpl. destruct (Ascii.eqb c sep).
      * by repeat constructor.
      * repeat constructor. by rewrite !rstrip_of_cons, <- Hw.
  - simpl Py.split at 2. change (Py.split sep (String c (String d r')))
      with (if Ascii.eqb c sep then EmptyString :: Py.split sep (String d r')
            else match Py.split sep (String d r') with
                 | w :: ws => String c w :: ws
                 | [] => [String c EmptyString]
                 end).
    destruct (Ascii.eqb c sep); [by constructor|].
    destruct (split_cons sep (String d r')) as (w' & ws' & E').
    destruct (split_cons sep r) as (w & ws & E''). rewrite E', E'' in *.
    inversion_clear IH as [|? ? ? ? Hw Hws]. constructor; [|done].
    by rewrite !rstrip_of_cons, Hw.
Qed.
End strip.

Lemma Decimal_strip (s : string) : Py.Decimal (Py.strip s) = Py.Decimal s.
Proof. unfold Py.Decimal, Py.strip. by rewrite strip_of_idem. Qed.

Lemma int_strip (s : string) : Py.int (Py.strip_of Py.isspace_int s) = Py.int s.
Proof. unfold Py.int. by rewrite strip_of_idem. Qed.

Lemma int_lstrip (s : string) : Py.int (Py.lstrip_of Py.isspace_int s) = Py.int s.
Proof.
  unfold Py.int, Py.strip_of. by rewrite lstrip_rstrip_of, lstrip_of_idem.
Qed.

Lemma int_rstrip (s : string) : Py.int (Py.rstrip_of Py.isspace_int s) = Py.int s.
Proof. unfold Py.int, Py.strip_of. by rewrite rstrip_of_idem. Qed.

Lemma mapR_ext {A B} (f : A -> Result B) (l1 l2 : list A) :
  Forall2 (fun a b => f a = f b) l1 l2 -> mapR f l1 = mapR f l2.
Proof. induction 1 as [|a b l1 l2 Hab _ IH]; simpl; [done|]. by rewrite Hab, IH. Qed.

(** A list of integers reads the same from the value and from the value
    without the whitespace [int()] skips. *)
Lemma mapR_int_split_strip (s : string) :
  mapR Py.int (Py.split "," (Py.strip_of Py.isspace_int s)) =
  mapR Py.int (Py.split "," s).
Proof.
  unfold Py.strip_of. etrans.
  - apply mapR_ext. eapply Forall2_impl; [by apply split_lstrip|].
    intros a b H. simpl in H. by rewrite <- (int_lstrip a), H, int_lstrip.
  - apply mapR_ext. eapply Forall2_impl; [by apply split_rstrip|].
    intros a b H. simpl in H. by rewrite <- (int_rstrip a), H, int_rstrip.
Qed.

(** On a text whose whitespace is plain, [strip] strips what [int()] skips. *)
Lemma plain_whitespace_cons (c : ascii) (r : string) :
  plain_whitespace (String c r) = true ->
  Py.isspace c = Py.isspace_int c /\ plain_whitespace r = true.
Proof.
  simpl. intros [Hc Hr]%andb_true_iff. split; [|done].
  destruct c as [[] [] [] [] [] [] [] []]; by vm_compute in Hc |- *.
Qed.

Lemma lstrip_plain (s : string) :
  plain_whitespace s = true -> Py.lstrip s = Py.lstrip_of Py.isspace_int s.
Proof.
  unfold Py.lstrip. induction s as [|c r IH]; [done|].
  intros [Hc Hr]%plain_whitespace_cons. simpl. by rewrite Hc, (IH Hr).
Qed.

Lemma rstrip_plain (s : string) :
  plain_whitespace s = true ->
  Py.rstrip s = Py.rstrip_of Py.isspace_int s /\ plain_whitespace (Py.rstrip s) = true.
Proof.
  unfold Py.rstrip. induction s as [|c r IH]; [done|].
  intros [Hc Hr]%plain_whitespace_cons. destruct (IH Hr) as [E Hp].
  rewrite !rstrip_of_cons, <- E, Hc. split; [done|].
  destruct (Py.rstrip_of Py.isspace r) as [|d r'].
  - destruct (Py.isspace_int c) eqn:Ec; [done|]. simpl. by rewrite Hc, Ec.
  - change (implb (Py.isspace c) (Py.isspace_int c)
            && plain_whitespace (String d r') = true).
    rewrite Hp, Hc. by destruct (Py.isspace_int c).
Qed.

Lemma strip_plain (s : string) :
  plain_whitespace s = true -> Py.strip s = Py.strip_of Py.isspace_int s.
Proof.
  intros H. destruct (rstrip_plain s H) as [E Hp].
  change (Py.strip s) with (Py.lstrip (Py.rstrip s)).
  rewrite (lstrip_plain _ Hp). unfold Py.strip_of. by rewrite E.
Qed.

(** The values of the Editor section are numbers: stripped or not, they
    convert alike. *)
Lemma editor_assign_strip (key value : string) (e : Editor.t) :
  plain_whitespace value = true ->
  editor_assign key (Py.strip value) e = editor_assign key value e.
Proof.
  intros H. unfold editor_assign. rewrite !Decimal_strip, (strip_plain value H).
  by rewrite !int_strip, mapR_int_split_strip.
Qed.

Lemma difficulty_assign_strip (key value : string) (d : Difficulty.t) :
  difficulty_assign key (Py.strip value) d = difficulty_assign key value d.
Proof. unfold difficulty_assign. by rewrite !Decimal_strip. Qed.

(** A leading character that [strip] removes and [int()] does not skip. *)
Lemma int_unit_separator :
  Py.int (Py.strip (String (ascii_of_nat 31) "4")) = Ok 4
  /\ Py.int (String (ascii_of_nat 31) "4") = Raise ValueError.
Proof. split; reflexivity. Qed.

(** C6, as the code has it.  A Metadata line is split on its first colon
    only, both sides stripped, whatever colons the value holds, so the line
    "Title: Song: Subtitle" gives the title "Song: Subtitle".  A General,
    Editor or Difficulty line is split on every colon: with one colon it is
    cut there and handled with both sides stripped (for Editor and
    Difficulty: when the key is written without surrounding whitespace, and
    for Editor when the whitespace of the value is plain), and with two
    colons or more it raises ValueError. *)
Theorem key_value_lines :
  (forall key value beatmap,
     no_colon key = true ->
     metadata_line (key ++ ":" ++ value)%string beatmap =
       (m ← metadata_assign (Py.strip key) (Py.strip value) (Beatmap.metadata beatmap);
        Ok (Beatmap.set_metadata m beatmap)))
  /\ (forall key value beatmap,
        no_colon key = true -> no_colon value = true ->
        general_line (key ++ ":" ++ value)%string beatmap =
          (g ← general_assign (Py.strip key) (Py.strip value) (Beatmap.general beatmap);
           Ok (Beatmap.set_general g beatmap))
        /\ (Py.strip key = key ->
            difficulty_line (key ++ ":" ++ value)%string beatmap =
              (d ← difficulty_assign (Py.strip key) (Py.strip value)
                     (Beatmap.difficulty beatmap);
               Ok (Beatmap.set_difficulty d beatmap))
            /\ (plain_whitespace value = true ->
                editor_line (key ++ ":" ++ value)%string beatmap =
                  (e ← editor_assign (Py.strip key) (Py.strip value)
                         (Beatmap.editor beatmap);
                   Ok (Beatmap.set_editor e beatmap)))))
  /\ (forall key value more beatmap,
        general_line (key ++ ":" ++ value ++ ":" ++ more)%string beatmap =
          Raise ValueError
        /\ editor_line (key ++ ":" ++ value ++ ":" ++ more)%string beatmap =
             Raise ValueError
        /\ difficulty_line (key ++ ":" ++ value ++ ":" ++ more)%string beatmap =
             Raise ValueError)
  /\ process_line (Some Section.METADATA, Beatmap.default) "Title: Song: Subtitle" =
       Ok (Some Section.METADATA,
           Beatmap.set_metadata (Metadata.set_title "Song: Subtitle" Metadata.default)
             Beatmap.default).
Proof.
  split; [|split; [|split]].
  - intros key value beatmap Hk. unfold metadata_line.
    change (":" ++ value)%string with (String ":" value).
    by rewrite (split1_first_colon key value Hk).
  - intros key value beatmap Hk Hv.
    change (":" ++ value)%string with (String ":" value).
    unfold general_line, editor_line, difficulty_line.
    rewrite (unpack2_one_colon key value Hk Hv). cbn [mbind Result_bind].
    split; [done|]. intros Hkey. rewrite difficulty_assign_strip, Hkey.
    split; [done|]. intros Hplain. by rewrite (editor_assign_strip _ _ _ Hplain).
  - intros key value more beatmap.
    change (":" ++ value ++ ":" ++ more)%string
      with (String ":" (value ++ String ":" more)).
    unfold general_line, editor_line, difficulty_line.
    by rewrite unpack2_more_colons.
  - reflexivity.
Qed.

Lemma key_value_lines_witness :
  metadata_line "Source: Game: The Movie" Beatmap.default =
    Ok (Beatmap.set_metadata (Metadata.set_source "Game: The Movie" Metadata.default)
          Beatmap.default)
  /\ general_line " AudioLeadIn : 500 " Beatmap.default =
       Ok (Beatmap.set_general (General.set_audio_lead_in 500 General.default)
             Beatmap.default)
  /\ editor_line "BeatDivisor: 8" Beatmap.default =
       Ok (Beatmap.set_editor (Editor.set_beat_divisor 8 Editor.default) Beatmap.default)
  /\ difficulty_line "SliderMultiplier: 1.4" Beatmap.default =
       Ok (Beatmap.set_difficulty
             (Difficulty.set_slider_multiplier 1.4 Difficulty.default) Beatmap.default)
  /\ general_line "AudioFilename: a:b.mp3" Beatmap.default = Raise ValueError.
Proof.
  destruct key_value_lines as (Hm & Hone & Hmore & _).
  split; [exact (Hm "Source" " Game: The Movie" Beatmap.default eq_refl)|].
  split; [exact (proj1 (Hone " AudioLeadIn " " 500 " Beatmap.default eq_refl eq_refl))|].
  destruct (proj2 (Hone "BeatDivisor" " 8" Beatmap.default eq_refl eq_refl) eq_refl)
    as [_ He].
  destruct (proj2 (Hone "SliderMultiplier" " 1.4" Beatmap.default eq_refl eq_refl)
              eq_refl) as [Hd _].
  split; [exact (He eq_refl)|]. split; [exact Hd|].
  exact (proj1 (Hmore "AudioFilename" " a" "b.mp3" Beatmap.default)).
Defined.

(** C6 as stated fails in the General section: the split on the first colon
    would give the value " a:b.mp3", and the line raises ValueError. *)
Lemma general_line_with_two_colons :
  Py.split1 ":" "AudioFilename: a:b.mp3" = ["AudioFilename"; " a:b.mp3"]
  /\ process_line (Some Section.GENERAL, Beatmap.default) "AudioFilename: a:b.mp3" =
       Raise ValueError.
Proof. split; reflexivity. Qed.

(** ** The two loaders *)

(** The first computation of a chain of binds that succeeded, succeeded. *)
Ltac bind_head m k :=
  lazymatch m with
  | (?m' ≫= _) => bind_head m' k
  | _ => k m
  end.

Ltac bind_inv H :=
  match type of H with
  | (?m ≫= _) = Ok _ =>
      bind_head m ltac:(fun h =>
        let E := fresh "E" in
        destruct h eqn:E; simpl in H; [|discriminate H];
        cbn [mbind Result_bind fmap Result_fmap])
  end.

Lemma assign_if_sim {R R' V : Type} (f : R -> R') (key k : string) (conv : Result V)
    (set : V -> R -> R) (set' : V -> R' -> R') (r r' : R) :
  (forall v r, f (set v r) = set' v (f r)) ->
  assign_if key k conv set r = Ok r' ->
  assign_if key k conv set' (f r) = Ok (f r').
Proof.
  intros Hf. unfold assign_if. destruct (String.eqb key k).
  - destruct conv; simpl; [|done]. intros [= <-]. by rewrite Hf.
  - by intros [= <-].
Qed.

Lemma general_assign_sim (key value : string) (g g' : General.t) :
  general_assign key value g = Ok g' ->
  Main.general_assign key value (rename_General g) = Ok (rename_General g').
Proof.
  unfold general_assign, Main.general_assign.
  repeat (destruct (String.eqb key _);
          [try destruct (Py.int value); try destruct (Py.Decimal value); simpl;
           (discriminate || (intros [= <-]; reflexivity))|]).
  by intros [= <-].
Qed.

(** A chain of [assign_if] statements, followed in both loaders. *)
Ltac assign_chain f H :=
  repeat (bind_inv H;
          match goal with
          | E : assign_if _ _ _ _ _ = Ok _ |- _ =>
              eapply (assign_if_sim f) in E;
              [rewrite E; clear E; simpl|intros; reflexivity]
          end);
  eapply (assign_if_sim f) in H; [exact H|intros; reflexivity].

Lemma editor_assign_sim (key value : string) (e e' : Editor.t) :
  editor_assign key value e = Ok e' ->
  Main.editor_assign key value (rename_Editor e) = Ok (rename_Editor e').
Proof.
  unfold editor_assign, Main.editor_assign. intros H. assign_chain rename_Editor H.
Qed.

Lemma metadata_assign_sim (key value : string) (m m' : Metadata.t) :
  metadata_assign key value m = Ok m' ->
  Main.metadata_assign key value (rename_Metadata m) = Ok (rename_Metadata m').
Proof.
  unfold metadata_assign, Main.metadata_assign. intros H.
  assign_chain rename_Metadata H.
Qed.

Lemma difficulty_assign_sim (key value : string) (d d' : Difficulty.t) :
  difficulty_assign key value d = Ok d' ->
  Main.difficulty_assign key value (rename_Difficulty d) = Ok (rename_Difficulty d').
Proof.
  unfold difficulty_assign, Main.difficulty_assign. intros H.
  assign_chain rename_Difficulty H.
Qed.

Lemma general_line_sim (line : string) (b b' : Beatmap.t) :
  general_line line b = Ok b' -> Main.general_line line (to_main b) = Ok (to_main b').
Proof.
  unfold general_line, Main.general_line. intros H.
  bind_inv H. destruct a as [key value]. simpl in *. bind_inv H.
  apply general_assign_sim in E0. injection H as <-.
  change (Main.Beatmap.general (to_main b)) with (rename_General (Beatmap.general b)).
  by rewrite E0.
Qed.

Lemma editor_line_sim (line : string) (b b' : Beatmap.t) :
  editor_line line b = Ok b' -> Main.editor_line line (to_main b) = Ok (to_main b').
Proof.
  unfold editor_line, Main.editor_line. intros H.
  bind_inv H. destruct a as [key value]. simpl in *. bind_inv H.
  apply editor_assign_sim in E0. injection H as <-.
  change (Main.Beatmap.editor (to_main b)) with (rename_Editor (Beatmap.editor b)).
  by rewrite E0.
Qed.

Lemma metadata_line_sim (line : string) (b b' : Beatmap.t) :
  metadata_line line b = Ok b' -> Main.metadata_line line (to_main b) = Ok (to_main b').
Proof.
  unfold metadata_line, Main.metadata_line. intros H.
  bind_inv H. destruct a as [key value]. simpl in *. bind_inv H.
  apply metadata_assign_sim in E0. injection H as <-.
  change (Main.Beatmap.metadata (to_main b)) with (rename_Metadata (Beatmap.metadata b)).
  by rewrite E0.
Qed.

Lemma difficulty_line_sim (line : string) (b b' : Beatmap.t) :
  difficulty_line line b = Ok b' ->
  Main.difficulty_line line (to_main b) = Ok (to_main b').
Proof.
  unfold difficulty_line, Main.difficulty_line. intros H.
  bind_inv H. destruct a as [key value]. simpl in *. bind_inv H.
  apply difficulty_assign_sim in E0. injection H as <-.
  change (Main.Beatmap.difficulty (to_main b))
    with (rename_Difficulty (Beatmap.difficulty b)).
  by rewrite E0.
Qed.

Lemma to_main_append_timing_point (b : Beatmap.t) (tp : TimingPoint.t) :
  to_main (Beatmap.set_timing_points (Beatmap.timing_points b ++ [tp]) b) =
  Main.Beatmap.set_timingPoints
    (Main.Beatmap.timingPoints (to_main b) ++ [to_main_timing_point tp]) (to_main b).
Proof. unfold to_main, Main.Beatmap.set_timingPoints. simpl. by rewrite map_app. Qed.

Lemma to_main_append_hit_object (b : Beatmap.t) (o : hit_object) :
  to_main (Beatmap.set_hit_objects (Beatmap.hit_objects b ++ [o]) b) =
  Main.Beatmap.set_hit_objects
    (Main.Beatmap.hit_objects (to_main b) ++ [to_main_hit_object o]) (to_main b).
Proof. unfold to_main, Main.Beatmap.set_hit_objects. simpl. by rewrite map_app. Qed.

Lemma timing_points_line_sim (line : string) (b b' : Beatmap.t) :
  timing_points_line line b = Ok b' ->
  Main.timing_points_line line (to_main b) = Ok (to_main b').
Proof.
  unfold timing_points_line, Main.timing_points_line. intros H.
  destruct (Py.split "," line) as [|? [|? [|? [|? [|? [|? [|? [|? [|? ?]]]]]]]]];
    try discriminate H.
  do 6 bind_inv H.
  destruct (Py.int s5) as [u|]; simpl in H |- *; [|discriminate H].
  destruct (Py.int s6) as [fx|]; simpl in H |- *; [|discriminate H].
  destruct (Py.bool_of_int u) eqn:Eu; simpl in H |- *.
  - injection H as <-. by rewrite to_main_append_timing_point.
  - destruct (Py.div (-100) a0) as [sv|]; simpl in H |- *; [|discriminate H].
    injection H as <-. by rewrite to_main_append_timing_point.
Qed.

Lemma colors_line_sim (line : string) (b b' : Beatmap.t) :
  colors_line line b = Ok b' -> Main.colors_line line (to_main b) = Ok (to_main b').
Proof.
  unfold colors_line, Main.colors_line. intros H.
  bind_inv H. destruct a as [key value]. simpl in *. bind_inv H.
  destruct (Py.startswith "Combo" (Py.strip key)).
  - bind_inv H. by injection H as <-.
  - destruct (String.eqb (Py.strip key) "SliderTrackOverride").
    { simpl in H. by injection H as <-. }
    destruct (String.eqb (Py.strip key) "SliderBorder"); simpl in H; by injection H as <-.
Qed.

Lemma of_value_value (s : string) (c : CurveType.t) :
  CurveType.of_value s = Ok c -> CurveType.value c = s.
Proof.
  unfold CurveType.of_value.
  destruct (String.eqb_spec s "B") as [->|_]; [by intros [= <-]|].
  destruct (String.eqb_spec s "C") as [->|_]; [by intros [= <-]|].
  destruct (String.eqb_spec s "L") as [->|_]; [by intros [= <-]|].
  destruct (String.eqb_spec s "P") as [->|_]; [by intros [= <-]|]. done.
Qed.

(** The loop over the points of a bezier slider loses no point and makes
    bezier curves only. *)
Lemma bezier_loop_concat (rest : list (Z * Z)) (curves : list Curve.t)
    (curr : list (Z * Z)) (prev : Z * Z) :
  Forall (fun c => Curve.curve_type c = CurveType.BEZIER) curves ->
  let '(curves', curr', _) := foldl bezier_step (curves, curr, prev) rest in
  concat (map Curve.curve_points curves') ++ curr' =
    concat (map Curve.curve_points curves) ++ curr ++ rest
  /\ Forall (fun c => Curve.curve_type c = CurveType.BEZIER) curves'.
Proof.
  revert curves curr prev. induction rest as [|q rest IH]; intros curves curr prev Hb.
  { simpl. by rewrite app_nil_r. }
  simpl foldl. destruct ((q.1 =? prev.1) && (q.2 =? prev.2)).
  - specialize (IH (curves ++ [Curve.mk CurveType.BEZIER curr]) [q] q).
    destruct (foldl _ _ _) as [[curves' curr'] prev'].
    destruct IH as [-> IH].
    { apply Forall_app. split; [done|]. by repeat constructor. }
    split; [|done]. rewrite map_app, concat_app. simpl. by rewrite <- !app_assoc.
  - specialize (IH curves (curr ++ [q]) q Hb).
    destruct (foldl _ _ _) as [[curves' curr'] prev'].
    destruct IH as [-> IH]. split; [|done]. by rewrite <- !app_assoc.
Qed.

(** The segments of a slider, joined, are the curve that was read. *)
Lemma make_curves_unsegment (curve_type : CurveType.t) (x y : Z)
    (curve_points : list (Z * Z)) :
  unsegment (make_curves curve_type x y curve_points) =
  [Main.Curve.mk (CurveType.value curve_type) curve_points].
Proof.
  unfold make_curves. destruct (CurveType.eqb curve_type CurveType.BEZIER) eqn:Et.
  - assert (curve_type = CurveType.BEZIER) as -> by by destruct curve_type.
    pose proof (bezier_loop_concat curve_points [] [(x, y)] (-1, -1) (Forall_nil_2 _))
      as H.
    destruct (foldl _ _ _) as [[curves' curr'] prev']. destruct H as [Hc Hb].
    unfold unsegment. f_equal. f_equal.
    + destruct curves' as [|c curves']; [done|]. simpl.
      inversion_clear Hb as [|? ? Hc' _]. by rewrite Hc'.
    + rewrite map_app, concat_app. simpl. rewrite app_nil_r, Hc. done.
  - unfold unsegment. simpl. by rewrite app_nil_r.
Qed.

Lemma create_hit_sample_sim (x : string) (h : HitSample.t) :
  create_hit_sample x = Ok h -> Main.create_hit_sample x = Ok (rename_HitSample h).
Proof.
  unfold create_hit_sample, Main.create_hit_sample. intros H.
  destruct (Py.split ":" x) as [|? [|? [|? [|? [|? [|? ?]]]]]]; try discriminate H.
  do 6 bind_inv H. by injection H as <-.
Qed.

Lemma optional_hit_sample_sim (params : list string) (h : HitSample.t) :
  optional_hit_sample params = Ok h ->
  Main.optional_hit_sample params = Ok (rename_HitSample h).
Proof.
  unfold optional_hit_sample, Main.optional_hit_sample. intros H.
  destruct (0 <? length params)%nat; [|by injection H as <-].
  bind_inv H. by apply create_hit_sample_sim.
Qed.

Lemma slider_params_sim (x y start_time : Z) (object_type : HitObjectType.t)
    (new_combo : bool) (combo_to_skip hit_sound : Z) (object_params : list string)
    (o : hit_object) :
  slider_params x y start_time object_type new_combo combo_to_skip hit_sound
    object_params = Ok o ->
  Main.slider_params x y start_time object_type new_combo combo_to_skip hit_sound
    object_params = Ok (to_main_hit_object o).
Proof.
  unfold slider_params, Main.slider_params. intros H.
  destruct object_params as [|? [|? [|? [|? [|? ?]]]]]; try discriminate H.
  destruct (Py.split "|" s) as [|curve_type curve_points_str]; [discriminate H|].
  bind_inv H. apply of_value_value in E as <-.
  do 5 bind_inv H. bind_inv H. apply optional_hit_sample_sim in E4. rewrite E4.
  injection H as <-. simpl. by rewrite make_curves_unsegment.
Qed.

Lemma hit_objects_line_sim (line : string) (b b' : Beatmap.t) :
  hit_objects_line line b = Ok b' ->
  Main.hit_objects_line line (to_main b) = Ok (to_main b').
Proof.
  unfold hit_objects_line, Main.hit_objects_line. intros H.
  destruct (Py.split "," line) as [|? [|? [|? [|? [|? ?]]]]]; try discriminate H.
  do 5 bind_inv H. destruct a3 as [[object_type new_combo] combo_to_skip].
  simpl in H. bind_inv H. destruct object_type.
  - bind_inv H. apply optional_hit_sample_sim in E5. rewrite E5.
    injection H as <-. by rewrite to_main_append_hit_object.
  - bind_inv H. apply slider_params_sim in E5. rewrite E5.
    injection H as <-. by rewrite to_main_append_hit_object.
  - destruct l as [|end_time hit_sample]; [discriminate H|].
    bind_inv H. bind_inv H. apply optional_hit_sample_sim in E6. rewrite E6.
    injection H as <-. by rewrite to_main_append_hit_object.
  - simpl. match type of H with (if ?c then _ else _) = _ => destruct c end;
      by injection H as <-.
Qed.

(** One line, in both loaders. *)
Lemma process_line_sim (section section' : option Section.t) (b b' : Beatmap.t)
    (line : string) :
  process_line (section, b) line = Ok (section', b') ->
  Main.process_line (section, to_main b) line = Ok (section', to_main b').
Proof.
  unfold process_line, Main.process_line.
  destruct (String.length (Py.rstrip line) =? 0)%nat; [by intros [= <- <-]|].
  destruct (Py.startswith "[" (Py.rstrip line)); [by intros [= <- <-]|].
  intros H. bind_inv H. injection H as <- <-.
  destruct section as [[]|]; simpl in E |- *.
  - by rewrite (general_line_sim _ _ _ E).
  - by rewrite (editor_line_sim _ _ _ E).
  - by rewrite (metadata_line_sim _ _ _ E).
  - by rewrite (difficulty_line_sim _ _ _ E).
  - by injection E as <-.
  - by rewrite (timing_points_line_sim _ _ _ E).
  - by rewrite (colors_line_sim _ _ _ E).
  - by rewrite (hit_objects_line_sim _ _ _ E).
  - by injection E as <-.
Qed.

Lemma read_lines_sim (lines : list string) (section section' : option Section.t)
    (b b' : Beatmap.t) :
  foldR process_line (section, b) lines = Ok (section', b') ->
  foldR Main.process_line (section, to_main b) lines = Ok (section', to_main b').
Proof.
  revert section b. induction lines as [|line lines IH]; intros section b; cbn [foldR].
  - by intros [= <- <-].
  - intros H. destruct (process_line (section, b) line) as [[section1 b1]|] eqn:E;
      [|discriminate H].
    rewrite (process_line_sim _ _ _ _ _ E). by apply IH.
Qed.

(** The resolver writes only what [to_main] drops. *)
Lemma to_main_set_beat_duration (v : Q) (tp : TimingPoint.t) :
  TimingPoint.uninherited tp = false ->
  to_main_timing_point (TimingPoint.set_beat_duration v tp) = to_main_timing_point tp.
Proof. intros H. unfold to_main_timing_point. simpl. by rewrite H. Qed.

Lemma timing_point_loop_to_main (items : list (nat * TimingPoint.t))
    (store : list TimingPoint.t) (last : Q) (M : list Main.timing_point) :
  to_main_timing_point <$> store = M ->
  (forall r tp, (r, tp) ∈ items -> M !! r = Some (to_main_timing_point tp)) ->
  to_main_timing_point <$> (foldl timing_point_step (store, last) items).1 = M.
Proof.
  revert store last. induction items as [|[r tp] items IH]; intros store last HM Hitems.
  { done. }
  simpl. destruct (TimingPoint.uninherited tp) eqn:Eu.
  - apply IH; [done|]. intros r' tp' Hin. apply Hitems. by right.
  - apply IH; [|intros r' tp' Hin; apply Hitems; by right].
    rewrite list_fmap_insert, HM, to_main_set_beat_duration by done.
    apply list_insert_id, Hitems. by left.
Qed.

Lemma to_main_populate_timing_point_properties (b : Beatmap.t) :
  to_main (populate_timing_point_properties b) = to_main b.
Proof.
  rewrite populate_timing_point_properties_eq. unfold to_main. simpl. f_equal.
  apply (timing_point_loop_to_main _ _ _ _ eq_refl). intros r tp Hin.
  apply sorted_enumerate_lookup in Hin. by rewrite list_lookup_fmap, Hin.
Qed.

Lemma slider_loop_to_main (beatmap : Beatmap.t)
    (timing_points : list (nat * TimingPoint.t)) (items : list (nat * hit_object))
    (store store' : list hit_object) (c c' : Cursor.t) (M : list Main.hit_object) :
  foldR (slider_step beatmap timing_points) (store, c) items = Ok (store', c') ->
  to_main_hit_object <$> store = M ->
  (forall r o, (r, o) ∈ items -> M !! r = Some (to_main_hit_object o)) ->
  to_main_hit_object <$> store' = M.
Proof.
  revert store c. induction items as [|[r o] items IH]; intros store c H HM Hitems.
  { simpl in H. by injection H as <- <-. }
  cbn [foldR] in H.
  destruct (slider_step beatmap timing_points (store, c) (r, o)) as [[store1 c1]|] eqn:E;
    [|discriminate H].
  cbn [mbind Result_bind] in H. apply (IH store1 c1 H).
  - unfold slider_step in E.
    destruct (HitObjectType.eqb _ _); [|by injection E as <- <-].
    destruct (advance _ _ _ _) as [c2|]; [|discriminate E]. cbn [mbind Result_bind] in E.
    destruct o as [|base ext|]; try discriminate E.
    destruct (Py.div _ _) as [duration|]; [|discriminate E]. injection E as <- <-.
    rewrite list_fmap_insert, HM. apply list_insert_id.
    apply (Hitems r (Slider base ext)). by left.
  - intros r' o' Hin. apply Hitems. by right.
Qed.

Lemma to_main_populate_slider_properties (b b' : Beatmap.t) :
  populate_slider_properties b = Ok b' -> to_main b' = to_main b.
Proof.
  unfold populate_slider_properties. intros H.
  destruct (Py.index _ 0%nat) as [tp0|]; [|discriminate H].
  destruct (Py.index _ (0 + 1)%nat) as [tp1|]; [|discriminate H].
  cbn [mbind Result_bind] in H.
  destruct (foldR _ _ _) as [[store c]|] eqn:E; [|discriminate H].
  injection H as <-. unfold to_main. simpl. f_equal.
  apply (slider_loop_to_main _ _ _ _ _ _ _ _ E eq_refl). intros r o Hin.
  apply sorted_enumerate_lookup in Hin. by rewrite list_lookup_fmap, Hin.
Qed.

(** C9, as the code has it: whenever the loader of [src/beatmap.py]
    succeeds, the loader of [src/beatmap/main.py] succeeds on the same lines,
    and its model is the renamed model of [src/beatmap.py] without what the
    resolver and the curve segmentation added: [to_main] of it. *)
Theorem load_refines_main (lines : list string) (beatmap : Beatmap.t) :
  load lines = Ok beatmap -> Main.load lines = Ok (to_main beatmap).
Proof.
  unfold load, read_lines, Main.load. intros H.
  destruct (foldR process_line _ lines) as [[section b]|] eqn:E; [|discriminate H].
  cbn [mbind Result_bind] in H.
  change Main.Beatmap.default with (to_main Beatmap.default).
  rewrite (read_lines_sim _ _ _ _ _ E). cbn [mbind Result_bind].
  apply to_main_populate_slider_properties in H.
  by rewrite H, to_main_populate_timing_point_properties.
Qed.

Lemma load_refines_main_witness :
  exists beatmap,
    load example_file = Ok beatmap /\ Main.load example_file = Ok (to_main beatmap).
Proof.
  let v := eval vm_compute in (load example_file) in
  match v with Ok ?bm => exists bm end.
  assert (load example_file = Ok _) as H by (vm_compute; reflexivity).
  split; [exact H|]. exact (load_refines_main _ _ H).
Defined.

(** C9 as stated fails on the empty file, and on every file with fewer than
    two timing points: the loader of [src/beatmap/main.py] succeeds and the
    loader of [src/beatmap.py] raises IndexError. *)
Lemma load_and_main_load_differ :
  Main.load [] = Ok Main.Beatmap.default /\ load [] = Raise IndexError.
Proof. split; reflexivity. Qed.

(** A curve letter that is no curve type is kept by [src/beatmap/main.py] and
    refused by [src/beatmap.py]. *)
Lemma curve_letter_unchecked_in_main :
  slider_params 0 0 0 HitObjectType.SLIDER false 0 0
    ["X|1:1"; "1"; "100"; "0|0"; "0:0|0:0"] = Raise ValueError
  /\ exists o,
       Main.slider_params 0 0 0 HitObjectType.SLIDER false 0 0
         ["X|1:1"; "1"; "100"; "0|0"; "0:0|0:0"] = Ok o.
Proof. split; [reflexivity|]. by eexists. Qed.

(** * Further properties *)

(** ** Curves *)

Lemma bezier_loop_nonempty (rest : list (Z * Z)) (curves : list Curve.t)
    (curr : list (Z * Z)) (prev : Z * Z) :
  Forall (fun c => Curve.curve_points c <> []) curves -> curr <> [] ->
  let '(curves', curr', _) := foldl bezier_step (curves, curr, prev) rest in
  Forall (fun c => Curve.curve_points c <> []) curves' /\ curr' <> [].
Proof.
  revert curves curr prev. induction rest as [|q rest IH]; intros curves curr prev Hc Hn.
  { done. }
  simpl foldl. destruct ((q.1 =? prev.1) && (q.2 =? prev.2)).
  - apply IH; [|done]. apply Forall_app. split; [done|]. by repeat constructor.
  - apply IH; [done|]. by destruct curr.
Qed.

Lemma bezier_loop_length (rest : list (Z * Z)) (curves : list Curve.t)
    (curr : list (Z * Z)) (prev : Z * Z) :
  let '(curves', _, _) := foldl bezier_step (curves, curr, prev) rest in
  length curves' = (length curves + repeats prev rest)%nat.
Proof.
  revert curves curr prev. induction rest as [|q rest IH]; intros curves curr prev.
  { simpl. lia. }
  simpl foldl. simpl repeats. fold (point_eqb q prev). destruct (point_eqb q prev).
  - specialize (IH (curves ++ [Curve.mk CurveType.BEZIER curr]) [q] q).
    destruct (foldl _ _ _) as [[curves' curr'] prev']. rewrite IH, length_app. simpl. lia.
  - specialize (IH curves (curr ++ [q]) q).
    destruct (foldl _ _ _) as [[curves' curr'] prev']. rewrite IH. lia.
Qed.

(** X1: whatever the curve type and the anchors, the curves of a slider
    hold, end to end, the position followed by the anchors, each point once
    and in order; every curve has the type of the slider and at least one
    point. *)
Theorem make_curves_keeps_points (curve_type : CurveType.t) (x y : Z)
    (curve_points : list (Z * Z)) :
  concat (map Curve.curve_points (make_curves curve_type x y curve_points)) =
    (x, y) :: curve_points
  /\ Forall (fun c => Curve.curve_type c = curve_type /\ Curve.curve_points c <> [])
       (make_curves curve_type x y curve_points).
Proof.
  unfold make_curves. destruct (CurveType.eqb curve_type CurveType.BEZIER) eqn:Et.
  - assert (curve_type = CurveType.BEZIER) as -> by by destruct curve_type.
    pose proof (bezier_loop_concat curve_points [] [(x, y)] (-1, -1) (Forall_nil_2 _))
      as H.
    pose proof (bezier_loop_nonempty curve_points [] [(x, y)] (-1, -1)
                  (Forall_nil_2 _) ltac:(done)) as H'.
    destruct (foldl _ _ _) as [[curves' curr'] prev'].
    destruct H as [Hc Hb], H' as [Hn Hn']. split.
    + rewrite map_app, concat_app. simpl. by rewrite app_nil_r, Hc.
    + apply Forall_app. split; [|by repeat constructor].
      apply Forall_and. split; done.
  - split; [simpl; by rewrite app_nil_r|]. by repeat constructor.
Qed.

(** X2: a slider of a type other than bezier has one curve; a bezier slider
    has one curve more than it has anchors equal to the anchor before them,
    the first anchor being compared with (-1, -1). *)
Theorem make_curves_length (curve_type : CurveType.t) (x y : Z)
    (curve_points : list (Z * Z)) :
  length (make_curves curve_type x y curve_points) =
  if CurveType.eqb curve_type CurveType.BEZIER
  then S (repeats (-1, -1) curve_points)
  else 1%nat.
Proof.
  unfold make_curves. destruct (CurveType.eqb curve_type CurveType.BEZIER); [|done].
  pose proof (bezier_loop_length curve_points [] [(x, y)] (-1, -1)) as H.
  destruct (foldl _ _ _) as [[curves' curr'] prev'].
  rewrite length_app, H. simpl. lia.
Qed.

(** ** Beat durations *)

Lemma timing_point_loop_lookup (before after : list (nat * TimingPoint.t))
    (r : nat) (tp tp0 : TimingPoint.t) (store : list TimingPoint.t) (last : Q) :
  NoDup (before ++ (r, tp) :: after).*1 ->
  store !! r = Some tp0 ->
  (foldl timing_point_step (store, last) (before ++ (r, tp) :: after)).1 !! r =
  Some (if TimingPoint.uninherited tp then tp0
        else TimingPoint.set_beat_duration
               (foldl timing_point_step (store, last) before).2 tp).
Proof.
  intros Hnd Hr. rewrite fmap_app, fmap_cons in Hnd.
  apply NoDup_app in Hnd as (_ & Hbefore & Hnd). apply NoDup_cons in Hnd as [Hafter _].
  rewrite foldl_app.
  pose proof (timing_point_loop_other before store last r) as H1.
  pose proof (timing_point_loop_length before store last) as Hlen.
  destruct (foldl timing_point_step (store, last) before) as [store1 last1].
  simpl in H1, Hlen |- *.
  rewrite <- H1 in Hr by (intros Hin; by apply (Hbefore r); [|left]).
  destruct (TimingPoint.uninherited tp).
  - by rewrite timing_point_loop_other.
  - rewrite timing_point_loop_other by done.
    apply list_lookup_insert_eq. by eapply lookup_lt_Some.
Qed.

Lemma timing_point_loop_last (before between : list (nat * TimingPoint.t))
    (ru : nat) (u : TimingPoint.t) (store : list TimingPoint.t) (last : Q) :
  TimingPoint.uninherited u = true ->
  Forall (fun item => TimingPoint.uninherited (snd item) = false) between ->
  (foldl timing_point_step (store, last) (before ++ (ru, u) :: between)).2 =
  TimingPoint.beat_duration u.
Proof.
  intros Hu Hb. rewrite foldl_app.
  destruct (foldl timing_point_step (store, last) before) as [store1 last1].
  simpl. rewrite Hu. by apply timing_point_loop_inherited.
Qed.

(** X3: after the first pass an inherited timing point has the beat
    duration of the uninherited point that precedes it most closely in time
    order, and that uninherited point is as it was. *)
Theorem inherited_beat_duration (beatmap : Beatmap.t)
    (before between after : list (nat * TimingPoint.t)) (ru r : nat)
    (u tp : TimingPoint.t) :
  Py.sorted Qle_bool (fun item => TimingPoint.time (snd item))
    (Py.enumerate (Beatmap.timing_points beatmap)) =
    before ++ (ru, u) :: between ++ (r, tp) :: after ->
  TimingPoint.uninherited u = true ->
  Forall (fun item => TimingPoint.uninherited (snd item) = false) between ->
  TimingPoint.uninherited tp = false ->
  Beatmap.timing_points (populate_timing_point_properties beatmap) !! r =
    Some (TimingPoint.set_beat_duration (TimingPoint.beat_duration u) tp)
  /\ Beatmap.timing_points (populate_timing_point_properties beatmap) !! ru = Some u.
Proof.
  intros Hsorted Hu Hbetween Htp.
  pose proof (sorted_enumerate_NoDup Qle_bool
    (fun item => TimingPoint.time (snd item)) (Beatmap.timing_points beatmap)) as Hnd.
  assert (forall r' tp', (r', tp') ∈ before ++ (ru, u) :: between ++ (r, tp) :: after ->
            Beatmap.timing_points beatmap !! r' = Some tp') as Hin.
  { intros r' tp'. rewrite <- Hsorted. apply sorted_enumerate_lookup. }
  rewrite populate_timing_point_properties_eq, Hsorted in *.
  cbn [Beatmap.timing_points Beatmap.set_timing_points]. split.
  - replace (before ++ (ru, u) :: between ++ (r, tp) :: after)
      with ((before ++ (ru, u) :: between) ++ (r, tp) :: after) in *
      by by rewrite <- app_assoc.
    erewrite timing_point_loop_lookup; [|done|apply Hin, elem_of_app; right; by left].
    by rewrite Htp, timing_point_loop_last.
  - erewrite timing_point_loop_lookup; [|done|apply Hin, elem_of_app; right; by left].
    by rewrite Hu.
Qed.

Lemma inherited_beat_duration_witness :
  Beatmap.timing_points
    (populate_timing_point_properties
       (example_beatmap
          [example_timing_point 2000 false 0 4; example_timing_point 0 true 500 1;
           example_timing_point 1000 false 0 2] 1.4 [])) !! 0%nat =
    Some (example_timing_point 2000 false 500 4).
Proof.
  refine (proj1 (inherited_beat_duration _ [] [(2%nat, example_timing_point 1000 false 0 2)]
                   [] 1%nat 0%nat (example_timing_point 0 true 500 1)
                   (example_timing_point 2000 false 0 4) _ _ _ _)).
  - reflexivity.
  - reflexivity.
  - by repeat constructor.
  - reflexivity.
Defined.

(** The first pass keeps the timing points in file order and changes of an
    inherited one nothing but the beat duration. *)
Lemma timing_points_after_first_pass (beatmap : Beatmap.t) :
  Forall2
    (fun tp tp' =>
       if TimingPoint.uninherited tp then tp' = tp
       else exists v, tp' = TimingPoint.set_beat_duration v tp)
    (Beatmap.timing_points beatmap)
    (Beatmap.timing_points (populate_timing_point_properties beatmap)).
Proof.
  apply Forall2_same_length_lookup. split.
  { by rewrite populate_timing_point_properties_length. }
  intros i tp tp' Hi Hi'.
  pose proof (sorted_enumerate_NoDup Qle_bool
    (fun item => TimingPoint.time (snd item)) (Beatmap.timing_points beatmap)) as Hnd.
  pose proof (proj2 (sorted_enumerate_lookup Qle_bool
    (fun item => TimingPoint.time (snd item)) (Beatmap.timing_points beatmap) i tp) Hi)
    as Hin.
  apply list_elem_of_split in Hin as (before & after & Hsorted).
  rewrite populate_timing_point_properties_eq, Hsorted in *.
  cbn [Beatmap.timing_points Beatmap.set_timing_points] in Hi'.
  erewrite timing_point_loop_lookup in Hi' by done. injection Hi' as <-.
  destruct (TimingPoint.uninherited tp); eauto.
Qed.

(** X4: the first pass changes nothing of the beatmap but the beat duration
    of inherited timing points: the list keeps its length and its order,
    an uninherited point is untouched, and an inherited point keeps every
    other field. *)
Theorem populate_timing_point_properties_frame (beatmap : Beatmap.t) :
  populate_timing_point_properties beatmap =
    Beatmap.set_timing_points
      (Beatmap.timing_points (populate_timing_point_properties beatmap)) beatmap
  /\ Forall2
       (fun tp tp' =>
          if TimingPoint.uninherited tp then tp' = tp
          else exists v, tp' = TimingPoint.set_beat_duration v tp)
       (Beatmap.timing_points beatmap)
       (Beatmap.timing_points (populate_timing_point_properties beatmap)).
Proof.
  split; [by rewrite populate_timing_point_properties_eq|].
  apply timing_points_after_first_pass.
Qed.

(** ** What a line changes *)

Lemma timing_points_line_effect (line : string) (b b' : Beatmap.t) :
  timing_points_line line b = Ok b' -> line_effect (Some Section.TIMING_POINTS) b b'.
Proof.
  unfold timing_points_line. intros H.
  destruct (Py.split "," line) as [|? [|? [|? [|? [|? [|? [|? [|? [|? ?]]]]]]]]];
    try discriminate H.
  do 6 bind_inv H.
  destruct (Py.int s5) as [u|]; simpl in H; [|discriminate H].
  destruct (Py.int s6) as [fx|]; simpl in H; [|discriminate H].
  destruct (Py.bool_of_int u) eqn:Eu; simpl in H.
  - injection H as <-. eexists. split; [reflexivity|]. done.
  - destruct (Py.div (-100) a0) as [sv|] eqn:Ed; simpl in H; [|discriminate H].
    injection H as <-. eexists. split; [reflexivity|]. done.
Qed.

Lemma decode_type_flag_built (flag : Z) (ty : HitObjectType.t) (new_combo : bool)
    (combo_to_skip : Z) :
  decode_type_flag flag = Ok (ty, new_combo, combo_to_skip) -> combo_to_skip = 0.
Proof.
  unfold decode_type_flag. intros H. bind_inv H. injection H as _ _ <-.
  apply combo_to_skip_zero.
Qed.

Lemma hit_objects_line_effect (line : string) (b b' : Beatmap.t) :
  hit_objects_line line b = Ok b' -> line_effect (Some Section.HIT_OBJECTS) b b'.
Proof.
  unfold hit_objects_line. intros H.
  destruct (Py.split "," line) as [|? [|? [|? [|? [|? ?]]]]]; try discriminate H.
  do 4 bind_inv H.
  destruct (decode_type_flag a2) as [[[object_type new_combo] combo_to_skip]|] eqn:Ed;
    simpl in H; [|discriminate H].
  apply decode_type_flag_built in Ed as ->.
  bind_inv H. destruct object_type.
  - bind_inv H. injection H as <-. right. eexists. split; [reflexivity|].
    split; [done|]. split; [|done]. rewrite create_hit_sound_eq. by eexists.
  - bind_inv H. injection H as <-. right. eexists. split; [reflexivity|].
    unfold slider_params in E4.
    destruct l as [|? [|? [|? [|? [|? ?]]]]]; try discriminate E4.
    destruct (Py.split "|" s4) as [|curve_type curve_points_str]; [discriminate E4|].
    do 7 bind_inv E4. injection E4 as <-.
    split; [done|]. split; [rewrite create_hit_sound_eq; by eexists|].
    split; [done|]. by eexists _, _, _, _, _, _.
  - destruct l as [|end_time hit_sample]; [discriminate H|].
    do 2 bind_inv H. injection H as <-. right. eexists. split; [reflexivity|].
    split; [done|]. split; [|done]. rewrite create_hit_sound_eq. by eexists.
  - left. match type of H with (if ?c then _ else _) = _ => destruct c end;
      by injection H as <-.
Qed.

Lemma colors_line_effect (line : string) (b b' : Beatmap.t) :
  colors_line line b = Ok b' -> line_effect (Some Section.COLORS) b b'.
Proof.
  unfold colors_line. intros H.
  bind_inv H. destruct a as [key value]. simpl in H. bind_inv H.
  destruct (Py.startswith "Combo" (Py.strip key)).
  - bind_inv H. injection H as <-. split; [done|]. right. by eexists.
  - destruct (String.eqb (Py.strip key) "SliderTrackOverride").
    { simpl in H. injection H as <-. split; [done|]. by left. }
    destruct (String.eqb (Py.strip key) "SliderBorder"); simpl in H;
      injection H as <-; (split; [by destruct b|by left]).
Qed.

Lemma settings_line_effect (line : string) (b b' : Beatmap.t) :
  (general_line line b = Ok b' -> line_effect (Some Section.GENERAL) b b')
  /\ (editor_line line b = Ok b' -> line_effect (Some Section.EDITOR) b b')
  /\ (metadata_line line b = Ok b' -> line_effect (Some Section.METADATA) b b')
  /\ (difficulty_line line b = Ok b' -> line_effect (Some Section.DIFFICULTY) b b').
Proof.
  unfold general_line, editor_line, metadata_line, difficulty_line.
  repeat split; intros H; bind_inv H; destruct a as [key value]; simpl in H;
    bind_inv H; by injection H as <-.
Qed.

(** X5: a line that is read without error leaves the beatmap as it was, or
    keeps the section and changes only what belongs to it: the settings of
    the section, or its list, which gets one element more at its end (a
    timing point with the multiplier 1 if it is uninherited and with the
    beat duration 0 if it is inherited, or a hit object of the class of its
    type); a line of the Events section, or one read before any section,
    changes nothing. *)
Theorem process_line_effect (section section' : option Section.t)
    (b b' : Beatmap.t) (line : string) :
  process_line (section, b) line = Ok (section', b') ->
  b' = b \/ (section' = section /\ line_effect section b b').
Proof.
  unfold process_line.
  destruct (String.length (Py.rstrip line) =? 0)%nat; [intros [= <- <-]; by left|].
  destruct (Py.startswith "[" (Py.rstrip line)); [intros [= <- <-]; by left|].
  intros H. bind_inv H. injection H as <- <-. right. split; [done|].
  destruct (settings_line_effect (Py.rstrip line) b a) as (Hg & He & Hm & Hd).
  destruct section as [[]|]; simpl in E |- *.
  - by apply Hg.
  - by apply He.
  - by apply Hm.
  - by apply Hd.
  - by injection E as <-.
  - by eapply timing_points_line_effect.
  - by eapply colors_line_effect.
  - by eapply hit_objects_line_effect.
  - by injection E as <-.
Qed.

Lemma process_line_effect_witness :
  exists b',
    process_line (Some Section.TIMING_POINTS, Beatmap.default) "0,500,4,1,0,100,1,0" =
      Ok (Some Section.TIMING_POINTS, b')
    /\ (b' = Beatmap.default
        \/ Some Section.TIMING_POINTS = Some Section.TIMING_POINTS
           /\ line_effect (Some Section.TIMING_POINTS) Beatmap.default b').
Proof.
  eexists. split; [reflexivity|].
  by apply (process_line_effect _ _ _ _ "0,500,4,1,0,100,1,0").
Defined.

Lemma line_effect_built (section : option Section.t) (b b' : Beatmap.t) :
  line_effect section b b' -> beatmap_built b -> beatmap_built b'.
Proof.
  unfold beatmap_built. intros H (Ho & Ht & He).
  destruct section as [[]|]; simpl in H.
  - by rewrite H.
  - by rewrite H.
  - by rewrite H.
  - by rewrite H.
  - by subst.
  - destruct H as (tp & -> & Htp). simpl. split; [done|]. split; [|done].
    apply Forall_app. split; [done|]. by constructor.
  - destruct H as [-> _]. done.
  - destruct H as [->|(o & -> & Hb)]; [done|]. simpl. split; [|done].
    apply Forall_app. split; [done|]. by constructor.
  - by subst.
Qed.

Lemma process_line_built (section section' : option Section.t) (b b' : Beatmap.t)
    (line : string) :
  process_line (section, b) line = Ok (section', b') ->
  beatmap_built b -> beatmap_built b'.
Proof.
  unfold process_line.
  destruct (String.length (Py.rstrip line) =? 0)%nat; [by intros [= <- <-]|].
  destruct (Py.startswith "[" (Py.rstrip line)); [by intros [= <- <-]|].
  intros H. bind_inv H. injection H as <- <-. apply (line_effect_built section).
  destruct (settings_line_effect (Py.rstrip line) b a) as (Hg & He & Hm & Hd).
  destruct section as [[]|]; simpl in E |- *.
  - by apply Hg.
  - by apply He.
  - by apply Hm.
  - by apply Hd.
  - by injection E as <-.
  - by eapply timing_points_line_effect.
  - by eapply colors_line_effect.
  - by eapply hit_objects_line_effect.
  - by injection E as <-.
Qed.

Lemma process_lines_built (lines : list string) (section section' : option Section.t)
    (b b' : Beatmap.t) :
  foldR process_line (section, b) lines = Ok (section', b') ->
  beatmap_built b -> beatmap_built b'.
Proof.
  revert section b. induction lines as [|line lines IH]; intros section b; cbn [foldR].
  - by intros [= <- <-].
  - intros H Hb. destruct (process_line (section, b) line) as [[section1 b1]|] eqn:E;
      [|discriminate H].
    apply (IH _ _ H). by eapply process_line_built.
Qed.

(** X6: when the lines of a file are read without error, every hit object
    of the beatmap has the type tag of its class, the skip count 0 and a hit
    sound with at most [normal] set, every slider is unresolved with curves
    made from its position, every uninherited timing point has the
    multiplier 1 and every inherited one the beat duration 0, and the
    beatmap has no event. *)
Theorem read_lines_built (lines : list string) (section : option Section.t)
    (b : Beatmap.t) :
  read_lines lines = Ok (section, b) ->
  Forall hit_object_built (Beatmap.hit_objects b)
  /\ Forall timing_point_built (Beatmap.timing_points b)
  /\ Beatmap.events b = Events.default.
Proof.
  intros H. apply (process_lines_built _ _ _ _ _ H).
  by repeat split; constructor.
Qed.

Lemma read_lines_built_witness :
  exists section b,
    read_lines example_file = Ok (section, b)
    /\ Forall hit_object_built (Beatmap.hit_objects b)
    /\ Forall timing_point_built (Beatmap.timing_points b)
    /\ Beatmap.events b = Events.default.
Proof.
  let v := eval vm_compute in (read_lines example_file) in
  match v with Ok (?s, ?b) => exists s, b end.
  assert (read_lines example_file = Ok _) as H by (vm_compute; reflexivity).
  split; [exact H|]. exact (read_lines_built _ _ _ H).
Defined.

(** ** The second pass *)

(** [sorted] sorts, for a total and transitive order. *)
Lemma sorted_StronglySorted {A K : Type} (leb : K -> K -> bool) (key : A -> K)
    (l : list A) :
  (forall x y, leb x y = false -> leb y x = true) ->
  (forall x y z, leb x y = true -> leb y z = true -> leb x z = true) ->
  StronglySorted (fun a b => leb (key a) (key b) = true) (Py.sorted leb key l).
Proof.
  intros Htotal Htrans. induction l as [|a l IH]; [constructor|].
  unfold Py.sorted in *. simpl. revert IH. generalize (foldr (Py.insert leb key) [] l).
  clear l. intros l Hl. induction Hl as [|b l Hl IH Hb]; simpl.
  { by repeat constructor. }
  destruct (leb (key a) (key b)) eqn:E.
  - constructor; [by constructor|]. constructor; [done|].
    eapply Forall_impl; [exact Hb|]. intros c Hc. by eapply Htrans.
  - constructor; [done|]. rewrite (insert_Permutation leb key a l).
    constructor; [by apply Htotal|done].
Qed.

Lemma StronglySorted_lookup {A : Type} (R : A -> A -> Prop) (l : list A)
    (i j : nat) (a b : A) :
  StronglySorted R l -> (i < j)%nat -> l !! i = Some a -> l !! j = Some b -> R a b.
Proof.
  intros Hl. revert i j. induction Hl as [|c l Hl IH Hc]; intros i j Hij Hi Hj; [done|].
  destruct j as [|j]; [lia|]. destruct i as [|i]; simpl in *.
  - injection Hi as <-. eapply Forall_forall in Hc; [exact Hc|].
    by eapply list_elem_of_lookup_2.
  - apply (IH i j); [lia|done..].
Qed.

Lemma StronglySorted_weaken {A : Type} (R R' : A -> A -> Prop) (l : list A) :
  (forall a b, R a b -> R' a b) -> StronglySorted R l -> StronglySorted R' l.
Proof.
  intros HR Hl. induction Hl as [|a l Hl IH Ha]; constructor; [done|].
  eapply Forall_impl; [exact Ha|]. intros b. apply HR.
Qed.

Lemma timing_points_sorted (l : list TimingPoint.t) :
  StronglySorted
    (fun a b => (TimingPoint.time (snd a) <= TimingPoint.time (snd b))%Q)
    (Py.sorted Qle_bool (fun item : nat * TimingPoint.t => TimingPoint.time (snd item))
       (Py.enumerate l)).
Proof.
  eapply StronglySorted_weaken; [|apply sorted_StronglySorted].
  - intros a b H. by apply Qle_bool_iff.
  - intros x y H. apply Qle_bool_iff. apply not_true_iff_false in H.
    rewrite Qle_bool_iff in H. apply Qlt_le_weak. by apply Qnot_le_lt.
  - intros x y z. rewrite !Qle_bool_iff. apply Qle_trans.
Qed.

Lemma hit_objects_sorted (l : list hit_object) :
  StronglySorted
    (fun a b => HitObject.time (base (snd a)) <= HitObject.time (base (snd b)))
    (Py.sorted Z.leb (fun item : nat * hit_object => HitObject.time (base (snd item)))
       (Py.enumerate l)).
Proof.
  eapply StronglySorted_weaken; [|apply sorted_StronglySorted].
  - intros a b H. by apply Z.leb_le.
  - intros x y H. apply Z.leb_le. apply Z.leb_gt in H. lia.
  - intros x y z. rewrite !Z.leb_le. lia.
Qed.

(** With the cursor standing on the timing points, moving it on never reads
    past the end: it stops on a timing point whose successor starts later
    than [time], and when it has moved, that point starts at [time] at the
    latest. *)
Lemma advance_cursor_ok (timing_points : list (nat * TimingPoint.t)) (time : Z)
    (c : Cursor.t) :
  cursor_ok timing_points c ->
  exists c',
    advance (length timing_points - Cursor.i c) timing_points time c = Ok c'
    /\ cursor_ok timing_points c'
    /\ time_ge time (Cursor.next_time c') = false
    /\ (c' = c
        \/ (Cursor.i c < Cursor.i c')%nat
           /\ (TimingPoint.time (snd (Cursor.timing_point c')) <= inject_Z time)%Q).
Proof.
  remember (length timing_points - Cursor.i c)%nat as n eqn:En.
  revert c En. induction n as [n IH] using lt_wf_ind. intros c -> [Hi Hnext].
  rewrite advance_unfold. destruct (time_ge time (Cursor.next_time c)) eqn:Hge.
  - rewrite Hnext in Hge.
    destruct (timing_points !! S (Cursor.i c)) as [item|] eqn:Hitem; [|done].
    simpl in Hge. apply Qle_bool_iff in Hge.
    pose proof (lookup_lt_Some _ _ _ Hitem) as Hlt.
    cbv zeta. unfold Py.index. rewrite !Nat.add_1_r, Hitem.
    cbn [mbind Result_bind].
    set (next_time :=
           match timing_points !! S (S (Cursor.i c)) with
           | Some item' => Finite (TimingPoint.time (snd item'))
           | None => math_inf
           end).
    assert ((if (S (S (Cursor.i c)) <? length timing_points)%nat
             then tp ← match timing_points !! S (S (Cursor.i c)) with
                       | Some a => Ok a
                       | None => Raise IndexError
                       end;
                  Ok (Finite (TimingPoint.time (snd tp)))
             else Ok math_inf) = Ok next_time) as ->.
    { unfold next_time.
      destruct (S (S (Cursor.i c)) <? length timing_points)%nat eqn:E.
      - apply Nat.ltb_lt in E. apply lookup_lt_is_Some_2 in E as [item' ->]. done.
      - apply Nat.ltb_ge in E. by rewrite (proj2 (lookup_ge_None _ _) E). }
    destruct (IH (length timing_points - S (Cursor.i c))%nat ltac:(lia)
                (Cursor.mk (S (Cursor.i c)) item next_time) eq_refl)
      as (c' & Hadv & Hok & Hstop & Hmoved).
    { by split. }
    exists c'. split; [exact Hadv|]. split; [exact Hok|]. split; [exact Hstop|].
    right. destruct Hmoved as [->|[Hlt' Hle]]; simpl; [split; [lia|done]|].
    simpl in Hlt'. split; [lia|done].
  - exists c. repeat split; auto.
Qed.

(** Where the cursor stops is the timing point that governs the time. *)
Lemma cursor_governs (timing_points : list (nat * TimingPoint.t)) (time : Z)
    (c : Cursor.t) :
  StronglySorted
    (fun a b => (TimingPoint.time (snd a) <= TimingPoint.time (snd b))%Q)
    timing_points ->
  cursor_ok timing_points c ->
  time_ge time (Cursor.next_time c) = false ->
  Cursor.i c = 0%nat
  \/ (TimingPoint.time (snd (Cursor.timing_point c)) <= inject_Z time)%Q ->
  governs timing_points (Cursor.i c) time.
Proof.
  intros Hsorted [Hi Hnext] Hstop Hlow. split.
  - destruct Hlow as [?|Hlow]; [by left|right]. by exists (Cursor.timing_point c).
  - intros j item Hj Hitem. rewrite Hnext in Hstop.
    destruct (timing_points !! S (Cursor.i c)) as [next|] eqn:Hn.
    + simpl in Hstop. apply not_true_iff_false in Hstop.
      rewrite Qle_bool_iff in Hstop. apply Qnot_le_lt in Hstop.
      eapply Qlt_le_trans; [exact Hstop|].
      destruct (decide (j = S (Cursor.i c))) as [->|Hne].
      * rewrite Hn in Hitem. injection Hitem as <-. apply Qle_refl.
      * apply (StronglySorted_lookup _ _ (S (Cursor.i c)) j next item Hsorted);
          [lia|done..].
    + apply lookup_ge_None in Hn. apply lookup_lt_Some in Hitem. lia.
Qed.

(** The loop of [populate_slider_properties] over hit objects in time
    order: it keeps the length of the list, writes only at the references it
    visits, and leaves there what [resolved] says. *)
Lemma slider_loop_resolved (beatmap : Beatmap.t)
    (timing_points : list (nat * TimingPoint.t))
    (items : list (nat * hit_object)) :
  StronglySorted
    (fun a b => (TimingPoint.time (snd a) <= TimingPoint.time (snd b))%Q)
    timing_points ->
  forall (store store' : list hit_object) (c c' : Cursor.t),
  StronglySorted
    (fun a b => HitObject.time (base (snd a)) <= HitObject.time (base (snd b)))
    items ->
  NoDup items.*1 ->
  (forall r o, (r, o) ∈ items -> store !! r = Some o) ->
  cursor_ok timing_points c ->
  (Cursor.i c = 0%nat
   \/ forall r o, (r, o) ∈ items ->
        (TimingPoint.time (snd (Cursor.timing_point c))
         <= inject_Z (HitObject.time (base o)))%Q) ->
  foldR (slider_step beatmap timing_points) (store, c) items = Ok (store', c') ->
  length store' = length store
  /\ (forall r, r ∉ items.*1 -> store' !! r = store !! r)
  /\ (forall r o, (r, o) ∈ items ->
        exists o', store' !! r = Some o' /\ resolved timing_points o o').
Proof.
  intros Htps. induction items as [|[r o] items IH];
    intros store store' c c' Hsorted Hnodup Hstore Hc Hlow Hfold.
  { injection Hfold as <- <-. split; [done|]. split; [done|].
    intros r o Hin. by apply elem_of_nil in Hin. }
  apply StronglySorted_inv in Hsorted as [Hsorted Hhead].
  rewrite fmap_cons in Hnodup. apply NoDup_cons in Hnodup as [Hr Hnodup].
  simpl in Hr. cbn [foldR] in Hfold.
  destruct (slider_step beatmap timing_points (store, c) (r, o))
    as [[store1 c1]|e] eqn:Hstep; [|done].
  cbn [mbind Result_bind] in Hfold.
  assert (forall r' o', (r', o') ∈ items -> r' <> r) as Hother.
  { intros r' o' Hin ->. apply Hr. apply list_elem_of_fmap. by exists (r, o'). }
  assert (store !! r = Some o) as Hro by (apply Hstore; left).
  assert (length store1 = length store
          /\ (forall r', r' <> r -> store1 !! r' = store !! r')
          /\ (exists o', store1 !! r = Some o' /\ resolved timing_points o o')
          /\ cursor_ok timing_points c1
          /\ (Cursor.i c1 = 0%nat
              \/ forall r' o', (r', o') ∈ items ->
                   (TimingPoint.time (snd (Cursor.timing_point c1))
                    <= inject_Z (HitObject.time (base o')))%Q))
    as (Hlen1 & Hframe1 & Hres1 & Hc1 & Hlow1).
  { unfold slider_step in Hstep. unfold resolved.
    destruct (HitObjectType.eqb (HitObject.type (base o)) HitObjectType.SLIDER).
    - destruct (advance_cursor_ok timing_points (HitObject.time (base o)) c Hc)
        as (c2 & Hadv & Hc2 & Hstop & Hmoved).
      rewrite Hadv in Hstep. cbn [mbind Result_bind] in Hstep.
      destruct o as [b|b s|b e]; [done| |done]. simpl base in *.
      match type of Hstep with
      | mbind _ (Py.div ?n ?d) = _ =>
          destruct (Py.div n d) as [duration|] eqn:Hdiv; [|done]
      end.
      apply div_Ok in Hdiv. cbn [mbind Result_bind] in Hstep.
      injection Hstep as <- <-.
      assert (Cursor.i c2 = 0%nat
              \/ (TimingPoint.time (snd (Cursor.timing_point c2))
                  <= inject_Z (HitObject.time b))%Q) as Hlow2.
      { destruct Hmoved as [->|[_ Hle]]; [|by right].
        destruct Hlow as [?|Hlow]; [by left|right]. apply (Hlow r (Slider b s)). left. }
      split; [by rewrite length_insert|].
      split; [intros r' Hne; by rewrite list_lookup_insert_ne|].
      split.
      + eexists. split.
        { apply list_lookup_insert_eq. by eapply lookup_lt_Some. }
        destruct (Cursor.timing_point c2) as [ref tp] eqn:Htp.
        eexists b, s, (Cursor.i c2), ref, tp, _, _. split; [done|].
        split; [destruct Hc2 as [Hi _]; by rewrite Hi, Htp|].
        split; [by apply cursor_governs; [| | |rewrite Htp]|].
        reflexivity.
      + split; [done|].
        destruct Hlow2 as [?|Hlow2]; [by left|right]. intros r' o' Hin.
        eapply Qle_trans; [exact Hlow2|]. rewrite <- Zle_Qle.
        rewrite Forall_forall in Hhead. apply (Hhead (r', o') Hin).
    - injection Hstep as <- <-. split; [done|]. split; [done|].
      split; [by exists o|]. split; [done|].
      destruct Hlow as [?|Hlow]; [by left|right]. intros r' o' Hin.
      apply (Hlow r' o'). by right. }
  destruct (IH store1 store' c1 c' Hsorted Hnodup) as (Hlen & Hframe & Hres);
    [|done..|].
  { intros r' o' Hin. rewrite Hframe1 by (by eapply Hother). apply Hstore. by right. }
  split; [congruence|]. split.
  - intros r' Hr'. rewrite fmap_cons in Hr'. apply not_elem_of_cons in Hr' as [Hne Hr'].
    rewrite Hframe by done. by apply Hframe1.
  - intros r' o' Hin. apply elem_of_cons in Hin as [[= -> ->]|Hin].
    + destruct Hres1 as (o1 & Ho1 & Hres1). exists o1. split; [|done].
      by rewrite Hframe.
    + by apply (Hres r' o').
Qed.

(** X7: when [populate_slider_properties] succeeds it changes nothing of
    the beatmap but the hit objects, and these one by one, in file order:
    an object that is not a slider stays as it is; a slider keeps all its
    fields but the end time, the duration and the timing point, and is
    bound to the timing point that governs its time: in time order (points
    of equal time in file order), the last one that starts at the slider's
    time at the latest, or the first one when all start later. *)
Theorem populate_slider_properties_resolved (beatmap beatmap' : Beatmap.t) :
  populate_slider_properties beatmap = Ok beatmap' ->
  beatmap' = Beatmap.set_hit_objects (Beatmap.hit_objects beatmap') beatmap
  /\ Forall2
       (resolved
          (Py.sorted Qle_bool (fun item => TimingPoint.time (snd item))
             (Py.enumerate (Beatmap.timing_points beatmap))))
       (Beatmap.hit_objects beatmap) (Beatmap.hit_objects beatmap').
Proof.
  unfold populate_slider_properties.
  pose proof (timing_points_sorted (Beatmap.timing_points beatmap)) as Htps.
  pose proof (hit_objects_sorted (Beatmap.hit_objects beatmap)) as Hhos.
  pose proof (sorted_enumerate_NoDup Z.leb
                (fun item : nat * hit_object => HitObject.time (base (snd item)))
                (Beatmap.hit_objects beatmap)) as Hnodup.
  pose proof (fun r o =>
                proj1 (sorted_enumerate_lookup Z.leb
                         (fun item : nat * hit_object =>
                            HitObject.time (base (snd item)))
                         (Beatmap.hit_objects beatmap) r o)) as Hstore.
  pose proof (fun r o =>
                proj2 (sorted_enumerate_lookup Z.leb
                         (fun item : nat * hit_object =>
                            HitObject.time (base (snd item)))
                         (Beatmap.hit_objects beatmap) r o)) as Hitems.
  revert Htps Hhos Hnodup Hstore Hitems.
  generalize (Py.sorted Qle_bool (fun item => TimingPoint.time (snd item))
                (Py.enumerate (Beatmap.timing_points beatmap))).
  generalize (Py.sorted Z.leb (fun item => HitObject.time (base (snd item)))
                (Py.enumerate (Beatmap.hit_objects beatmap))).
  intros items timing_points Htps Hhos Hnodup Hstore Hitems. unfold Py.index.
  destruct (timing_points !! 0%nat) as [tp0|] eqn:H0; [|done].
  cbn [mbind Result_bind].
  destruct (timing_points !! (0 + 1)%nat) as [tp1|] eqn:H1; [|done].
  cbn [mbind Result_bind].
  destruct (foldR _ _ items) as [[store c']|] eqn:Hfold; [|done].
  cbn [mbind Result_bind]. intros [= <-].
  assert (cursor_ok timing_points
            (Cursor.mk 0 tp0 (Finite (TimingPoint.time (snd tp1))))) as Hc.
  { split; [exact H0|]. simpl in *. by rewrite H1. }
  destruct (slider_loop_resolved _ _ _ Htps _ _ _ _ Hhos Hnodup Hstore Hc
              ltac:(by left) Hfold)
    as (Hlen & _ & Hres).
  split; [done|]. change (Beatmap.hit_objects (Beatmap.set_hit_objects store beatmap))
    with store.
  apply Forall2_same_length_lookup_2; [done|].
  intros r o o' Ho Ho'. destruct (Hres r o (Hitems r o Ho)) as (o1 & Ho1 & Hr).
  congruence.
Qed.

Lemma populate_slider_properties_resolved_witness :
  exists beatmap beatmap',
    populate_slider_properties beatmap = Ok beatmap'
    /\ beatmap' = Beatmap.set_hit_objects (Beatmap.hit_objects beatmap') beatmap
    /\ Forall2
         (resolved
            (Py.sorted Qle_bool (fun item => TimingPoint.time (snd item))
               (Py.enumerate (Beatmap.timing_points beatmap))))
         (Beatmap.hit_objects beatmap) (Beatmap.hit_objects beatmap').
Proof.
  exists (example_beatmap
            [example_timing_point 1000 false 500 2; example_timing_point 0 true 500 1]
            1.4 [Slider (example_base 1000) (example_slider 2 350)]).
  let v := eval vm_compute in
    (populate_slider_properties
       (example_beatmap
          [example_timing_point 1000 false 500 2; example_timing_point 0 true 500 1]
          1.4 [Slider (example_base 1000) (example_slider 2 350)]))
  in match v with Ok ?b => exists b end.
  assert (populate_slider_properties
            (example_beatmap
               [example_timing_point 1000 false 500 2;
                example_timing_point 0 true 500 1]
               1.4 [Slider (example_base 1000)
                      (example_slider 2 350)]) = Ok _) as H
    by (vm_compute; reflexivity).
  split; [exact H|]. exact (populate_slider_properties_resolved _ _ H).
Defined.

(** ** What the resolver can raise *)

Lemma HitObjectType_eqb_eq (a b : HitObjectType.t) :
  HitObjectType.eqb a b = true <-> a = b.
Proof. by destruct a, b. Qed.

(** The loop of [populate_slider_properties], when every object of type
    SLIDER is of class [Slider]: the cursor stays on the timing points, so
    no index is out of range, and the only step that can raise is the
    division. *)
Lemma slider_loop_outcome (beatmap : Beatmap.t)
    (timing_points : list (nat * TimingPoint.t))
    (items : list (nat * hit_object)) :
  (forall r o, (r, o) ∈ items ->
     HitObject.type (base o) = HitObjectType.SLIDER -> exists b s, o = Slider b s) ->
  forall (store : list hit_object) (c : Cursor.t),
  cursor_ok timing_points c ->
  match foldR (slider_step beatmap timing_points) (store, c) items with
  | Ok _ => True
  | Raise e => e = InvalidOperation \/ e = DivisionByZero
  end.
Proof.
  induction items as [|[r o] items IH]; intros Hclass store c Hc; [done|].
  assert (match slider_step beatmap timing_points (store, c) (r, o) with
          | Ok st => cursor_ok timing_points (snd st)
          | Raise e => e = InvalidOperation \/ e = DivisionByZero
          end) as Hstep.
  { unfold slider_step.
    destruct (HitObjectType.eqb (HitObject.type (base o)) HitObjectType.SLIDER)
      eqn:Hty; [|done].
    apply HitObjectType_eqb_eq in Hty.
    destruct (Hclass r o ltac:(left) Hty) as (b & s & ->).
    destruct (advance_cursor_ok timing_points (HitObject.time b) c Hc)
      as (c2 & Hadv & Hc2 & _ & _).
    simpl base. rewrite Hadv. cbn [mbind Result_bind]. unfold Py.div.
    match goal with
    | |- context [Qeq_bool ?d 0] => destruct (Qeq_bool d 0)
    end; [|done].
    match goal with
    | |- context [Qeq_bool ?n 0] => destruct (Qeq_bool n 0)
    end; cbn [mbind Result_bind]; auto. }
  cbn [foldR].
  destruct (slider_step beatmap timing_points (store, c) (r, o)) as [[store1 c1]|e];
    cbn [mbind Result_bind]; [|done].
  apply IH; [|done]. intros r' o' Hin. apply (Hclass r' o'). by right.
Qed.

Lemma populate_slider_properties_outcome (beatmap : Beatmap.t) :
  (2 <= length (Beatmap.timing_points beatmap))%nat ->
  Forall (fun o => HitObject.type (base o) = HitObjectType.SLIDER ->
                   exists b s, o = Slider b s)
    (Beatmap.hit_objects beatmap) ->
  match populate_slider_properties beatmap with
  | Ok _ => True
  | Raise e => e = InvalidOperation \/ e = DivisionByZero
  end.
Proof.
  intros Hlen Hclass. unfold populate_slider_properties.
  set (timing_points := Py.sorted Qle_bool _ _).
  set (items := Py.sorted Z.leb _ _).
  assert (length timing_points = length (Beatmap.timing_points beatmap)) as Hlen'.
  { unfold timing_points. by rewrite sorted_length, enumerate_length. }
  unfold Py.index.
  destruct (lookup_lt_is_Some_2 timing_points 0%nat ltac:(lia)) as [tp0 H0].
  destruct (lookup_lt_is_Some_2 timing_points 1%nat ltac:(lia)) as [tp1 H1].
  rewrite H0. cbn [mbind Result_bind]. change (0 + 1)%nat with 1%nat.
  rewrite H1. cbn [mbind Result_bind].
  pose proof (slider_loop_outcome beatmap timing_points items) as Hloop.
  specialize (Hloop ltac:(
    intros r o Hin; apply sorted_enumerate_lookup in Hin;
    apply list_elem_of_lookup_2 in Hin; rewrite Forall_forall in Hclass;
    by apply Hclass)).
  specialize (Hloop (Beatmap.hit_objects beatmap)
                (Cursor.mk 0 tp0 (Finite (TimingPoint.time (snd tp1))))).
  specialize (Hloop ltac:(split; [exact H0|]; simpl; by rewrite H1)).
  by destruct (foldR _ _ items) as [[store c']|e].
Qed.

Lemma hit_object_built_class (o : hit_object) :
  hit_object_built o ->
  HitObject.type (base o) = HitObjectType.SLIDER -> exists b s, o = Slider b s.
Proof.
  intros (_ & _ & Hclass) Hty. destruct o as [b|b s|b e]; simpl in *.
  - by rewrite Hclass in Hty.
  - by exists b, s.
  - by rewrite Hclass in Hty.
Qed.

Lemma first_pass_others (beatmap : Beatmap.t) :
  Beatmap.hit_objects (populate_timing_point_properties beatmap) =
    Beatmap.hit_objects beatmap
  /\ Beatmap.difficulty (populate_timing_point_properties beatmap) =
     Beatmap.difficulty beatmap.
Proof. by rewrite populate_timing_point_properties_eq. Qed.

(** X8: what the resolver cannot raise on a beatmap the line loop has built
    with at least two timing points.  Its cursor never leaves the timing
    points, and an object the loader gave the type SLIDER is of class
    [Slider] and has the fields the resolver reads: so an exception that
    [load] raises after the line loop is no IndexError, no AttributeError
    and no ValueError.  (What is left is an error of the decimal arithmetic
    of the duration.) *)
Theorem load_raises_no_index_error (lines : list string)
    (section : option Section.t) (beatmap : Beatmap.t) (e : Exception) :
  read_lines lines = Ok (section, beatmap) ->
  (2 <= length (Beatmap.timing_points beatmap))%nat ->
  load lines = Raise e ->
  e <> IndexError /\ e <> AttributeError /\ e <> ValueError.
Proof.
  intros Hread Hlen. unfold load. rewrite Hread. cbn [mbind Result_bind].
  destruct (process_lines_built _ _ _ _ _ Hread) as (Hhos & _ & _).
  { by repeat split; constructor. }
  pose proof (populate_slider_properties_outcome
                (populate_timing_point_properties beatmap)) as Hout.
  rewrite populate_timing_point_properties_length in Hout.
  destruct (first_pass_others beatmap) as [Ehos _]. rewrite Ehos in Hout.
  specialize (Hout Hlen).
  specialize (Hout ltac:(
    eapply Forall_impl; [exact Hhos|]; apply hit_object_built_class)).
  destruct (populate_slider_properties (populate_timing_point_properties beatmap))
    as [beatmap'|e']; [done|].
  intros [= <-]. by destruct Hout as [->| ->].
Qed.

Lemma load_raises_no_index_error_witness :
  exists section beatmap e,
    read_lines zero_slider_multiplier_file = Ok (section, beatmap)
    /\ (2 <= length (Beatmap.timing_points beatmap))%nat
    /\ load zero_slider_multiplier_file = Raise e
    /\ e <> IndexError /\ e <> AttributeError /\ e <> ValueError.
Proof.
  let v := eval vm_compute in (read_lines zero_slider_multiplier_file) in
  match v with Ok (?s, ?b) => exists s, b end.
  let v := eval vm_compute in (load zero_slider_multiplier_file) in
  match v with Raise ?e => exists e end.
  assert (read_lines zero_slider_multiplier_file = Ok _) as H
    by (vm_compute; reflexivity).
  assert (load zero_slider_multiplier_file = Raise _) as H'
    by (vm_compute; reflexivity).
  split; [exact H|]. split; [simpl; lia|]. split; [exact H'|].
  apply (load_raises_no_index_error _ _ _ _ H); [simpl; lia|exact H'].
Defined.

(** ** The lines as the loader reads them *)

Lemma process_line_rstrip (st : option Section.t * Beatmap.t) (line : string) :
  process_line st (Py.rstrip line) = process_line st line.
Proof.
  unfold process_line, Py.rstrip. destruct st as [section beatmap].
  by rewrite rstrip_of_idem.
Qed.

Lemma process_line_blank (st : option Section.t * Beatmap.t) (line : string) :
  (String.length (Py.rstrip line) =? 0)%nat = true -> process_line st line = Ok st.
Proof. unfold process_line. destruct st as [section beatmap]. by intros ->. Qed.

Lemma process_lines_normal_form (lines : list string)
    (st : option Section.t * Beatmap.t) :
  foldR process_line st
    (List.filter (fun line => negb (String.length line =? 0)%nat) (Py.rstrip <$> lines)) =
  foldR process_line st lines.
Proof.
  revert st. induction lines as [|line lines IH]; intros st; [done|].
  rewrite fmap_cons. cbn [List.filter foldR].
  destruct (String.length (Py.rstrip line) =? 0)%nat eqn:E; cbn [negb foldR].
  - rewrite (process_line_blank st line E). cbn [mbind Result_bind]. apply IH.
  - rewrite process_line_rstrip. destruct (process_line st line) as [st'|e]; [|done].
    cbn [mbind Result_bind]. apply IH.
Qed.

(** X9: the loader reads a file up to the whitespace at the end of its lines
    and up to its blank lines: with every line stripped on the right and the
    lines that are then empty left out, [load] gives the same beatmap or
    raises the same exception. *)
Theorem load_normal_form (lines : list string) :
  load (List.filter (fun line => negb (String.length line =? 0)%nat)
          (Py.rstrip <$> lines)) =
  load lines.
Proof. unfold load, read_lines. by rewrite process_lines_normal_form. Qed.

(** ** Calls of [load] one after another *)

(** Destructs the computations of a chain of binds that stands on both
    sides of the goal. *)
Ltac bind_step :=
  match goal with
  | |- (?m ≫= _) = _ =>
      bind_head m ltac:(fun h =>
        destruct h;
        repeat match goal with a : (_ * _)%type |- _ => destruct a end;
        cbn [mbind Result_bind fmap Result_fmap];
        try reflexivity)
  end.

Ltac bind_both := repeat bind_step.

Lemma process_line_colors_after (shared : list (list Z)) (section : option Section.t)
    (beatmap : Beatmap.t) (line : string) :
  process_line (section, colors_after shared beatmap) line =
  (fun st : option Section.t * Beatmap.t => (fst st, colors_after shared (snd st)))
    <$> process_line (section, beatmap) line.
Proof.
  unfold process_line.
  destruct (String.length (Py.rstrip line) =? 0)%nat; [done|].
  destruct (Py.startswith "[" (Py.rstrip line)); [done|].
  generalize (Py.rstrip line). clear line. intros line.
  destruct section as [[]|]; cbv iota; try reflexivity.
  - unfold general_line. cbn [colors_after Beatmap.general Beatmap.set_colors].
    bind_both.
  - unfold editor_line. cbn [colors_after Beatmap.editor Beatmap.set_colors].
    bind_both.
  - unfold metadata_line. cbn [colors_after Beatmap.metadata Beatmap.set_colors].
    bind_both.
  - unfold difficulty_line. cbn [colors_after Beatmap.difficulty Beatmap.set_colors].
    bind_both.
  - unfold timing_points_line.
    cbn [colors_after Beatmap.timing_points Beatmap.set_colors].
    destruct (Py.split "," line) as [|? [|? [|? [|? [|? [|? [|? [|? [|? ?]]]]]]]]];
      try reflexivity.
    bind_both.
  - unfold colors_line. cbn [colors_after Beatmap.colors Beatmap.set_colors].
    destruct (unpack2 (Py.split ":" line)) as [[key value]|]; [|done].
    cbn [mbind Result_bind fmap Result_fmap].
    destruct (mapR Py.int (Py.split "," (Py.strip value))) as [color|]; [|done].
    cbn [mbind Result_bind fmap Result_fmap].
    destruct (Py.startswith "Combo" (Py.strip key)).
    + destruct (Py.int (Py.slice_from 5 (Py.strip key))); [|done].
      unfold colors_after. cbn. by rewrite <- app_assoc.
    + destruct (Py.strip key =? "SliderTrackOverride")%string; [done|].
      by destruct (Py.strip key =? "SliderBorder")%string.
  - unfold hit_objects_line.
    cbn [colors_after Beatmap.hit_objects Beatmap.set_colors].
    destruct (Py.split "," line) as [|? [|? [|? [|? [|? params]]]]];
      try reflexivity.
    do 6 bind_step.
    match goal with
    | |- context [match ?ty with HitObjectType.HIT_CIRCLE => _ | _ => _ end] =>
        destruct ty
    end.
    + bind_both.
    + bind_both.
    + destruct params; [done|]. bind_both.
    + by destruct (_ =? _).
Qed.

Lemma process_lines_colors_after (shared : list (list Z)) (lines : list string)
    (section : option Section.t) (beatmap : Beatmap.t) :
  foldR process_line (section, colors_after shared beatmap) lines =
  (fun st : option Section.t * Beatmap.t => (fst st, colors_after shared (snd st)))
    <$> foldR process_line (section, beatmap) lines.
Proof.
  revert section beatmap. induction lines as [|line lines IH]; intros section beatmap;
    [done|].
  cbn [foldR]. rewrite process_line_colors_after.
  destruct (process_line (section, beatmap) line) as [[section' beatmap']|]; [|done].
  cbn [mbind Result_bind fmap Result_fmap fst snd]. apply IH.
Qed.

Lemma resolver_colors_after (shared : list (list Z)) (beatmap : Beatmap.t) :
  populate_slider_properties
    (populate_timing_point_properties (colors_after shared beatmap)) =
  colors_after shared
    <$> populate_slider_properties (populate_timing_point_properties beatmap).
Proof.
  replace (populate_timing_point_properties (colors_after shared beatmap))
    with (colors_after shared (populate_timing_point_properties beatmap))
    by (by rewrite !populate_timing_point_properties_eq).
  generalize (populate_timing_point_properties beatmap). clear beatmap.
  intros beatmap. unfold populate_slider_properties.
  change (slider_step (colors_after shared beatmap)) with (slider_step beatmap).
  cbn [colors_after Beatmap.timing_points Beatmap.hit_objects Beatmap.set_colors].
  bind_both.
Qed.

(** X10: calls of [load] in one interpreter are not independent.  A call
    made when the shared list of combo colours holds [shared] behaves as a
    first call does (it raises the same exception, or returns the same
    beatmap) except that the combo colours of the beatmap start with
    [shared]; so a second [load] returns the combo colours of the first
    file in front of those of its own.  Nothing else of the beatmap depends
    on earlier calls. *)
Theorem load_after_load (shared : list (list Z)) (lines : list string) :
  load_after [] lines = load lines
  /\ load_after shared lines = colors_after shared <$> load lines.
Proof.
  split; [done|]. unfold load_after, load, read_lines.
  replace (Beatmap_after shared) with (colors_after shared Beatmap.default)
    by (unfold colors_after, Beatmap_after; simpl; by rewrite app_nil_r).
  rewrite process_lines_colors_after.
  destruct (foldR process_line (None, Beatmap.default) lines)
    as [[section beatmap]|]; [|done].
  cbn [mbind Result_bind fmap Result_fmap fst snd]. apply resolver_colors_after.
Qed.

(** ** Header lines, tags and hold notes *)

Lemma rstrip_of_snoc (space : ascii -> bool) (s : string) (c : ascii) :
  space c = false ->
  Py.rstrip_of space (s ++ String c "")%string = (s ++ String c "")%string.
Proof.
  intros Hc. induction s as [|d r IH]; simpl.
  - by rewrite Hc.
  - rewrite IH. by destruct r.
Qed.

Lemma drop_last_snoc (s : string) (c : ascii) :
  Py.drop_last (s ++ String c "")%string = s.
Proof.
  induction s as [|d r IH]; [done|]. simpl in *. rewrite IH. by destruct r.
Qed.

(** X11: a line that starts with an opening bracket is a header line
    whatever its last character is: that character is cut off unread, so
    [[General}] or [[GeneralX] select the section General as [[General]]
    does.  Such a line never raises and never changes the beatmap. *)
Theorem header_last_character_unread (section : option Section.t)
    (beatmap : Beatmap.t) (name : string) (c : ascii) :
  Py.isspace c = false ->
  process_line (section, beatmap) (String "[" (name ++ String c "")) =
    Ok (header_section name section, beatmap).
Proof.
  intros Hc. unfold process_line, Py.rstrip.
  change (String "[" (name ++ String c ""))%string
    with (String "[" name ++ String c "")%string.
  rewrite (rstrip_of_snoc _ _ _ Hc).
  change (String "[" name ++ String c "")%string
    with (String "[" (name ++ String c ""))%string.
  cbn [String.length Nat.eqb]. unfold Py.startswith, Py.slice_1_m1.
  cbn [String.prefix Py.slice_from]. destruct (ascii_dec "[" "[") as [_|?]; [|done].
  rewrite drop_last_snoc. by destruct name.
Qed.

Lemma header_last_character_unread_witness :
  process_line (Some Section.GENERAL, Beatmap.default) "[HitObjects}" =
    Ok (Some Section.HIT_OBJECTS, Beatmap.default).
Proof.
  exact (header_last_character_unread (Some Section.GENERAL) Beatmap.default
           "HitObjects" "}" eq_refl).
Defined.

Lemma concat_split (sep : ascii) (s : string) :
  String.concat (String sep "") (Py.split sep s) = s.
Proof.
  induction s as [|c r IH]; [done|]. cbn [Py.split].
  destruct (split_cons sep r) as (w & ws & E). rewrite E in *.
  change (String.concat (String sep "") (w :: ws)) with
    match ws with
    | [] => w
    | _ => (w ++ String sep "" ++ String.concat (String sep "") ws)%string
    end in IH.
  destruct (Ascii.eqb_spec c sep) as [->|Hne].
  - change (String.concat (String sep "") ("" :: w :: ws))
      with (String sep (String.concat (String sep "") (w :: ws))).
    f_equal. by destruct ws.
  - change (String.concat (String sep "") (String c w :: ws)) with
      match ws with
      | [] => String c w
      | _ => String c (w ++ String sep "" ++ String.concat (String sep "") ws)%string
      end.
    destruct ws; by rewrite <- IH.
Qed.

Lemma split_no_space (s : string) :
  Forall (fun tag => no_space tag = true) (Py.split " " s).
Proof.
  induction s as [|c r IH]; cbn [Py.split]; [by repeat constructor|].
  destruct (Ascii.eqb c " ") eqn:Ec; [by constructor|].
  destruct (split_cons " " r) as (w & ws & E). rewrite E in *.
  apply Forall_cons in IH as [Hw Hws]. constructor; [|done].
  cbn [no_space]. by rewrite Ec, Hw.
Qed.

Lemma split_no_space_one (s : string) :
  no_space s = true -> Py.split " " s = [s].
Proof.
  induction s as [|c r IH]; cbn [Py.split no_space]; [done|].
  intros [Hc Hr]%andb_true_iff. apply negb_true_iff in Hc. by rewrite Hc, (IH Hr).
Qed.

(** Joining with spaces and cutting at spaces are inverse to each other on
    the non-empty lists of texts without a space. *)
Lemma split_concat (tags : list string) :
  tags <> [] -> Forall (fun tag => no_space tag = true) tags ->
  Py.split " " (String.concat " " tags) = tags.
Proof.
  induction tags as [|tag tags IH]; [done|]. intros _ [Htag Htags]%Forall_cons.
  destruct tags as [|tag' tags].
  - by apply split_no_space_one.
  - change (String.concat " " (tag :: tag' :: tags))
      with (tag ++ String " " (String.concat " " (tag' :: tags)))%string.
    rewrite split_app, (split_no_space_one _ Htag), IH; done.
Qed.

(** X12: a line [Tags:...] of the Metadata section stores the text after
    the colon, stripped, cut at every single space and nowhere else: no tag
    holds a space, and the tags joined with single spaces give the stripped
    text back; the stored list is the only non-empty one of which this
    holds.  It is never empty: an empty text gives the one tag [""], two
    spaces in a row an empty tag between them. *)
Theorem tags_round_trip (value : string) (beatmap : Beatmap.t) :
  exists tags,
    metadata_line ("Tags:" ++ value) beatmap =
      Ok (Beatmap.set_metadata (Metadata.set_tags tags (Beatmap.metadata beatmap))
            beatmap)
    /\ tags <> []
    /\ Forall (fun tag => no_space tag = true) tags
    /\ String.concat " " tags = Py.strip value
    /\ forall tags',
         tags' <> [] -> Forall (fun tag => no_space tag = true) tags' ->
         String.concat " " tags' = Py.strip value -> tags' = tags.
Proof.
  exists (Py.split " " (Py.strip value)). split; [|split; [|split; [|split]]].
  - unfold metadata_line.
    change ("Tags:" ++ value)%string with ("Tags" ++ String ":" value)%string.
    by rewrite split1_first_colon.
  - by destruct (split_cons " " (Py.strip value)) as (w & ws & ->).
  - apply split_no_space.
  - apply concat_split.
  - intros tags' Hne Hsp <-. symmetry. by apply split_concat.
Qed.

Lemma tags_round_trip_witness :
  exists tags,
    metadata_line "Tags:rock  live" Beatmap.default =
      Ok (Beatmap.set_metadata (Metadata.set_tags tags Metadata.default)
            Beatmap.default)
    /\ ["rock"; ""; "live"] = tags.
Proof.
  destruct (tags_round_trip "rock  live" Beatmap.default)
    as (tags & Hline & _ & _ & _ & Honly).
  exists tags. split; [exact Hline|].
  apply Honly; [done|by repeat constructor|reflexivity].
Defined.

(** X13: in the HitObjects section a line whose type flag has, of the bits
    0, 1, 3 and 7, bit 7 alone set (a hold note of osu!mania, with or without
    the new-combo bit and the combo-skip bits) adds nothing and raises
    nothing once its first five fields are integers: the fields after them
    are not read. *)
Theorem hold_note_flags_skipped (beatmap : Beatmap.t) (line : string)
    (x y start_time object_type_flag hit_sound : string)
    (object_params : list string) (vx vy vt vf vh : Z) :
  Py.split "," line =
    x :: y :: start_time :: object_type_flag :: hit_sound :: object_params ->
  Py.int x = Ok vx -> Py.int y = Ok vy -> Py.int start_time = Ok vt ->
  Py.int object_type_flag = Ok vf -> Py.int hit_sound = Ok vh ->
  Z.land vf 139 = 128 ->
  hit_objects_line line beatmap = Ok beatmap.
Proof.
  intros Hsplit Hx Hy Ht Hf Hh Hbits.
  unfold hit_objects_line. rewrite Hsplit, Hx, Hy, Ht, Hf.
  cbn [mbind Result_bind]. unfold decode_type_flag. rewrite Hbits.
  cbn [HitObjectType.of_value HitObjectType.value Z.eqb Z.pow Z.pow_pos Pos.iter
       Z.mul Pos.mul Pos.eqb mbind Result_bind].
  rewrite Hh. cbn [mbind Result_bind]. by destruct (vf =? _).
Qed.

Lemma hold_note_flags_skipped_witness :
  hit_objects_line "64,192,3000,132,0,3500:0:0:0:0:" Beatmap.default =
    Ok Beatmap.default.
Proof.
  by apply (hold_note_flags_skipped _ _ "64" "192" "3000" "132" "0"
              ["3500:0:0:0:0:"] 64 192 3000 132 0).
Defined.
